(** * Stokes parameter conversion engine (src/component/StokesParameters.py)

    A shallow embedding of the [StokesParameters] class: the numpy arrays of
    doubles, the pandas frames it reads and builds, and the four methods
    [load_data], [convert_to_stokes], [get_polarization_properties] and
    [save_results].

    Numbers.  A numpy [float64] is modelled by [float64] below: the three
    IEEE-754 special values are kept (so that the propagation of NaN and of
    infinities through the array expressions is the one of the program),
    and a finite double is a real number on which the operations are exact.
    Rounding, overflow to infinity, underflow and the sign of zero (zero
    stands for +0) are not modelled; a statement that holds in real
    arithmetic only says so. *)

From Stdlib Require Import Reals Lra List String Bool Arith Lia QArith.
From Stdlib Require Import Ascii DecimalString.
Import ListNotations.

Local Open Scope R_scope.

(* ===================================================================== *)
(** * numpy doubles *)
(* ===================================================================== *)

Module NP.

Inductive float64 : Type :=
| Fin (r : R)
| PInf
| NInf
| NaN.

(** The sign of a real, as the three-way comparison with zero. *)
Definition Rsgn (r : R) : comparison :=
  match total_order_T r 0 with
  | inleft (left _) => Lt
  | inleft (right _) => Eq
  | inright _ => Gt
  end.

Definition isfinite (x : float64) : bool :=
  match x with Fin _ => true | _ => false end.

Definition isnan (x : float64) : bool :=
  match x with NaN => true | _ => false end.

Definition fneg (x : float64) : float64 :=
  match x with
  | Fin r => Fin (- r)
  | PInf => NInf
  | NInf => PInf
  | NaN => NaN
  end.

Definition fadd (x y : float64) : float64 :=
  match x, y with
  | NaN, _ | _, NaN => NaN
  | Fin a, Fin b => Fin (a + b)
  | PInf, NInf | NInf, PInf => NaN
  | PInf, _ | _, PInf => PInf
  | NInf, _ | _, NInf => NInf
  end.

Definition fsub (x y : float64) : float64 := fadd x (fneg y).

(** An infinity of the sign [s]; a zero sign is the invalid operation. *)
Definition inf_of (s : comparison) : float64 :=
  match s with Gt => PInf | Lt => NInf | Eq => NaN end.

Definition fmul (x y : float64) : float64 :=
  match x, y with
  | NaN, _ | _, NaN => NaN
  | Fin a, Fin b => Fin (a * b)
  | Fin a, PInf | PInf, Fin a => inf_of (Rsgn a)
  | Fin a, NInf | NInf, Fin a => inf_of (CompOpp (Rsgn a))
  | PInf, PInf | NInf, NInf => PInf
  | PInf, NInf | NInf, PInf => NInf
  end.

(** numpy division of arrays: dividing by zero raises nothing, it gives an
    infinity of the sign of the dividend, and NaN for 0/0. *)
Definition fdiv (x y : float64) : float64 :=
  match x, y with
  | NaN, _ | _, NaN => NaN
  | Fin a, Fin b =>
      match Rsgn b with
      | Eq => inf_of (Rsgn a)
      | _ => Fin (a / b)
      end
  | Fin _, PInf | Fin _, NInf => Fin 0
  | PInf, Fin b => match Rsgn b with Lt => NInf | _ => PInf end
  | NInf, Fin b => match Rsgn b with Lt => PInf | _ => NInf end
  | PInf, PInf | PInf, NInf | NInf, PInf | NInf, NInf => NaN
  end.

(** [np.sqrt]: NaN on a negative argument. *)
Definition fsqrt (x : float64) : float64 :=
  match x with
  | Fin r => match Rsgn r with Lt => NaN | _ => Fin (sqrt r) end
  | PInf => PInf
  | NInf => NaN
  | NaN => NaN
  end.

(** [10 ** x] on an array of doubles. *)
Definition pow10 (x : float64) : float64 :=
  match x with
  | Fin r => Fin (Rpower 10 r)
  | PInf => PInf
  | NInf => Fin 0
  | NaN => NaN
  end.

(** [x ** 2]. *)
Definition fsquare (x : float64) : float64 := fmul x x.

Definition fabs (x : float64) : float64 :=
  match x with
  | Fin r => Fin (Rabs r)
  | PInf | NInf => PInf
  | NaN => NaN
  end.

Definition fcos (x : float64) : float64 :=
  match x with Fin r => Fin (cos r) | _ => NaN end.

Definition fsin (x : float64) : float64 :=
  match x with Fin r => Fin (sin r) | _ => NaN end.

Definition ftan (x : float64) : float64 :=
  match x with Fin r => Fin (tan r) | _ => NaN end.

Definition arctan (x : float64) : float64 :=
  match x with
  | Fin r => Fin (atan r)
  | PInf => Fin (PI / 2)
  | NInf => Fin (- (PI / 2))
  | NaN => NaN
  end.

(** [np.arcsin]: NaN outside [-1, 1]. *)
Definition arcsin (x : float64) : float64 :=
  match x with
  | Fin r =>
      if Rlt_dec r (-1) then NaN
      else if Rlt_dec 1 r then NaN
      else Fin (asin r)
  | _ => NaN
  end.

(** The angle of the point (x, y), in (-PI, PI], on finite reals. *)
Definition Ratan2 (y x : R) : R :=
  match Rsgn x with
  | Gt => atan (y / x)
  | Lt => match Rsgn y with
          | Lt => atan (y / x) - PI
          | _ => atan (y / x) + PI
          end
  | Eq => match Rsgn y with
          | Gt => PI / 2
          | Lt => - (PI / 2)
          | Eq => 0
          end
  end.

(** [np.arctan2 y x], with the C99 values at the infinities. *)
Definition arctan2 (y x : float64) : float64 :=
  match y, x with
  | NaN, _ | _, NaN => NaN
  | Fin a, Fin b => Fin (Ratan2 a b)
  | Fin a, PInf => Fin 0
  | Fin a, NInf => match Rsgn a with Lt => Fin (- PI) | _ => Fin PI end
  | PInf, Fin _ => Fin (PI / 2)
  | NInf, Fin _ => Fin (- (PI / 2))
  | PInf, PInf => Fin (PI / 4)
  | NInf, PInf => Fin (- (PI / 4))
  | PInf, NInf => Fin (3 * PI / 4)
  | NInf, NInf => Fin (- (3 * PI / 4))
  end.

Definition deg2rad (x : float64) : float64 := fmul x (Fin (PI / 180)).
Definition rad2deg (x : float64) : float64 := fmul x (Fin (180 / PI)).



End NP.

(* ===================================================================== *)
(** * pandas frames and numpy arrays *)
(* ===================================================================== *)

Module PD.
Import NP.

(** A one-dimensional array of doubles. *)
Definition ndarray := list float64.

(** A column of a frame has one dtype: numbers (pandas' int64 and float64,
    an empty cell being NaN) or text (dtype object). *)
Inductive column : Type :=
| FloatCol (v : ndarray)
| ObjectCol (v : list string).

Definition col_len (c : column) : nat :=
  match c with
  | FloatCol v => List.length v
  | ObjectCol v => List.length v
  end.

(** A frame is the list of its named columns, in file order: the order
    matters, [iloc] selects by position. *)
Definition DataFrame := list (string * column).

(** Every column of the frame has [n] cells (the invariant of a frame). *)
Definition has_rows (n : nat) (df : DataFrame) : Prop :=
  Forall (fun nc => col_len (snd nc) = n) df.

Definition column_names (df : DataFrame) : list string := map fst df.

(** [df[name]]; [None] is the KeyError. *)
Fixpoint getitem (df : DataFrame) (name : string) : option column :=
  match df with
  | [] => None
  | (k, c) :: rest => if String.eqb k name then Some c else getitem rest name
  end.

(** [df.iloc[:, j]]; [None] is the IndexError. *)
Definition iloc (df : DataFrame) (j : nat) : option column :=
  option_map snd (nth_error df j).

(** The values of a column as operand of arithmetic or of a numpy function:
    on a column of text the operation raises TypeError ([None]). *)
Definition as_float (c : column) : option ndarray :=
  match c with FloatCol v => Some v | ObjectCol _ => None end.

(** Elementwise operation on two arrays of one frame. *)
Fixpoint zipWith (f : float64 -> float64 -> float64) (a b : ndarray) : ndarray :=
  match a, b with
  | x :: a', y :: b' => f x y :: zipWith f a' b'
  | _, _ => []
  end.

Definition amul (a b : ndarray) : ndarray := zipWith fmul a b.
Definition aadd (a b : ndarray) : ndarray := zipWith fadd a b.
Definition adiv (a b : ndarray) : ndarray := zipWith fdiv a b.

(** Array and scalar (the scalar is broadcast). *)
Definition adivs (a : ndarray) (s : float64) : ndarray := map (fun x => fdiv x s) a.
Definition amuls (a : ndarray) (s : float64) : ndarray := map (fun x => fmul x s) a.
Definition asubs (a : ndarray) (s : float64) : ndarray := map (fun x => fsub x s) a.
Definition aadds (a : ndarray) (s : float64) : ndarray := map (fun x => fadd x s) a.
Definition smul (s : float64) (a : ndarray) : ndarray := map (fmul s) a.
Definition sdiv (s : float64) (a : ndarray) : ndarray := map (fdiv s) a.
Definition asquare (a : ndarray) : ndarray := map fsquare a.

(** The numeric cell of column [name] at row [i]. *)
Definition cell (df : DataFrame) (name : string) (i : nat) : option float64 :=
  match getitem df name with
  | Some (FloatCol v) => nth_error v i
  | _ => None
  end.

End PD.

(** Sequencing of steps that may raise: [None] is the exception caught by
    the method's [except Exception]. *)
Notation "x <- e ; k" :=
  (match e with Some x => k | None => None end)
    (at level 61, e at next level, right associativity, only parsing).

(* ===================================================================== *)
(** * The engine *)
(* ===================================================================== *)

Import NP PD.

(** The two attributes of a [StokesParameters] object. *)
Record StokesParameters : Type := {
  data : option DataFrame;
  stokes_results : option DataFrame
}.

(** [StokesParameters.__init__] *)
Definition init : StokesParameters :=
  {| data := None; stokes_results := None |}.

Definition eps : float64 := Fin (/ 10000000000).

(** The azimuth column: by name, and when that raises, the fifth column. *)
Definition azimuth_column (df : DataFrame) : option column :=
  match getitem df "φ [°]" with
  | Some c => Some c
  | None => iloc df 4
  end.

(** The body of the [try] of [convert_to_stokes]: the frame of results, or
    [None] when a step raises. *)
Definition stokes_frame (df : DataFrame) : option DataFrame :=
  c_int <- getitem df "Intensity [%]";
  v_int <- as_float c_int;
  let intensity := adivs v_int (Fin 100) in
  c_dop <- getitem df "DOP [%]";
  v_dop <- as_float c_dop;
  let dop := adivs v_dop (Fin 100) in
  c_az <- azimuth_column df;
  c_per <- getitem df "PER [dB]";
  azimuth_deg <- as_float c_az;
  let azimuth_rad := map deg2rad azimuth_deg in
  per_db <- as_float c_per;
  let per_linear := map pow10 (adivs per_db (Fin 10)) in
  let ellipticity_angle :=
    smul (Fin (1 / 2))
         (map arctan (sdiv (Fin 2) (map fsqrt (asubs per_linear (Fin 1))))) in
  let S0 := intensity in
  let S1 := amul (amul (amul intensity dop)
                       (map fcos (smul (Fin 2) azimuth_rad)))
                 (map fcos (smul (Fin 2) ellipticity_angle)) in
  let S2 := amul (amul (amul intensity dop)
                       (map fsin (smul (Fin 2) azimuth_rad)))
                 (map fcos (smul (Fin 2) ellipticity_angle)) in
  let S3 := amul (amul intensity dop)
                 (map fsin (smul (Fin 2) ellipticity_angle)) in
  c_no <- getitem df "No";
  Some [ ("No", c_no);
         ("S0", FloatCol S0);
         ("S1", FloatCol S1);
         ("S2", FloatCol S2);
         ("S3", FloatCol S3);
         ("DOP_calculated",
          FloatCol (adiv (map fsqrt (aadd (aadd (asquare S1) (asquare S2))
                                          (asquare S3)))
                         S0));
         ("Azimuth_original [°]", FloatCol azimuth_deg);
         ("PER_original [dB]", FloatCol per_db);
         ("Intensity_original [%]", c_int) ]%string.

(** [convert_to_stokes]: the new state of the object and the value returned. *)
Definition convert_to_stokes (self : StokesParameters)
  : StokesParameters * option DataFrame :=
  match data self with
  | None => (self, None)
  | Some df =>
      match stokes_frame df with
      | Some results =>
          ({| data := data self; stokes_results := Some results |}, Some results)
      | None => (self, None)
      end
  end.

(** The body of the [try] of [get_polarization_properties]. *)
Definition properties_frame (sr : DataFrame) : option DataFrame :=
  c0 <- getitem sr "S0";
  c1 <- getitem sr "S1";
  c2 <- getitem sr "S2";
  c3 <- getitem sr "S3";
  S1 <- as_float c1;
  S2 <- as_float c2;
  S3 <- as_float c3;
  S0 <- as_float c0;
  let dop_calc :=
    adiv (map fsqrt (aadd (aadd (asquare S1) (asquare S2)) (asquare S3))) S0 in
  let azimuth_calc := smul (Fin (1 / 2)) (map rad2deg (zipWith arctan2 S2 S1)) in
  let ellipticity_calc :=
    smul (Fin (1 / 2))
         (map rad2deg (map arcsin (adiv S3 (aadds (amul S0 dop_calc) eps)))) in
  let ellipticity_ratio := map ftan (map deg2rad ellipticity_calc) in
  c_no <- getitem sr "No";
  Some [ ("No", c_no);
         ("DOP [%]", FloatCol (amuls dop_calc (Fin 100)));
         ("Azimuth_calculated [°]", FloatCol azimuth_calc);
         ("Ellipticity_angle [°]", FloatCol ellipticity_calc);
         ("Ellipticity_ratio", FloatCol ellipticity_ratio);
         ("Linear_DOP [%]",
          FloatCol (amuls (adiv (map fsqrt (aadd (asquare S1) (asquare S2))) S0)
                          (Fin 100)));
         ("Circular_DOP [%]",
          FloatCol (amuls (adiv (map fabs S3) S0) (Fin 100))) ]%string.

(** [get_polarization_properties]: it reads the object and changes nothing. *)
Definition get_polarization_properties (self : StokesParameters)
  : option DataFrame :=
  match stokes_results self with
  | None => None
  | Some sr => properties_frame sr
  end.

(* ===================================================================== *)
(** * Files: [load_data] and [save_results] *)
(* ===================================================================== *)

(** What [pd.read_csv] does on a file with one encoding. *)
Inductive read_result : Type :=
| ReadOk (df : DataFrame)
| UnicodeDecodeError
| OtherError.

(** A read that raised, whatever the exception. *)
Definition read_fails (r : read_result) : Prop :=
  match r with ReadOk _ => False | _ => True end.

(** The dictionary returned by [chardet.detect]. *)
Record detection : Type := {
  encoding : option string;
  confidence : Q
}.

(** The calls that [load_data] makes to the outside, in order. *)
Inductive event : Type :=
| EvRead (enc : string)
| EvOpen
| EvDetect.

Definition encodings : list string :=
  [ "utf-8"; "gbk"; "utf-16le"; "gb2312"; "latin-1"; "cp1252"; "utf-8-sig" ]%string.

(** Truth value of a Python string. *)
Definition truthy (s : string) : bool :=
  match s with EmptyString => false | _ => true end.

Definition conf_ok (c : Q) : bool :=
  if Qlt_le_dec (7 # 10) c then true else false.

Section Files.

(** [pd.read_csv(file_path, sep='\t', skiprows=2, encoding=enc)] *)
Variable read_csv : string -> string -> read_result.
(** [open(file_path, 'rb').read()]; [None] when it raises. *)
Variable open_rb : string -> option string.
(** [chardet.detect]; [None] when the module cannot be imported. *)
Variable chardet : option (string -> detection).
(** [left.merge(right, on='No', how='left')]; [None] when it raises. *)
Variable merge : DataFrame -> DataFrame -> option DataFrame.
(** [df.to_csv(path, index=False, encoding='utf-8-sig')]; [false] when it
    raises. *)
Variable to_csv : string -> DataFrame -> bool.

(** The [for] loop over the candidate encodings: the first frame read,
    with its encoding, and the reads attempted. *)
Fixpoint try_encodings (file_path : string) (encs : list string)
  : option (string * DataFrame) * list event :=
  match encs with
  | [] => (None, [])
  | enc :: rest =>
      match read_csv file_path enc with
      | ReadOk df => (Some (enc, df), [EvRead enc])
      | UnicodeDecodeError | OtherError =>
          let (r, tr) := try_encodings file_path rest in
          (r, EvRead enc :: tr)
      end
  end.

(** The detection that follows the loop when every candidate failed. *)
Definition detect_and_read (file_path : string)
  : option DataFrame * list event :=
  match open_rb file_path with
  | None => (None, [EvOpen])
  | Some raw_data =>
      match chardet with
      | None => (None, [EvOpen])
      | Some detect =>
          let detected := detect raw_data in
          match encoding detected with
          | Some detected_encoding =>
              if truthy detected_encoding && conf_ok (confidence detected)
              then match read_csv file_path detected_encoding with
                   | ReadOk df =>
                       (Some df, [EvOpen; EvDetect; EvRead detected_encoding])
                   | _ => (None, [EvOpen; EvDetect; EvRead detected_encoding])
                   end
              else (None, [EvOpen; EvDetect])
          | None => (None, [EvOpen; EvDetect])
          end
      end
  end.

Definition set_data (self : StokesParameters) (df : DataFrame)
  : StokesParameters :=
  {| data := Some df; stokes_results := stokes_results self |}.

(** [load_data]: the new state, the boolean returned and the calls made. *)
Definition load_data (self : StokesParameters) (file_path : string)
  : StokesParameters * bool * list event :=
  match try_encodings file_path encodings with
  | (Some (_, df), tr) => (set_data self df, true, tr)
  | (None, tr) =>
      match detect_and_read file_path with
      | (Some df, tr') => (set_data self df, true, tr ++ tr')
      | (None, tr') => (self, false, tr ++ tr')
      end
  end.

(** [save_results]: the boolean returned and the file written, if any. *)
Definition save_results (self : StokesParameters) (output_file : string)
           (include_properties : bool)
  : bool * option (string * DataFrame) :=
  match stokes_results self with
  | None => (false, None)
  | Some sr =>
      let merged :=
        if include_properties then
          match get_polarization_properties self with
          | Some properties => merge sr properties
          | None => Some sr
          end
        else Some sr in
      match merged with
      | None => (false, None)
      | Some save_data =>
          if to_csv output_file save_data
          then (true, Some (output_file, save_data))
          else (false, None)
      end
  end.

End Files.

(* ===================================================================== *)
(** * Rows, and the formulas of the specification *)
(* ===================================================================== *)

(** The numeric fields of one Stokes record (one row of the result frame). *)
Record stokes_record : Type := mkStokes {
  rS0 : float64;
  rS1 : float64;
  rS2 : float64;
  rS3 : float64;
  rDOP_calculated : float64;
  rAzimuth_original : float64;
  rPER_original : float64;
  rIntensity_original : float64
}.

(** The numeric fields of one property record. *)
Record property_record : Type := mkProperty {
  pDOP : float64;
  pAzimuth_calculated : float64;
  pEllipticity_angle : float64;
  pEllipticity_ratio : float64;
  pLinear_DOP : float64;
  pCircular_DOP : float64
}.

(** Row [i] of a frame of Stokes results. *)
Definition stokes_row (res : DataFrame) (i : nat) : option stokes_record :=
  s0 <- cell res "S0" i;
  s1 <- cell res "S1" i;
  s2 <- cell res "S2" i;
  s3 <- cell res "S3" i;
  dc <- cell res "DOP_calculated" i;
  az <- cell res "Azimuth_original [°]" i;
  pe <- cell res "PER_original [dB]" i;
  io <- cell res "Intensity_original [%]" i;
  Some (mkStokes s0 s1 s2 s3 dc az pe io).

(** Row [i] of a frame of properties. *)
Definition property_row (props : DataFrame) (i : nat) : option property_record :=
  d <- cell props "DOP [%]" i;
  az <- cell props "Azimuth_calculated [°]" i;
  ea <- cell props "Ellipticity_angle [°]" i;
  er <- cell props "Ellipticity_ratio" i;
  ld <- cell props "Linear_DOP [%]" i;
  cd <- cell props "Circular_DOP [%]" i;
  Some (mkProperty d az ea er ld cd).

(** The azimuth of row [i] of an input frame. *)
Definition azimuth_cell (df : DataFrame) (i : nat) : option float64 :=
  match azimuth_column df with
  | Some (FloatCol v) => nth_error v i
  | _ => None
  end.

(** The forward transform as the specification writes it (section 4.2),
    for one row: intensity and DOP in percent, azimuth in degrees, PER in
    dB. *)
Definition spec_chi (per_db : float64) : float64 :=
  let PERlin := pow10 (fdiv per_db (Fin 10)) in
  fmul (Fin (1 / 2)) (arctan (fdiv (Fin 2) (fsqrt (fsub PERlin (Fin 1))))).

Definition spec_forward (intensity_pct dop_pct azimuth_deg per_db : float64)
  : stokes_record :=
  let I := fdiv intensity_pct (Fin 100) in
  let DOP := fdiv dop_pct (Fin 100) in
  let phi := deg2rad azimuth_deg in
  let chi := spec_chi per_db in
  let S0 := I in
  let S1 := fmul (fmul (fmul I DOP) (fcos (fmul (Fin 2) phi)))
                 (fcos (fmul (Fin 2) chi)) in
  let S2 := fmul (fmul (fmul I DOP) (fsin (fmul (Fin 2) phi)))
                 (fcos (fmul (Fin 2) chi)) in
  let S3 := fmul (fmul I DOP) (fsin (fmul (Fin 2) chi)) in
  mkStokes S0 S1 S2 S3
           (fdiv (fsqrt (fadd (fadd (fsquare S1) (fsquare S2)) (fsquare S3))) S0)
           azimuth_deg per_db intensity_pct.

(** The inverse transform as the specification writes it (section 4.3). *)
Definition spec_inverse (S0 S1 S2 S3 : float64) : property_record :=
  let DOP_calc :=
    fdiv (fsqrt (fadd (fadd (fsquare S1) (fsquare S2)) (fsquare S3))) S0 in
  let Azimuth_calc := fmul (Fin (1 / 2)) (rad2deg (arctan2 S2 S1)) in
  let Ellipticity_deg :=
    fmul (Fin (1 / 2))
         (rad2deg (arcsin (fdiv S3 (fadd (fmul S0 DOP_calc) eps)))) in
  mkProperty (fmul DOP_calc (Fin 100))
             Azimuth_calc
             Ellipticity_deg
             (ftan (deg2rad Ellipticity_deg))
             (fmul (fdiv (fsqrt (fadd (fsquare S1) (fsquare S2))) S0) (Fin 100))
             (fmul (fdiv (fabs S3) S0) (Fin 100)).


(** The engine holds results that belong to its raw table: no results yet,
    or the results that [convert_to_stokes] computes from the raw table it
    holds. *)
Definition coherent (self : StokesParameters) : Prop :=
  match stokes_results self with
  | None => True
  | Some sr =>
      match data self with
      | Some df => stokes_frame df = Some sr
      | None => False
      end
  end.

(** The columns that [convert_to_stokes] reads by name. *)
Definition required_names : list string :=
  [ "No"; "Intensity [%]"; "DOP [%]"; "PER [dB]" ]%string.

(** A frame misses a required column: one of the four names, or the azimuth
    both by name and by fifth position. *)
Definition missing_column (df : DataFrame) : Prop :=
  (exists name, In name required_names /\ getitem df name = None) \/
  (getitem df "φ [°]" = None /\ (List.length df < 5)%nat).

(* ===================================================================== *)
(** * Sample inputs *)
(* ===================================================================== *)

(** A one-row input frame. *)
Definition frame1 (no intensity dop azimuth per : float64) : DataFrame :=
  [ ("No", FloatCol [no]);
    ("Intensity [%]", FloatCol [intensity]);
    ("DOP [%]", FloatCol [dop]);
    ("PER [dB]", FloatCol [per]);
    ("φ [°]", FloatCol [azimuth]) ]%string.

(** The same row under another header for the azimuth, in fifth position. *)
Definition frame1_unnamed (no intensity dop azimuth per : float64) : DataFrame :=
  [ ("No", FloatCol [no]);
    ("Intensity [%]", FloatCol [intensity]);
    ("DOP [%]", FloatCol [dop]);
    ("PER [dB]", FloatCol [per]);
    ("phi", FloatCol [azimuth]) ]%string.

(** The row of the specification's scenario: intensity 100 %, DOP 100 %,
    azimuth 45 degrees, PER 30 dB. *)
Definition scenario : DataFrame :=
  frame1 (Fin 1) (Fin 100) (Fin 100) (Fin 45) (Fin 30).



(** A row without intensity. *)
Definition dark : DataFrame :=
  frame1 (Fin 1) (Fin 0) (Fin 50) (Fin 45) (Fin 30).

(** Three rows: the scenario, a PER below 0 dB, no intensity. *)
Definition mixed : DataFrame :=
  [ ("No", FloatCol [Fin 1; Fin 2; Fin 3]);
    ("Intensity [%]", FloatCol [Fin 100; Fin 100; Fin 0]);
    ("DOP [%]", FloatCol [Fin 100; Fin 100; Fin 50]);
    ("PER [dB]", FloatCol [Fin 30; Fin (-10); Fin 30]);
    ("φ [°]", FloatCol [Fin 45; Fin 0; Fin 45]) ]%string.

(** Two rows that differ by half a turn of the azimuth. *)
Definition two_azimuths : DataFrame :=
  [ ("No", FloatCol [Fin 1; Fin 2]);
    ("Intensity [%]", FloatCol [Fin 100; Fin 100]);
    ("DOP [%]", FloatCol [Fin 80; Fin 80]);
    ("PER [dB]", FloatCol [Fin 20; Fin 20]);
    ("φ [°]", FloatCol [Fin 10; Fin (10 + 180)]) ]%string.

(** A frame of Stokes results given directly: one row, S0 = 1, S1 = 0,
    S2 = S3 = 1/2. *)
Definition sample_results : DataFrame :=
  [ ("No", FloatCol [Fin 1]);
    ("S0", FloatCol [Fin 1]);
    ("S1", FloatCol [Fin 0]);
    ("S2", FloatCol [Fin (1 / 2)]);
    ("S3", FloatCol [Fin (1 / 2)]) ]%string.

(** A frame of Stokes results whose only row has S0 = 0. *)
Definition dark_results : DataFrame :=
  [ ("No", FloatCol [Fin 1]);
    ("S0", FloatCol [Fin 0]);
    ("S1", FloatCol [Fin 0]);
    ("S2", FloatCol [Fin 0]);
    ("S3", FloatCol [Fin 0]) ]%string.

Definition dark_properties : DataFrame :=
  match properties_frame dark_results with Some p => p | None => [] end.

(** An engine that holds [sample_results]. *)
Definition sampled : StokesParameters :=
  {| data := None; stokes_results := Some sample_results |}.

(** The properties of [sample_results]. *)
Definition sample_properties : DataFrame :=
  match properties_frame sample_results with Some p => p | None => [] end.

(** An engine that has loaded the table [df] and converted nothing yet. *)
Definition loaded (df : DataFrame) : StokesParameters :=
  {| data := Some df; stokes_results := None |}.

(** The results of a table, the empty frame standing for no result. *)
Definition results_of (df : DataFrame) : DataFrame :=
  match stokes_frame df with Some r => r | None => [] end.

(** An engine that has loaded and converted the table [df]. *)
Definition converted (df : DataFrame) : StokesParameters :=
  {| data := Some df; stokes_results := Some (results_of df) |}.

(** The properties of a table, the empty frame standing for no result. *)
Definition properties_of (df : DataFrame) : DataFrame :=
  match properties_frame (results_of df) with Some p => p | None => [] end.

(** A second file, with another row. *)
Definition other_file : DataFrame :=
  frame1 (Fin 1) (Fin 50) (Fin 80) (Fin 10) (Fin 20).

(** A table without any of the required columns. *)
Definition no_columns : DataFrame := [ ("X", FloatCol [Fin 1]) ]%string.

(** A frame of results that lacks the S3 column. *)
Definition broken_results : DataFrame :=
  [ ("No", FloatCol [Fin 1]); ("S0", FloatCol [Fin 1]) ]%string.

(** A world with two files, both readable as UTF-8; nothing else reads. *)
Definition two_files (file_path enc : string) : read_result :=
  if String.eqb enc "utf-8" then
    if String.eqb file_path "a.txt" then ReadOk scenario
    else if String.eqb file_path "b.txt" then ReadOk other_file
    else OtherError
  else UnicodeDecodeError.

(** A world where every file is a GBK export of [scenario]. *)
Definition gbk_file (file_path enc : string) : read_result :=
  if String.eqb enc "gbk" then ReadOk scenario else UnicodeDecodeError.

(** A world where every file parses, as UTF-8, to a given table. *)
Definition reads_as (df : DataFrame) (file_path enc : string) : read_result :=
  ReadOk df.

(** A world where no candidate reads the file, and a detected encoding
    does. *)
Definition big5_file (file_path enc : string) : read_result :=
  if String.eqb enc "Big5" then ReadOk scenario else UnicodeDecodeError.

Definition some_bytes (file_path : string) : option string := Some "raw"%string.

Definition detect_big5 (raw_data : string) : detection :=
  {| encoding := Some "Big5"%string; confidence := 99 # 100 |}.

Definition no_open (file_path : string) : option string := None.
Definition no_merge (l r : DataFrame) : option DataFrame := None.
Definition csv_ok (file_path : string) (df : DataFrame) : bool := true.

(* ===================================================================== *)
(** * The worker thread and the main window (gui/main_window.py) *)
(* ===================================================================== *)

(** Python strings are modelled by their UTF-8 bytes; for such strings the
    test [needle in s] on characters is the test on bytes. *)

(** [needle in s] *)
Fixpoint contains (needle s : string) : bool :=
  if String.prefix needle s then true
  else match s with
       | EmptyString => false
       | String _ rest => contains needle rest
       end.

(** [str(n)] for a natural number. *)
Definition str (n : nat) : string := NilEmpty.string_of_uint (Nat.to_uint n).

Definition nl : string := String "010"%char EmptyString.

(** [len(df)]: the number of rows. *)
Definition len (df : DataFrame) : nat :=
  match df with
  | [] => 0%nat
  | (_, c) :: _ => col_len c
  end.

(** The byte strings of [_is_encoding_error]. *)
Definition bom_le : string := String "255"%char (String "254"%char EmptyString).
Definition bom_be : string := String "254"%char (String "255"%char EmptyString).
Definition byte_ff : string := String "255"%char EmptyString.

(** The signals of the worker thread. *)
Inductive signal : Type :=
| Progress (value : nat)
| Finished (success : bool) (message : string).

Definition msg_encoding : string :=
  ("文件编码问题：无法识别文件编码格式。" ++ nl ++ nl ++
   "解决方案：" ++ nl ++
   "1. 尝试用记事本打开文件，另存为UTF-8编码" ++ nl ++
   "2. 检查文件是否为纯文本格式" ++ nl ++
   "3. 确认文件不是二进制格式" ++ nl ++
   "4. 支持的编码格式：UTF-8, GBK, GB2312, Latin-1")%string.

Definition msg_load : string := "数据文件加载失败：文件格式或内容错误".
Definition msg_convert : string := "斯托克斯参数转换失败".
Definition msg_done (n : nat) : string :=
  ("成功处理 " ++ str n ++ " 个数据点")%string.

(** The settings dictionary of the right panel. *)
Record animation_settings : Type := {
  speed : nat;
  frames : nat;
  show_trail : bool
}.

(** What the main window does to its widgets. *)
Inductive ui_action : Type :=
| ProgressBarVisible (visible : bool)
| ProgressBarValue (value : nat)
| StatusMessage (text : string)
| ClearPlot
| UpdatePlot (mode : string) (shown : DataFrame) (settings : animation_settings)
| EncodingHelp (message : string)
| WarningBox (title message : string).

(** [MainWindow.update_plot] *)
Definition update_plot (stokes_converter : StokesParameters)
           (panel_settings : animation_settings) (mode : string)
           (settings : option animation_settings) : list ui_action :=
  match stokes_results stokes_converter with
  | None => [ClearPlot]
  | Some sr =>
      [ UpdatePlot mode sr
                   (match settings with Some s => s | None => panel_settings end);
        StatusMessage ("当前模式: " ++ mode)%string ]
  end.

(** [MainWindow.on_data_processed]; [current_mode] is what the right panel
    answers. *)
Definition on_data_processed (stokes_converter : StokesParameters)
           (panel_settings : animation_settings) (current_mode : string)
           (success : bool) (message : string) : list ui_action :=
  ProgressBarVisible false ::
  (if success then
     StatusMessage message ::
     update_plot stokes_converter panel_settings current_mode None
   else
     StatusMessage ("处理失败: " ++ message)%string ::
     (if contains "文件编码问题" message
      then [EncodingHelp message]
      else [WarningBox "处理失败" message])).

Section Processor.

Variable read_csv : string -> string -> read_result.
Variable open_rb : string -> option string.
Variable chardet : option (string -> detection).

(** [DataProcessor._is_encoding_error]: the first 100 bytes are looked at;
    a file that cannot be opened counts as an encoding error. *)
Definition _is_encoding_error (file_path : string) : bool :=
  match open_rb file_path with
  | None => true
  | Some content =>
      let raw_data := substring 0 100 content in
      if contains bom_le raw_data || contains bom_be raw_data then true
      else if contains byte_ff (substring 0 1 raw_data) then true
      else false
  end.

(** [DataProcessor.run]: the state of the shared converter when the thread
    ends and the signals emitted, in order.  The methods called do not
    raise, so the handler of the outer [try] is never entered. *)
Definition run (stokes_converter : StokesParameters) (file_path : string)
  : StokesParameters * list signal :=
  let '(loaded_converter, success, _) :=
    load_data read_csv open_rb chardet stokes_converter file_path in
  if negb success then
    if _is_encoding_error file_path
    then (loaded_converter, [Progress 25; Finished false msg_encoding])
    else (loaded_converter, [Progress 25; Finished false msg_load])
  else
    match convert_to_stokes loaded_converter with
    | (converter, None) =>
        (converter, [Progress 25; Progress 50; Finished false msg_convert])
    | (converter, Some results) =>
        (converter,
         [Progress 25; Progress 50; Progress 100;
          Finished true (msg_done (len results))])
    end.

(** A signal reaching its slot in the main window. *)
Definition deliver (stokes_converter : StokesParameters)
           (panel_settings : animation_settings) (current_mode : string)
           (s : signal) : list ui_action :=
  match s with
  | Progress value => [ProgressBarValue value]
  | Finished success message =>
      on_data_processed stokes_converter panel_settings current_mode
                        success message
  end.

(** [MainWindow.process_data_file] with the thread run to its end: one
    file is processed at a time, the signals reach their slots in order. *)
Definition process_data_file (basename : string -> string)
           (stokes_converter : StokesParameters)
           (panel_settings : animation_settings) (current_mode : string)
           (file_path : string) : StokesParameters * list ui_action :=
  let (converter, signals) := run stokes_converter file_path in
  (converter,
   [ StatusMessage ("正在处理文件: " ++ basename file_path)%string;
     ProgressBarVisible true;
     ProgressBarValue 0 ]
   ++ flat_map (deliver converter panel_settings current_mode) signals).

End Processor.

(* ===================================================================== *)
(** * The list of imported files (gui/left_panel.py, gui/main_window.py) *)
(* ===================================================================== *)

(** [x in l] on a list of paths. *)
Definition is_in (x : string) (l : list string) : bool :=
  existsb (String.eqb x) l.

(** What the handlers do besides changing [imported_files]. *)
Inductive list_action : Type :=
| UpdateFileList
| FilesImported (new_files : list string)
| InformationBox (title text : string)
| WarningDialog (title text : string)
| StatusBar (text : string)
| AcceptProposedAction
| Ignore.

(** The loop of [import_files]: each path is looked up in the list as it
    is at that moment. *)
Fixpoint add_new (file_paths imported_files new_files : list string)
  : list string * list string :=
  match file_paths with
  | [] => (imported_files, new_files)
  | file_path :: rest =>
      if is_in file_path imported_files
      then add_new rest imported_files new_files
      else add_new rest (imported_files ++ [file_path]) (new_files ++ [file_path])
  end.

(** [LeftPanel.import_files], [file_paths] being the answer of the file
    dialog. *)
Definition import_files (imported_files file_paths : list string)
  : list string * list list_action :=
  match file_paths with
  | [] => (imported_files, [])
  | _ =>
      let (imported', new_files) := add_new file_paths imported_files [] in
      match new_files with
      | [] => (imported', [InformationBox "提示" "所选文件已经在列表中"])
      | _ =>
          (imported',
           [ UpdateFileList;
             FilesImported new_files;
             InformationBox "导入成功"
                            ("成功导入 " ++ str (List.length new_files)
                                         ++ " 个文件")%string ])
      end
  end.

(** [list.remove]: the first occurrence goes. *)
Fixpoint remove_first (x : string) (l : list string) : list string :=
  match l with
  | [] => []
  | y :: rest => if String.eqb y x then rest else y :: remove_first x rest
  end.

(** [LeftPanel.remove_file] *)
Definition remove_file (imported_files : list string) (file_path : string)
  : list string * list list_action :=
  if is_in file_path imported_files
  then (remove_first file_path imported_files, [UpdateFileList])
  else (imported_files, []).

(** A dropped URL. *)
Record url : Type := {
  isLocalFile : bool;
  toLocalFile : string
}.

Section Drop.

(** [os.path.splitext(p)[1].lower()], [os.path.exists], [os.path.basename] *)
Variable extension : string -> string.
Variable path_exists : string -> bool.
Variable basename : string -> string.

Definition supported (file_path : string) : bool :=
  is_in (extension file_path) [ ".txt"; ".csv"; ".dat" ]%string.

(** A URL that the first loop of [dropEvent] takes as a valid file. *)
Definition accepted (u : url) : bool :=
  isLocalFile u && supported (toLocalFile u) && path_exists (toLocalFile u).

(** The first loop of [dropEvent]: the valid paths and the lines about the
    invalid ones. *)
Fixpoint sort_urls (urls : list url) (valid_files invalid_files : list string)
  : list string * list string :=
  match urls with
  | [] => (valid_files, invalid_files)
  | u :: rest =>
      if isLocalFile u then
        let file_path := toLocalFile u in
        if supported file_path then
          if path_exists file_path
          then sort_urls rest (valid_files ++ [file_path]) invalid_files
          else sort_urls rest valid_files
                         (invalid_files ++
                          [(basename file_path ++ " (文件不存在)")%string])
        else sort_urls rest valid_files
                       (invalid_files ++
                        [(basename file_path ++ " (格式不支持)")%string])
      else sort_urls rest valid_files invalid_files
  end.

(** The second loop of [dropEvent]: each path is looked up in the copy of
    the list taken before the loop. *)
Fixpoint add_unlisted (valid_files copy imported_files new_files : list string)
  : list string * list string :=
  match valid_files with
  | [] => (imported_files, new_files)
  | file_path :: rest =>
      if is_in file_path copy
      then add_unlisted rest copy imported_files new_files
      else add_unlisted rest copy (imported_files ++ [file_path])
                        (new_files ++ [file_path])
  end.

(** The text that lists at most five of the invalid files. *)
Definition invalid_text (head : string) (invalid_files : list string) : string :=
  (head ++ String.concat nl (firstn 5 invalid_files) ++
   (if (5 <? List.length invalid_files)%nat
    then nl ++ "... 还有 " ++ str (List.length invalid_files - 5) ++ " 个文件"
    else ""))%string.

(** [MainWindow.dropEvent] *)
Definition dropEvent (imported_files : list string) (hasUrls : bool)
           (urls : list url) : list string * list list_action :=
  if hasUrls then
    let (valid_files, invalid_files) := sort_urls urls [] [] in
    match valid_files with
    | _ :: _ =>
        let (imported', new_files) :=
          add_unlisted valid_files imported_files imported_files [] in
        match new_files with
        | _ :: _ =>
            let count := List.length new_files in
            let duplicate_count := (List.length valid_files - List.length new_files)%nat in
            let message :=
              if (0 <? duplicate_count)%nat
              then ("成功导入 " ++ str count ++ " 个新文件，"
                                ++ str duplicate_count ++ " 个文件已存在")%string
              else ("成功导入 " ++ str count ++ " 个文件")%string in
            (imported',
             [UpdateFileList; FilesImported new_files; StatusBar message]
             ++ match invalid_files with
                | _ :: _ =>
                    [WarningDialog "部分文件导入失败"
                       (invalid_text ("以下文件无法导入：" ++ nl) invalid_files)]
                | [] => []
                end
             ++ [AcceptProposedAction])
        | [] =>
            (imported', [StatusBar "所有文件已经在列表中"; AcceptProposedAction])
        end
    | [] =>
        match invalid_files with
        | _ :: _ =>
            (imported_files,
             [ WarningDialog "导入失败"
                 (invalid_text ("无法导入文件：" ++ nl) invalid_files
                  ++ nl ++ nl ++ "支持的格式：.txt, .csv, .dat")%string;
               AcceptProposedAction ])
        | [] =>
            (imported_files,
             [StatusBar "没有找到支持的数据文件"; AcceptProposedAction])
        end
    end
  else (imported_files, [Ignore]).

End Drop.

(* ===================================================================== *)
(** * The polar data of the animation (gui/plot_widget.py) *)
(* ===================================================================== *)

(** [df.empty]: no column or no row. *)
Definition frame_empty (df : DataFrame) : bool :=
  match df with
  | [] => true
  | (_, c) :: _ => Nat.eqb (col_len c) 0
  end.

(** What [plot_animation_mode] leaves in the widget: nothing (it returned
    at once), an exception, or the arrays of the animation and the number
    of frames. *)
Inductive animation_data : Type :=
| NothingDrawn
| PlotRaises
| Polar (animation_theta animation_r : ndarray) (total_frames : nat).

(** [PlotWidget.plot_animation_mode]: the arrays it computes and stores
    (the drawing itself is not modelled). *)
Definition plot_animation_mode (data : option DataFrame) : animation_data :=
  match data with
  | None => NothingDrawn
  | Some df =>
      if frame_empty df then NothingDrawn
      else
        match getitem df "S1", getitem df "S2" with
        | Some c1, Some c2 =>
            match as_float c1, as_float c2 with
            | Some S1, Some S2 =>
                let r := map fsqrt (aadd (asquare S1) (asquare S2)) in
                let theta := zipWith arctan2 S2 S1 in
                Polar theta r (len df)
            | _, _ => PlotRaises
            end
        | _, _ => PlotRaises
        end
  end.

(* ===================================================================== *)
(** * Converting a file to UTF-8 (gui/main_window.py) *)
(* ===================================================================== *)

(** The files, by path. *)
Definition files := string -> option string.

Definition put (fs : files) (path : string) (content : option string) : files :=
  fun p => if String.eqb p path then content else fs p.

(** What [shutil.copy2] did: the copy, or an exception that leaves the
    target in some state. *)
Inductive copy_result : Type :=
| CopyDone
| CopyFailed (target_after : option string).

(** What opening the file for writing and writing to it did: the write, an
    exception at [open] (the file is as before), or an exception after the
    file was truncated. *)
Inductive write_result : Type :=
| WriteDone
| WriteRefused
| WriteBroken (left_over : string).

Inductive convert_action : Type :=
| Question (encoding_read : string)
| ConversionDone (backup_path : string)
| Reprocess (file_path : string)
| CriticalUnrecognised
| CriticalError.

Definition encodings_to_try : list string :=
  [ "gbk"; "gb2312"; "latin-1"; "cp1252" ]%string.

Section Conversion.

(** Reading the bytes as text in an encoding ([None]: UnicodeDecodeError),
    and writing text as UTF-8. *)
Variable decode : string -> string -> option string.
Variable encode_utf8 : string -> string.
(** The user's answer to the question asked for an encoding: Yes or No. *)
Variable answer_yes : string -> bool.
Variable copy2 : string -> string -> copy_result.
Variable write_text : string -> string -> write_result.

(** The [for] loop of [try_convert_file_encoding]. *)
Fixpoint convert_loop (encs : list string) (fs : files) (current_file_path : string)
  : files * list convert_action :=
  match encs with
  | [] => (fs, [CriticalUnrecognised])
  | enc :: rest =>
      match fs current_file_path with
      | None => (fs, [CriticalError])
      | Some raw =>
          match decode enc raw with
          | None => convert_loop rest fs current_file_path
          | Some content =>
              if answer_yes enc then
                let backup_path := (current_file_path ++ ".bak")%string in
                match copy2 current_file_path backup_path with
                | CopyFailed after =>
                    (put fs backup_path after, [Question enc; CriticalError])
                | CopyDone =>
                    let fs1 := put fs backup_path (Some raw) in
                    match write_text current_file_path content with
                    | WriteDone =>
                        (put fs1 current_file_path (Some (encode_utf8 content)),
                         [ Question enc; ConversionDone backup_path;
                           Reprocess current_file_path ])
                    | WriteRefused => (fs1, [Question enc; CriticalError])
                    | WriteBroken left_over =>
                        (put fs1 current_file_path (Some left_over),
                         [Question enc; CriticalError])
                    end
                end
              else (fs, [Question enc])
          end
      end
  end.

(** [MainWindow.try_convert_file_encoding] *)
Definition try_convert_file_encoding (current_file_path : option string)
           (fs : files) : files * list convert_action :=
  match current_file_path with
  | None => (fs, [])
  | Some EmptyString => (fs, [])
  | Some path => convert_loop encodings_to_try fs path
  end.

End Conversion.

(* ===================================================================== *)
(** * The summary (component/StokesParameters.py) *)
(* ===================================================================== *)

(** [np.mean]: the sum over the number of elements, NaN on an empty array. *)
Definition np_mean (a : ndarray) : float64 :=
  fdiv (fold_left fadd a (Fin 0)) (Fin (INR (List.length a))).

(** [np.std]: sqrt(mean(|x - mean|^2)). *)
Definition np_std (a : ndarray) : float64 :=
  let m := np_mean a in
  fsqrt (np_mean (map (fun x => fsquare (fabs (fsub x m))) a)).

(** The larger and the smaller of two doubles, NaN as soon as one is NaN. *)
Definition fmax (x y : float64) : float64 :=
  match x, y with
  | NaN, _ | _, NaN => NaN
  | PInf, _ | _, PInf => PInf
  | NInf, z | z, NInf => z
  | Fin a, Fin b => if Rle_dec a b then Fin b else Fin a
  end.

Definition fmin (x y : float64) : float64 :=
  match x, y with
  | NaN, _ | _, NaN => NaN
  | NInf, _ | _, NInf => NInf
  | PInf, z | z, PInf => z
  | Fin a, Fin b => if Rle_dec a b then Fin a else Fin b
  end.

(** [np.max] and [np.min]: [None] is the ValueError on an empty array. *)
Definition np_max (a : ndarray) : option float64 :=
  match a with
  | [] => None
  | x :: rest => Some (fold_left fmax rest x)
  end.

Definition np_min (a : ndarray) : option float64 :=
  match a with
  | [] => None
  | x :: rest => Some (fold_left fmin rest x)
  end.

(** [a - b] on two arrays: equal lengths, or one of them of length 1 that
    is broadcast; [None] is the ValueError of any other shapes. *)
Definition asub (a b : ndarray) : option ndarray :=
  if Nat.eqb (List.length a) (List.length b) then Some (zipWith fsub a b)
  else match a, b with
       | [x], _ => Some (map (fun y => fsub x y) b)
       | _, [y] => Some (map (fun x => fsub x y) a)
       | _, _ => None
       end.

(** The numbers of one line of statistics: mean, std, min, max. *)
Record statistics : Type := {
  stat_mean : float64;
  stat_std : float64;
  stat_min : float64;
  stat_max : float64
}.

Definition describe (a : ndarray) : option statistics :=
  lo <- np_min a;
  hi <- np_max a;
  Some {| stat_mean := np_mean a; stat_std := np_std a;
          stat_min := lo; stat_max := hi |}.

(** The numbers that [print_summary] prints. *)
Record summary : Type := {
  points : nat;
  stats_S0 : statistics;
  stats_S1 : statistics;
  stats_S2 : statistics;
  stats_S3 : statistics;
  dop_mean_difference : float64;
  dop_max_difference : float64
}.

(** What [print_summary] does: it prints that there is no result, it
    raises (nothing catches the exception), or it prints the numbers. *)
Inductive summary_result : Type :=
| NoResult
| SummaryRaises
| Summary (s : summary).

Definition summary_numbers (self : StokesParameters) (sr : DataFrame)
  : option summary :=
  c0 <- getitem sr "S0"; v0 <- as_float c0; d0 <- describe v0;
  c1 <- getitem sr "S1"; v1 <- as_float c1; d1 <- describe v1;
  c2 <- getitem sr "S2"; v2 <- as_float c2; d2 <- describe v2;
  c3 <- getitem sr "S3"; v3 <- as_float c3; d3 <- describe v3;
  df <- data self;
  c_dop <- getitem df "DOP [%]";
  v_dop <- as_float c_dop;
  let original_dop := adivs v_dop (Fin 100) in
  c_calc <- getitem sr "DOP_calculated";
  calculated_dop <- as_float c_calc;
  diff <- asub original_dop calculated_dop;
  let dop_diff := map fabs diff in
  hi <- np_max dop_diff;
  Some {| points := len sr;
          stats_S0 := d0; stats_S1 := d1; stats_S2 := d2; stats_S3 := d3;
          dop_mean_difference := np_mean dop_diff;
          dop_max_difference := hi |}.

(** [print_summary] *)
Definition print_summary (self : StokesParameters) : summary_result :=
  match stokes_results self with
  | None => NoResult
  | Some sr =>
      match summary_numbers self sr with
      | Some s => Summary s
      | None => SummaryRaises
      end
  end.

(* ===================================================================== *)
(** * Sample files *)
(* ===================================================================== *)

(** One file on disk. *)
Definition one_file : files :=
  fun p => if String.eqb p "f.txt" then Some "bytes"%string else None.

(** Only latin-1 and cp1252 read it. *)
Definition latin_only (enc raw : string) : option string :=
  if String.eqb enc "latin-1" || String.eqb enc "cp1252"
  then Some raw else None.

Definition same_bytes (text : string) : string := text.
Definition always_yes (enc : string) : bool := true.
Definition always_no (enc : string) : bool := false.
Definition copy_works (source target : string) : copy_result := CopyDone.
Definition write_works (path text : string) : write_result := WriteDone.
Definition write_breaks (path text : string) : write_result := WriteBroken "".

(** A second table with three rows. *)
Definition three_rows : DataFrame :=
  [ ("No", FloatCol [Fin 1; Fin 2; Fin 3]);
    ("Intensity [%]", FloatCol [Fin 100; Fin 90; Fin 80]);
    ("DOP [%]", FloatCol [Fin 100; Fin 90; Fin 50]);
    ("PER [dB]", FloatCol [Fin 30; Fin 20; Fin 30]);
    ("φ [°]", FloatCol [Fin 45; Fin 0; Fin 45]) ]%string.

(* ===================================================================== *)
(** * Arrays and frames: basic facts *)
(* ===================================================================== *)

Lemma nth_error_zipWith (f : float64 -> float64 -> float64) (a b : ndarray) (i : nat) :
  nth_error (zipWith f a b) i =
  match nth_error a i, nth_error b i with
  | Some x, Some y => Some (f x y)
  | _, _ => None
  end.
Proof.
  revert b i. induction a as [|x a IH]; intros [|y b] [|i]; simpl; auto.
  - destruct (nth_error a i); reflexivity.
Qed.

Lemma length_zipWith (f : float64 -> float64 -> float64) (a b : ndarray) (n : nat) :
  List.length a = n -> List.length b = n -> List.length (zipWith f a b) = n.
Proof.
  revert b n. induction a as [|x a IH]; intros [|y b] n Ha Hb; simpl in *;
    try congruence.
  destruct n as [|n]; [discriminate|]. f_equal. apply IH; congruence.
Qed.

Lemma nth_error_map_some {A B : Type} (f : A -> B) (l : list A) (i : nat) (x : A) :
  nth_error l i = Some x -> nth_error (map f l) i = Some (f x).
Proof.
  revert i. induction l as [|y l IH]; intros [|i] H; simpl in *;
    try discriminate; auto. congruence.
Qed.

Lemma nth_error_zipWith_some f (a b : ndarray) i x y :
  nth_error a i = Some x -> nth_error b i = Some y ->
  nth_error (zipWith f a b) i = Some (f x y).
Proof. intros Ha Hb. rewrite nth_error_zipWith, Ha, Hb. reflexivity. Qed.

Lemma nth_error_in_range {A : Type} (l : list A) (i : nat) :
  (i < List.length l)%nat -> exists x, nth_error l i = Some x.
Proof.
  intros H. destruct (nth_error l i) eqn:E; eauto.
  apply nth_error_None in E. lia.
Qed.

Lemma getitem_in (df : DataFrame) (name : string) (c : column) :
  getitem df name = Some c -> In (name, c) df.
Proof.
  induction df as [|[k c'] df IH]; simpl; [discriminate|].
  destruct (String.eqb k name) eqn:E.
  - apply String.eqb_eq in E. intros H. left. congruence.
  - auto.
Qed.

Lemma has_rows_getitem (n : nat) (df : DataFrame) (name : string) (c : column) :
  has_rows n df -> getitem df name = Some c -> col_len c = n.
Proof.
  intros Hn Hg. apply getitem_in in Hg.
  unfold has_rows in Hn. rewrite Forall_forall in Hn. apply (Hn _ Hg).
Qed.

Lemma has_rows_iloc (n : nat) (df : DataFrame) (j : nat) (c : column) :
  has_rows n df -> iloc df j = Some c -> col_len c = n.
Proof.
  unfold iloc. intros Hn Hj.
  destruct (nth_error df j) as [[k c']|] eqn:E; simpl in Hj; [|discriminate].
  injection Hj as <-. apply nth_error_In in E.
  unfold has_rows in Hn. rewrite Forall_forall in Hn. apply (Hn _ E).
Qed.

Lemma has_rows_azimuth (n : nat) (df : DataFrame) (c : column) :
  has_rows n df -> azimuth_column df = Some c -> col_len c = n.
Proof.
  unfold azimuth_column. intros Hn.
  destruct (getitem df "φ [°]") eqn:E.
  - intros H. injection H as <-. eapply has_rows_getitem; eauto.
  - apply has_rows_iloc; assumption.
Qed.

Lemma iloc_in_range (df : DataFrame) (j : nat) :
  (j < List.length df)%nat -> exists c, iloc df j = Some c.
Proof.
  intros H. unfold iloc. destruct (nth_error_in_range df j H) as [[k c] E].
  rewrite E. simpl. eauto.
Qed.

Lemma iloc_out_of_range (df : DataFrame) (j : nat) :
  (List.length df <= j)%nat -> iloc df j = None.
Proof.
  intros H. unfold iloc. apply nth_error_None in H. rewrite H. reflexivity.
Qed.

(** What a successful run of the body of [convert_to_stokes] has read. *)
Lemma stokes_frame_reads (df res : DataFrame) :
  stokes_frame df = Some res ->
  exists c_no v_int v_dop v_az v_per,
    getitem df "No" = Some c_no /\
    getitem df "Intensity [%]" = Some (FloatCol v_int) /\
    getitem df "DOP [%]" = Some (FloatCol v_dop) /\
    azimuth_column df = Some (FloatCol v_az) /\
    getitem df "PER [dB]" = Some (FloatCol v_per).
Proof.
  unfold stokes_frame. intros H.
  destruct (getitem df "Intensity [%]") as [[v_int|]|]; simpl in H; try discriminate.
  destruct (getitem df "DOP [%]") as [[v_dop|]|]; simpl in H; try discriminate.
  destruct (azimuth_column df) as [[v_az|]|]; simpl in H; try discriminate;
    destruct (getitem df "PER [dB]") as [[v_per|]|]; simpl in H; try discriminate.
  destruct (getitem df "No") as [c_no|]; try discriminate.
  exists c_no, v_int, v_dop, v_az, v_per. repeat split; reflexivity.
Qed.

(** The body of [convert_to_stokes] succeeds as soon as the five columns
    are there and hold numbers. *)
Lemma stokes_frame_total (df : DataFrame) c_no v_int v_dop v_az v_per :
  getitem df "No" = Some c_no ->
  getitem df "Intensity [%]" = Some (FloatCol v_int) ->
  getitem df "DOP [%]" = Some (FloatCol v_dop) ->
  azimuth_column df = Some (FloatCol v_az) ->
  getitem df "PER [dB]" = Some (FloatCol v_per) ->
  exists res, stokes_frame df = Some res.
Proof.
  intros H1 H2 H3 H4 H5. unfold stokes_frame.
  rewrite H2, H3, H4, H5, H1. simpl. eauto.
Qed.

Ltac array_cells :=
  unfold amul, aadd, adiv, adivs, amuls, asubs, aadds, smul, sdiv, asquare;
  repeat rewrite ?nth_error_zipWith, ?nth_error_map.

Ltac array_lengths n :=
  unfold amul, aadd, adiv, adivs, amuls, asubs, aadds, smul, sdiv, asquare;
  repeat first [ apply length_zipWith | rewrite length_map ];
  try assumption.

(** Row by row, the frame built by [convert_to_stokes] holds the record of
    the specification's formulas. *)
Lemma stokes_frame_rows (df res : DataFrame) (n : nat) :
  has_rows n df ->
  stokes_frame df = Some res ->
  has_rows n res /\
  column_names res =
    [ "No"; "S0"; "S1"; "S2"; "S3"; "DOP_calculated"; "Azimuth_original [°]";
      "PER_original [dB]"; "Intensity_original [%]" ]%string /\
  getitem res "No" = getitem df "No" /\
  forall i, (i < n)%nat ->
    exists I D A P,
      cell df "Intensity [%]" i = Some I /\
      cell df "DOP [%]" i = Some D /\
      azimuth_cell df i = Some A /\
      cell df "PER [dB]" i = Some P /\
      stokes_row res i = Some (spec_forward I D A P).
Proof.
  intros Hn H.
  destruct (stokes_frame_reads _ _ H)
    as (c_no & v_int & v_dop & v_az & v_per & Hno & Hint & Hdop & Haz & Hper).
  pose proof (has_rows_getitem _ _ _ _ Hn Hno) as Lno.
  pose proof (has_rows_getitem _ _ _ _ Hn Hint) as Lint.
  pose proof (has_rows_getitem _ _ _ _ Hn Hdop) as Ldop.
  pose proof (has_rows_azimuth _ _ _ Hn Haz) as Laz.
  pose proof (has_rows_getitem _ _ _ _ Hn Hper) as Lper.
  simpl in Lint, Ldop, Laz, Lper.
  unfold stokes_frame in H. rewrite Hint, Hdop, Haz, Hper, Hno in H.
  simpl in H. injection H as <-.
  split; [|split; [reflexivity|split; [rewrite Hno; reflexivity|]]].
  - unfold has_rows. repeat constructor; simpl; try assumption;
      array_lengths n.
  - intros i Hi.
    destruct (nth_error_in_range v_int i) as [I EI]; [lia|].
    destruct (nth_error_in_range v_dop i) as [D ED]; [lia|].
    destruct (nth_error_in_range v_az i) as [A EA]; [lia|].
    destruct (nth_error_in_range v_per i) as [P EP]; [lia|].
    exists I, D, A, P.
    unfold cell, azimuth_cell. rewrite Hint, Hdop, Haz, Hper.
    repeat split; try assumption.
    unfold stokes_row, cell.
    cbn [getitem String.eqb Ascii.eqb Bool.eqb].
    array_cells. rewrite EI, ED, EA, EP. cbn [option_map]. reflexivity.
Qed.

Lemma properties_frame_reads (sr props : DataFrame) :
  properties_frame sr = Some props ->
  exists c_no v0 v1 v2 v3,
    getitem sr "No" = Some c_no /\
    getitem sr "S0" = Some (FloatCol v0) /\
    getitem sr "S1" = Some (FloatCol v1) /\
    getitem sr "S2" = Some (FloatCol v2) /\
    getitem sr "S3" = Some (FloatCol v3).
Proof.
  unfold properties_frame. intros H.
  destruct (getitem sr "S0") as [[v0|]|]; simpl in H; try discriminate;
    destruct (getitem sr "S1") as [[v1|]|]; simpl in H; try discriminate;
    destruct (getitem sr "S2") as [[v2|]|]; simpl in H; try discriminate;
    destruct (getitem sr "S3") as [[v3|]|]; simpl in H; try discriminate.
  destruct (getitem sr "No") as [c_no|]; try discriminate.
  exists c_no, v0, v1, v2, v3. repeat split; reflexivity.
Qed.

Lemma properties_frame_total (sr : DataFrame) c_no v0 v1 v2 v3 :
  getitem sr "No" = Some c_no ->
  getitem sr "S0" = Some (FloatCol v0) ->
  getitem sr "S1" = Some (FloatCol v1) ->
  getitem sr "S2" = Some (FloatCol v2) ->
  getitem sr "S3" = Some (FloatCol v3) ->
  exists props, properties_frame sr = Some props.
Proof.
  intros Hno H0 H1 H2 H3. unfold properties_frame.
  rewrite H0, H1, H2, H3, Hno. simpl. eauto.
Qed.

(** Row by row, the frame built by [get_polarization_properties] holds the
    record of the specification's formulas. *)
Lemma properties_frame_rows (sr props : DataFrame) (n : nat) :
  has_rows n sr ->
  properties_frame sr = Some props ->
  has_rows n props /\
  column_names props =
    [ "No"; "DOP [%]"; "Azimuth_calculated [°]"; "Ellipticity_angle [°]";
      "Ellipticity_ratio"; "Linear_DOP [%]"; "Circular_DOP [%]" ]%string /\
  getitem props "No" = getitem sr "No" /\
  forall i, (i < n)%nat ->
    exists S0 S1 S2 S3,
      cell sr "S0" i = Some S0 /\
      cell sr "S1" i = Some S1 /\
      cell sr "S2" i = Some S2 /\
      cell sr "S3" i = Some S3 /\
      property_row props i = Some (spec_inverse S0 S1 S2 S3).
Proof.
  intros Hn H.
  destruct (properties_frame_reads _ _ H)
    as (c_no & v0 & v1 & v2 & v3 & Hno & H0 & H1 & H2 & H3).
  pose proof (has_rows_getitem _ _ _ _ Hn Hno) as Lno.
  pose proof (has_rows_getitem _ _ _ _ Hn H0) as L0.
  pose proof (has_rows_getitem _ _ _ _ Hn H1) as L1.
  pose proof (has_rows_getitem _ _ _ _ Hn H2) as L2.
  pose proof (has_rows_getitem _ _ _ _ Hn H3) as L3.
  simpl in L0, L1, L2, L3.
  unfold properties_frame in H. rewrite H0, H1, H2, H3, Hno in H.
  simpl in H. injection H as <-.
  split; [|split; [reflexivity|split; [rewrite Hno; reflexivity|]]].
  - unfold has_rows. repeat constructor; simpl; try assumption;
      array_lengths n.
  - intros i Hi.
    destruct (nth_error_in_range v0 i) as [S0 E0]; [lia|].
    destruct (nth_error_in_range v1 i) as [S1 E1]; [lia|].
    destruct (nth_error_in_range v2 i) as [S2 E2]; [lia|].
    destruct (nth_error_in_range v3 i) as [S3 E3]; [lia|].
    exists S0, S1, S2, S3.
    unfold cell. rewrite H0, H1, H2, H3.
    repeat split; try assumption.
    unfold property_row, cell.
    cbn [getitem String.eqb Ascii.eqb Bool.eqb].
    array_cells. rewrite E0, E1, E2, E3. cbn [option_map]. reflexivity.
Qed.

(** The frame of Stokes results of a frame with [n] rows can always be
    read back by [get_polarization_properties]. *)
Lemma properties_of_stokes_frame (df res : DataFrame) :
  stokes_frame df = Some res ->
  exists props, properties_frame res = Some props.
Proof.
  intros H. destruct (stokes_frame_reads _ _ H)
    as (c_no & v_int & v_dop & v_az & v_per & Hno & Hint & Hdop & Haz & Hper).
  unfold stokes_frame in H. rewrite Hint, Hdop, Haz, Hper, Hno in H.
  simpl in H. injection H as <-.
  eapply properties_frame_total; reflexivity.
Qed.

(** A cell of the Stokes frame, seen from its row. *)
Lemma stokes_row_cells (res : DataFrame) (i : nat) (r : stokes_record) :
  stokes_row res i = Some r ->
  cell res "S0" i = Some (rS0 r) /\
  cell res "S1" i = Some (rS1 r) /\
  cell res "S2" i = Some (rS2 r) /\
  cell res "S3" i = Some (rS3 r) /\
  cell res "DOP_calculated" i = Some (rDOP_calculated r).
Proof.
  unfold stokes_row. intros H.
  destruct (cell res "S0" i); try discriminate.
  destruct (cell res "S1" i); try discriminate.
  destruct (cell res "S2" i); try discriminate.
  destruct (cell res "S3" i); try discriminate.
  destruct (cell res "DOP_calculated" i); try discriminate.
  destruct (cell res "Azimuth_original [°]" i); try discriminate.
  destruct (cell res "PER_original [dB]" i); try discriminate.
  destruct (cell res "Intensity_original [%]" i); try discriminate.
  injection H as <-. simpl. repeat split; reflexivity.
Qed.

(* ===================================================================== *)
(** * Doubles: evaluation on finite values *)
(* ===================================================================== *)

Lemma Rsgn_pos (r : R) : 0 < r -> Rsgn r = Gt.
Proof.
  intros H. unfold Rsgn. destruct (total_order_T r 0) as [[Hl|He]|Hg];
    try reflexivity; lra.
Qed.

Lemma Rsgn_neg (r : R) : r < 0 -> Rsgn r = Lt.
Proof.
  intros H. unfold Rsgn. destruct (total_order_T r 0) as [[Hl|He]|Hg];
    try reflexivity; lra.
Qed.

Lemma Rsgn_zero (r : R) : r = 0 -> Rsgn r = Eq.
Proof.
  intros H. unfold Rsgn. destruct (total_order_T r 0) as [[Hl|He]|Hg];
    try reflexivity; lra.
Qed.

Lemma Rsgn_cases (r : R) :
  (r < 0 /\ Rsgn r = Lt) \/ (r = 0 /\ Rsgn r = Eq) \/ (0 < r /\ Rsgn r = Gt).
Proof.
  unfold Rsgn. destruct (total_order_T r 0) as [[Hl|He]|Hg]; auto.
Qed.

Lemma fdiv_fin (a b : R) : b <> 0 -> fdiv (Fin a) (Fin b) = Fin (a / b).
Proof.
  intros Hb. unfold fdiv.
  destruct (Rsgn_cases b) as [[_ E]|[[H _]|[_ E]]]; try rewrite E; try reflexivity.
  contradiction.
Qed.

Lemma fdiv_by_zero (x : float64) : isfinite (fdiv x (Fin 0)) = false.
Proof.
  destruct x as [a| | |]; simpl; rewrite ?(Rsgn_zero 0) by reflexivity;
    try reflexivity.
  destruct (Rsgn a); reflexivity.
Qed.

Lemma fsqrt_fin (r : R) : 0 <= r -> fsqrt (Fin r) = Fin (sqrt r).
Proof.
  intros H. unfold fsqrt.
  destruct (Rsgn_cases r) as [[Hl _]|[[_ E]|[_ E]]]; try rewrite E;
    try reflexivity. lra.
Qed.

Lemma fsqrt_neg (r : R) : r < 0 -> fsqrt (Fin r) = NaN.
Proof. intros H. unfold fsqrt. rewrite (Rsgn_neg r H). reflexivity. Qed.

Lemma ln_10_pos : 0 < ln 10.
Proof. rewrite <- ln_1. apply ln_increasing; lra. Qed.

Lemma Rpower_10_gt_1 (p : R) : 0 < p -> 1 < Rpower 10 (p / 10).
Proof.
  intros Hp. unfold Rpower. rewrite <- exp_0. apply exp_increasing.
  pose proof ln_10_pos. apply Rmult_lt_0_compat; lra.
Qed.

Lemma Rpower_10_lt_1 (p : R) : p < 0 -> Rpower 10 (p / 10) < 1.
Proof.
  intros Hp. unfold Rpower. rewrite <- exp_0. apply exp_increasing.
  pose proof ln_10_pos. nra.
Qed.

Lemma Rpower_10_at_0 : Rpower 10 (0 / 10) = 1.
Proof. replace (0 / 10) with 0 by lra. apply Rpower_O. lra. Qed.

(** The ellipticity angle of a row, by the sign of its PER. *)
Lemma spec_chi_pos (p : R) :
  0 < p ->
  spec_chi (Fin p) = Fin (1 / 2 * atan (2 / sqrt (Rpower 10 (p / 10) - 1))).
Proof.
  intros Hp. pose proof (Rpower_10_gt_1 p Hp) as H1.
  unfold spec_chi. rewrite fdiv_fin by lra. simpl pow10.
  unfold fsub. simpl fneg. simpl fadd.
  rewrite fsqrt_fin by lra.
  assert (0 < sqrt (Rpower 10 (p / 10) + - (1))) as Hs by (apply sqrt_lt_R0; lra).
  rewrite fdiv_fin by lra. simpl. reflexivity.
Qed.

Lemma spec_chi_zero : spec_chi (Fin 0) = Fin (1 / 2 * (PI / 2)).
Proof.
  unfold spec_chi. rewrite fdiv_fin by lra. simpl pow10.
  rewrite Rpower_10_at_0. unfold fsub. simpl fneg. simpl fadd.
  replace (1 + - (1)) with 0 by lra.
  rewrite fsqrt_fin by lra. rewrite sqrt_0.
  unfold fdiv. rewrite (Rsgn_zero 0) by reflexivity.
  rewrite (Rsgn_pos 2) by lra. reflexivity.
Qed.

Lemma spec_chi_neg (p : R) : p < 0 -> spec_chi (Fin p) = NaN.
Proof.
  intros Hp. pose proof (Rpower_10_lt_1 p Hp) as H1.
  unfold spec_chi. rewrite fdiv_fin by lra. simpl pow10.
  unfold fsub. simpl fneg. simpl fadd.
  rewrite fsqrt_neg by lra. reflexivity.
Qed.

Lemma spec_chi_finite (p : R) : 0 <= p -> exists chi, spec_chi (Fin p) = Fin chi.
Proof.
  intros [Hp|Hp].
  - rewrite spec_chi_pos by assumption. eauto.
  - subst p. rewrite spec_chi_zero. eauto.
Qed.

(** The forward transform on a row of finite numbers whose ellipticity
    angle is finite. *)
Lemma spec_forward_fin (I D A P chi : R) :
  spec_chi (Fin P) = Fin chi ->
  let k := I / 100 * (D / 100) in
  let s1 := k * cos (2 * (A * (PI / 180))) * cos (2 * chi) in
  let s2 := k * sin (2 * (A * (PI / 180))) * cos (2 * chi) in
  let s3 := k * sin (2 * chi) in
  spec_forward (Fin I) (Fin D) (Fin A) (Fin P) =
  mkStokes (Fin (I / 100)) (Fin s1) (Fin s2) (Fin s3)
           (fdiv (Fin (sqrt (s1 * s1 + s2 * s2 + s3 * s3))) (Fin (I / 100)))
           (Fin A) (Fin P) (Fin I).
Proof.
  intros Hchi k s1 s2 s3. unfold spec_forward. rewrite Hchi.
  rewrite !fdiv_fin by lra. unfold deg2rad. simpl fmul. simpl fcos. simpl fsin.
  simpl fmul. unfold fsquare. simpl fmul. simpl fadd.
  rewrite fsqrt_fin by nra. reflexivity.
Qed.

(** The three polarised components have the norm intensity times DOP. *)
Lemma polarised_norm (k phi2 chi2 : R) :
  0 <= k ->
  let s1 := k * cos phi2 * cos chi2 in
  let s2 := k * sin phi2 * cos chi2 in
  let s3 := k * sin chi2 in
  sqrt (s1 * s1 + s2 * s2 + s3 * s3) = k.
Proof.
  intros Hk s1 s2 s3.
  replace (s1 * s1 + s2 * s2 + s3 * s3) with (k * k).
  - apply sqrt_square. assumption.
  - subst s1 s2 s3.
    pose proof (sin2_cos2 phi2) as Hp. pose proof (sin2_cos2 chi2) as Hc.
    unfold Rsqr in Hp, Hc.
    replace (k * cos phi2 * cos chi2 * (k * cos phi2 * cos chi2) +
             k * sin phi2 * cos chi2 * (k * sin phi2 * cos chi2) +
             k * sin chi2 * (k * sin chi2))
      with (k * k * ((sin phi2 * sin phi2 + cos phi2 * cos phi2) * (cos chi2 * cos chi2)
                     + sin chi2 * sin chi2)) by ring.
    rewrite Hp. replace (1 * (cos chi2 * cos chi2) + sin chi2 * sin chi2)
      with (sin chi2 * sin chi2 + cos chi2 * cos chi2) by ring.
    rewrite Hc. ring.
Qed.

Lemma fmul_fin (a b : R) : fmul (Fin a) (Fin b) = Fin (a * b).
Proof. reflexivity. Qed.

Lemma fadd_fin (a b : R) : fadd (Fin a) (Fin b) = Fin (a + b).
Proof. reflexivity. Qed.

Lemma fsquare_fin (a : R) : fsquare (Fin a) = Fin (a * a).
Proof. reflexivity. Qed.

Lemma fmul_nan_r (x : float64) : fmul x NaN = NaN.
Proof. destruct x; reflexivity. Qed.

Lemma fdiv_nan_l (x : float64) : fdiv NaN x = NaN.
Proof. reflexivity. Qed.

Lemma fcos_nan : fcos NaN = NaN.
Proof. reflexivity. Qed.

Lemma fsin_nan : fsin NaN = NaN.
Proof. reflexivity. Qed.

Lemma fsquare_nan : fsquare NaN = NaN.
Proof. reflexivity. Qed.

Lemma fadd_nan_l (x : float64) : fadd NaN x = NaN.
Proof. reflexivity. Qed.

Lemma fsqrt_nan : fsqrt NaN = NaN.
Proof. reflexivity. Qed.

Create Rewrite HintDb nan.
#[local] Hint Rewrite fmul_nan_r fdiv_nan_l fcos_nan fsin_nan fsquare_nan
  fadd_nan_l fsqrt_nan : nan.

Lemma fdiv_by_null (x : float64) (b : R) :
  b = 0 -> isfinite (fdiv x (Fin b)) = false.
Proof. intros ->. apply fdiv_by_zero. Qed.

(** The angle of a point given in polar form is its polar angle, taken in
    (-PI, PI]. *)
Lemma Ratan2_polar (k theta : R) :
  0 < k -> - PI < theta <= PI ->
  Ratan2 (k * sin theta) (k * cos theta) = theta.
Proof.
  intros Hk [Hlo Hhi]. pose proof PI_RGT_0 as Hpi. unfold Ratan2.
  destruct (Rlt_le_dec theta (- (PI / 2))) as [Ha|Ha].
  - (* third quadrant *)
    assert (cos theta < 0) as Hc.
    { rewrite <- cos_neg. apply cos_lt_0; lra. }
    assert (sin theta < 0) as Hs by (apply sin_lt_0_var; lra).
    rewrite (Rsgn_neg (k * cos theta)) by nra.
    rewrite (Rsgn_neg (k * sin theta)) by nra.
    replace (k * sin theta / (k * cos theta)) with (tan (theta + PI)).
    + rewrite atan_tan by lra. lra.
    + unfold tan. rewrite neg_sin, neg_cos. field. split; lra.
  - destruct (Req_dec_T theta (- (PI / 2))) as [He|Hne].
    + subst theta. rewrite cos_neg, sin_neg, cos_PI2, sin_PI2.
      rewrite (Rsgn_zero (k * 0)) by lra.
      rewrite (Rsgn_neg (k * - (1))) by lra. reflexivity.
    + destruct (Rlt_le_dec theta (PI / 2)) as [Hb|Hb].
      * (* right half plane *)
        assert (0 < cos theta) as Hc by (apply cos_gt_0; lra).
        rewrite (Rsgn_pos (k * cos theta)) by nra.
        replace (k * sin theta / (k * cos theta)) with (tan theta).
        -- apply atan_tan. lra.
        -- unfold tan. field. split; lra.
      * destruct (Req_dec_T theta (PI / 2)) as [He|Hne2].
        -- subst theta. rewrite cos_PI2, sin_PI2.
           rewrite (Rsgn_zero (k * 0)) by lra.
           rewrite (Rsgn_pos (k * 1)) by lra. reflexivity.
        -- (* second quadrant *)
           assert (cos theta < 0) as Hc by (apply cos_lt_0; lra).
           assert (0 <= sin theta) as Hs by (apply sin_ge_0; lra).
           rewrite (Rsgn_neg (k * cos theta)) by nra.
           assert (atan (k * sin theta / (k * cos theta)) = theta - PI) as Hat.
           { replace (k * sin theta / (k * cos theta)) with (tan (theta - PI)).
             - apply atan_tan. lra.
             - unfold tan.
               replace (sin theta) with (sin (theta - PI + PI)) by (f_equal; ring).
               replace (cos theta) with (cos (theta - PI + PI)) by (f_equal; ring).
               rewrite neg_sin, neg_cos.
               assert (cos (theta - PI) <> 0).
               { replace (cos theta) with (cos (theta - PI + PI)) in Hc
                   by (f_equal; ring).
                 rewrite neg_cos in Hc. lra. }
               field. split; lra. }
           rewrite Hat.
           destruct (Rsgn_cases (k * sin theta)) as [[Hl _]|[[_ E]|[_ E]]];
             [nra | rewrite E; lra | rewrite E; lra].
Qed.

(** The cosine of twice the ellipticity angle is positive when PER > 0. *)
Lemma cos_2chi_pos (p : R) :
  0 < p -> 0 < cos (2 * (1 / 2 * atan (2 / sqrt (Rpower 10 (p / 10) - 1)))).
Proof.
  intros Hp.
  replace (2 * (1 / 2 * atan (2 / sqrt (Rpower 10 (p / 10) - 1))))
    with (atan (2 / sqrt (Rpower 10 (p / 10) - 1))) by field.
  pose proof (atan_bound (2 / sqrt (Rpower 10 (p / 10) - 1))) as [H1 H2].
  apply cos_gt_0; lra.
Qed.



(* ===================================================================== *)
(** * The engine, row by row *)
(* ===================================================================== *)

Lemma convert_to_stokes_inv (self self' : StokesParameters) (res : DataFrame) :
  convert_to_stokes self = (self', Some res) ->
  exists df,
    data self = Some df /\ stokes_frame df = Some res /\
    self' = {| data := Some df; stokes_results := Some res |}.
Proof.
  unfold convert_to_stokes. intros H.
  destruct (data self) as [df|] eqn:Ed; [|discriminate].
  destruct (stokes_frame df) as [r|] eqn:Es; [|discriminate].
  injection H as <- <-. exists df. auto.
Qed.

Lemma convert_to_stokes_fails (self : StokesParameters) (df : DataFrame) :
  data self = Some df -> stokes_frame df = None ->
  convert_to_stokes self = (self, None).
Proof. intros Hd Hs. unfold convert_to_stokes. rewrite Hd, Hs. reflexivity. Qed.

Lemma convert_to_stokes_succeeds (self : StokesParameters) (df res : DataFrame) :
  data self = Some df -> stokes_frame df = Some res ->
  convert_to_stokes self =
  ({| data := Some df; stokes_results := Some res |}, Some res).
Proof. intros Hd Hs. unfold convert_to_stokes. rewrite Hd, Hs. reflexivity. Qed.

(** Loading, converting and deriving the properties, seen on one row. *)
Lemma pipeline_rows (self self' : StokesParameters) (df res : DataFrame) (n : nat) :
  data self = Some df ->
  has_rows n df ->
  convert_to_stokes self = (self', Some res) ->
  exists props,
    get_polarization_properties self' = Some props /\
    has_rows n props /\
    forall i, (i < n)%nat ->
      exists I D A P,
        cell df "Intensity [%]" i = Some I /\
        cell df "DOP [%]" i = Some D /\
        azimuth_cell df i = Some A /\
        cell df "PER [dB]" i = Some P /\
        stokes_row res i = Some (spec_forward I D A P) /\
        property_row props i =
          Some (let r := spec_forward I D A P in
                spec_inverse (rS0 r) (rS1 r) (rS2 r) (rS3 r)).
Proof.
  intros Hd Hn Hc.
  destruct (convert_to_stokes_inv _ _ _ Hc) as (df' & Hd' & Hs & ->).
  rewrite Hd in Hd'. injection Hd' as <-.
  destruct (stokes_frame_rows _ _ _ Hn Hs) as (Hnr & _ & _ & Hrows).
  destruct (properties_of_stokes_frame _ _ Hs) as [props Hp].
  destruct (properties_frame_rows _ _ _ Hnr Hp) as (Hnp & _ & _ & Hprows).
  exists props. split; [exact Hp|]. split; [exact Hnp|].
  intros i Hi.
  destruct (Hrows i Hi) as (I & D & A & P & HI & HD & HA & HP & Hr).
  destruct (Hprows i Hi) as (S0 & S1 & S2 & S3 & H0 & H1 & H2 & H3 & Hq).
  exists I, D, A, P. repeat split; try assumption.
  destruct (stokes_row_cells _ _ _ Hr) as (C0 & C1 & C2 & C3 & _).
  rewrite Hq. cbv zeta. congruence.
Qed.

Lemma frame1_rows no intensity dop azimuth per :
  has_rows 1 (frame1 no intensity dop azimuth per).
Proof. unfold has_rows, frame1. repeat constructor. Qed.

Lemma frame1_unnamed_rows no intensity dop azimuth per :
  has_rows 1 (frame1_unnamed no intensity dop azimuth per).
Proof. unfold has_rows, frame1_unnamed. repeat constructor. Qed.


(* ===================================================================== *)
(** * The forward transform *)
(* ===================================================================== *)

(** C1. Whenever [convert_to_stokes] returns a frame, that frame is stored
    as the object's results, has the nine columns of a Stokes record and as
    many rows as the input, carries the input's No column unchanged, and its
    row i holds the record that the formulas of section 4.2 give for row i
    of the input: S0 = Intensity/100 (a function of the intensity alone),
    DOP = DOP/100, PERlin = 10^(PER/10), chi = 0.5*atan(2/sqrt(PERlin-1)),
    S1, S2, S3 and DOP_calculated as written there. *)
Theorem convert_to_stokes_formulas
        (self self' : StokesParameters) (df res : DataFrame) (n : nat) :
  data self = Some df ->
  has_rows n df ->
  convert_to_stokes self = (self', Some res) ->
  stokes_results self' = Some res /\
  has_rows n res /\
  column_names res =
    [ "No"; "S0"; "S1"; "S2"; "S3"; "DOP_calculated"; "Azimuth_original [°]";
      "PER_original [dB]"; "Intensity_original [%]" ]%string /\
  getitem res "No" = getitem df "No" /\
  forall i, (i < n)%nat ->
    exists I D A P,
      cell df "Intensity [%]" i = Some I /\
      cell df "DOP [%]" i = Some D /\
      azimuth_cell df i = Some A /\
      cell df "PER [dB]" i = Some P /\
      stokes_row res i = Some (spec_forward I D A P) /\
      cell res "S0" i = Some (fdiv I (Fin 100)).
Proof.
  intros Hd Hn Hc.
  destruct (convert_to_stokes_inv _ _ _ Hc) as (df' & Hd' & Hs & ->).
  rewrite Hd in Hd'. injection Hd' as <-.
  destruct (stokes_frame_rows _ _ _ Hn Hs) as (Hnr & Hnames & Hno & Hrows).
  repeat split; try assumption.
  intros i Hi.
  destruct (Hrows i Hi) as (I & D & A & P & HI & HD & HA & HP & Hr).
  exists I, D, A, P. repeat split; try assumption.
  destruct (stokes_row_cells _ _ _ Hr) as (C0 & _). exact C0.
Qed.

Lemma convert_to_stokes_formulas_witness :
  stokes_results (converted scenario) = Some (results_of scenario) /\
  has_rows 1 (results_of scenario) /\
  column_names (results_of scenario) =
    [ "No"; "S0"; "S1"; "S2"; "S3"; "DOP_calculated"; "Azimuth_original [°]";
      "PER_original [dB]"; "Intensity_original [%]" ]%string /\
  getitem (results_of scenario) "No" = getitem scenario "No" /\
  forall i, (i < 1)%nat ->
    exists I D A P,
      cell scenario "Intensity [%]" i = Some I /\
      cell scenario "DOP [%]" i = Some D /\
      azimuth_cell scenario i = Some A /\
      cell scenario "PER [dB]" i = Some P /\
      stokes_row (results_of scenario) i = Some (spec_forward I D A P) /\
      cell (results_of scenario) "S0" i = Some (fdiv I (Fin 100)).
Proof.
  apply (convert_to_stokes_formulas (loaded scenario) (converted scenario)
                                    scenario (results_of scenario) 1).
  - reflexivity.
  - apply frame1_rows.
  - reflexivity.
Defined.

(* ===================================================================== *)
(** * The inverse transform *)
(* ===================================================================== *)

(** C6. Whenever [get_polarization_properties] returns a frame, that frame
    has the seven columns of a property record and as many rows as the
    Stokes results, carries their No column unchanged, and its row i holds
    the record that the formulas of section 4.3 give for row i of the Stokes
    results: DOP_calc, the azimuth from atan2(S2, S1), the ellipticity
    angle from asin(S3 / (S0*DOP_calc + 1e-10)), its tangent, and the linear
    and circular DOP. *)
Theorem get_polarization_properties_formulas
        (self : StokesParameters) (sr props : DataFrame) (n : nat) :
  stokes_results self = Some sr ->
  has_rows n sr ->
  get_polarization_properties self = Some props ->
  has_rows n props /\
  column_names props =
    [ "No"; "DOP [%]"; "Azimuth_calculated [°]"; "Ellipticity_angle [°]";
      "Ellipticity_ratio"; "Linear_DOP [%]"; "Circular_DOP [%]" ]%string /\
  getitem props "No" = getitem sr "No" /\
  forall i, (i < n)%nat ->
    exists S0 S1 S2 S3,
      cell sr "S0" i = Some S0 /\
      cell sr "S1" i = Some S1 /\
      cell sr "S2" i = Some S2 /\
      cell sr "S3" i = Some S3 /\
      property_row props i = Some (spec_inverse S0 S1 S2 S3).
Proof.
  intros Hs Hn Hp. unfold get_polarization_properties in Hp. rewrite Hs in Hp.
  apply properties_frame_rows; assumption.
Qed.

Lemma get_polarization_properties_formulas_witness :
  has_rows 1 (properties_of scenario) /\
  column_names (properties_of scenario) =
    [ "No"; "DOP [%]"; "Azimuth_calculated [°]"; "Ellipticity_angle [°]";
      "Ellipticity_ratio"; "Linear_DOP [%]"; "Circular_DOP [%]" ]%string /\
  getitem (properties_of scenario) "No" = getitem (results_of scenario) "No" /\
  forall i, (i < 1)%nat ->
    exists S0 S1 S2 S3,
      cell (results_of scenario) "S0" i = Some S0 /\
      cell (results_of scenario) "S1" i = Some S1 /\
      cell (results_of scenario) "S2" i = Some S2 /\
      cell (results_of scenario) "S3" i = Some S3 /\
      property_row (properties_of scenario) i = Some (spec_inverse S0 S1 S2 S3).
Proof.
  apply (get_polarization_properties_formulas
           (converted scenario) (results_of scenario) (properties_of scenario) 1).
  - reflexivity.
  - unfold has_rows. repeat constructor.
  - reflexivity.
Defined.

(* ===================================================================== *)
(** * Degenerate rows *)
(* ===================================================================== *)

(** The components of a row whose PER is below 0 dB are NaN. *)
Lemma spec_forward_negative_per (I D A : float64) (p : R) :
  p < 0 ->
  let r := spec_forward I D A (Fin p) in
  rS0 r = fdiv I (Fin 100) /\
  rS1 r = NaN /\ rS2 r = NaN /\ rS3 r = NaN /\ rDOP_calculated r = NaN.
Proof.
  intros Hp. unfold spec_forward. rewrite (spec_chi_neg p Hp).
  cbn [rS0 rS1 rS2 rS3 rDOP_calculated].
  autorewrite with nan. repeat split; reflexivity.
Qed.

(** The recomputed DOP of a row without intensity is not a finite number. *)
Lemma spec_forward_dark (D A P : float64) :
  let r := spec_forward (Fin 0) D A P in
  rS0 r = Fin 0 /\ isfinite (rDOP_calculated r) = false.
Proof.
  unfold spec_forward. cbn [rS0 rDOP_calculated].
  rewrite fdiv_fin by lra. replace (0 / 100) with 0 by lra.
  split; [reflexivity|]. apply fdiv_by_zero.
Qed.

(** C5. On a table whose five columns are present and numeric, whatever
    the numbers, [convert_to_stokes] returns a frame with as many rows as
    the input.  Each row of it is the record of the formulas for the same
    row of the input, whatever the other rows hold.  A row whose PER is
    below 0 dB has S0 = Intensity/100 and NaN in S1, S2, S3 and
    DOP_calculated; a row whose intensity is 0 has S0 = 0 and a
    DOP_calculated that is not finite. *)
Theorem degenerate_rows_propagate
        (self : StokesParameters) (df : DataFrame) (n : nat)
        (c_no : column) (v_int v_dop v_az v_per : ndarray) :
  data self = Some df ->
  has_rows n df ->
  getitem df "No" = Some c_no ->
  getitem df "Intensity [%]" = Some (FloatCol v_int) ->
  getitem df "DOP [%]" = Some (FloatCol v_dop) ->
  azimuth_column df = Some (FloatCol v_az) ->
  getitem df "PER [dB]" = Some (FloatCol v_per) ->
  exists self' res,
    convert_to_stokes self = (self', Some res) /\
    has_rows n res /\
    forall i, (i < n)%nat ->
      exists I D A P r,
        nth_error v_int i = Some I /\
        nth_error v_dop i = Some D /\
        nth_error v_az i = Some A /\
        nth_error v_per i = Some P /\
        stokes_row res i = Some r /\
        r = spec_forward I D A P /\
        (forall p, P = Fin p -> p < 0 ->
           rS0 r = fdiv I (Fin 100) /\
           rS1 r = NaN /\ rS2 r = NaN /\ rS3 r = NaN /\
           rDOP_calculated r = NaN) /\
        (I = Fin 0 ->
           rS0 r = Fin 0 /\ isfinite (rDOP_calculated r) = false).
Proof.
  intros Hd Hn Hno Hint Hdop Haz Hper.
  destruct (stokes_frame_total df _ _ _ _ _ Hno Hint Hdop Haz Hper) as [res Hs].
  exists {| data := Some df; stokes_results := Some res |}, res.
  split; [apply convert_to_stokes_succeeds; assumption|].
  destruct (stokes_frame_rows _ _ _ Hn Hs) as (Hnr & _ & _ & Hrows).
  split; [exact Hnr|].
  intros i Hi.
  destruct (Hrows i Hi) as (I & D & A & P & HI & HD & HA & HP & Hr).
  unfold cell in HI, HD, HP. unfold azimuth_cell in HA.
  rewrite Hint in HI. rewrite Hdop in HD. rewrite Haz in HA. rewrite Hper in HP.
  exists I, D, A, P, (spec_forward I D A P).
  do 6 (split; [assumption || reflexivity|]).
  split.
  - intros p -> Hp. apply spec_forward_negative_per. assumption.
  - intros ->. apply spec_forward_dark.
Qed.

Lemma degenerate_rows_propagate_witness :
  exists self' res,
    convert_to_stokes (loaded mixed) = (self', Some res) /\
    has_rows 3 res /\
    forall i, (i < 3)%nat ->
      exists I D A P r,
        nth_error [Fin 100; Fin 100; Fin 0] i = Some I /\
        nth_error [Fin 100; Fin 100; Fin 50] i = Some D /\
        nth_error [Fin 45; Fin 0; Fin 45] i = Some A /\
        nth_error [Fin 30; Fin (-10); Fin 30] i = Some P /\
        stokes_row res i = Some r /\
        r = spec_forward I D A P /\
        (forall p, P = Fin p -> p < 0 ->
           rS0 r = fdiv I (Fin 100) /\
           rS1 r = NaN /\ rS2 r = NaN /\ rS3 r = NaN /\
           rDOP_calculated r = NaN) /\
        (I = Fin 0 ->
           rS0 r = Fin 0 /\ isfinite (rDOP_calculated r) = false).
Proof.
  apply (degenerate_rows_propagate (loaded mixed) mixed 3
           (FloatCol [Fin 1; Fin 2; Fin 3])).
  - reflexivity.
  - unfold has_rows, mixed. repeat constructor.
  - reflexivity.
  - reflexivity.
  - reflexivity.
  - reflexivity.
  - reflexivity.
Defined.

(* ===================================================================== *)
(** * The norm of the Stokes vector *)
(* ===================================================================== *)






(* ===================================================================== *)
(** * Forward, then inverse *)
(* ===================================================================== *)






(* ===================================================================== *)
(** * Loading *)
(* ===================================================================== *)

Section Loading.

Variable read_csv : string -> string -> read_result.
Variable open_rb : string -> option string.
Variable chardet : option (string -> detection).

Local Abbreviation load := (load_data read_csv open_rb chardet).
Local Abbreviation attempt := (try_encodings read_csv).
Local Abbreviation detection_step := (detect_and_read read_csv open_rb chardet).

(** The loop stops at the first candidate that reads. *)
Lemma try_encodings_first (file_path : string) (pre post : list string)
      (enc : string) (df : DataFrame) :
  Forall (fun e => read_fails (read_csv file_path e)) pre ->
  read_csv file_path enc = ReadOk df ->
  attempt file_path (pre ++ enc :: post) =
  (Some (enc, df), map EvRead (pre ++ [enc])).
Proof.
  intros Hpre Hok. induction Hpre as [|e pre He _ IH]; simpl.
  - rewrite Hok. reflexivity.
  - destruct (read_csv file_path e); [contradiction| |]; rewrite IH; reflexivity.
Qed.

Lemma try_encodings_none (file_path : string) (encs : list string) :
  Forall (fun e => read_fails (read_csv file_path e)) encs ->
  attempt file_path encs = (None, map EvRead encs).
Proof.
  intros H. induction H as [|e encs He _ IH]; simpl.
  - reflexivity.
  - destruct (read_csv file_path e); [contradiction| |]; rewrite IH; reflexivity.
Qed.

(** What the loop returns: a first candidate that reads, or nothing after
    all of them failed. *)
Lemma try_encodings_cases (file_path : string) (encs : list string) :
  (exists pre enc post df,
      encs = pre ++ enc :: post /\
      Forall (fun e => read_fails (read_csv file_path e)) pre /\
      read_csv file_path enc = ReadOk df /\
      attempt file_path encs = (Some (enc, df), map EvRead (pre ++ [enc])))
  \/
  (Forall (fun e => read_fails (read_csv file_path e)) encs /\
   attempt file_path encs = (None, map EvRead encs)).
Proof.
  induction encs as [|e encs IH].
  - right. split; [constructor | reflexivity].
  - destruct (read_csv file_path e) as [df| |] eqn:E.
    + left. exists [], e, encs, df. repeat split; try constructor; try assumption.
      simpl. rewrite E. reflexivity.
    + destruct IH as [(pre & enc & post & df & -> & Hpre & Hok & _)|[Hall _]].
      * left. exists (e :: pre), enc, post, df.
        assert (Forall (fun e0 => read_fails (read_csv file_path e0)) (e :: pre))
          as Hpre' by (constructor; [rewrite E; exact I | assumption]).
        repeat split; try assumption.
        apply (try_encodings_first file_path (e :: pre) post enc df Hpre' Hok).
      * right.
        assert (Forall (fun e0 => read_fails (read_csv file_path e0)) (e :: encs))
          as Hall' by (constructor; [rewrite E; exact I | assumption]).
        split; [assumption | apply try_encodings_none; assumption].
    + destruct IH as [(pre & enc & post & df & -> & Hpre & Hok & _)|[Hall _]].
      * left. exists (e :: pre), enc, post, df.
        assert (Forall (fun e0 => read_fails (read_csv file_path e0)) (e :: pre))
          as Hpre' by (constructor; [rewrite E; exact I | assumption]).
        repeat split; try assumption.
        apply (try_encodings_first file_path (e :: pre) post enc df Hpre' Hok).
      * right.
        assert (Forall (fun e0 => read_fails (read_csv file_path e0)) (e :: encs))
          as Hall' by (constructor; [rewrite E; exact I | assumption]).
        split; [assumption | apply try_encodings_none; assumption].
Qed.

Lemma load_data_first (self : StokesParameters) (file_path : string)
      (pre post : list string) (enc : string) (df : DataFrame) :
  encodings = pre ++ enc :: post ->
  Forall (fun e => read_fails (read_csv file_path e)) pre ->
  read_csv file_path enc = ReadOk df ->
  load self file_path = (set_data self df, true, map EvRead (pre ++ [enc])).
Proof.
  intros Henc Hpre Hok. unfold load_data. rewrite Henc.
  rewrite (try_encodings_first file_path pre post enc df Hpre Hok).
  reflexivity.
Qed.

Lemma load_data_all_fail (self : StokesParameters) (file_path : string) :
  Forall (fun e => read_fails (read_csv file_path e)) encodings ->
  load self file_path =
  match detection_step file_path with
  | (Some df, tr) => (set_data self df, true, map EvRead encodings ++ tr)
  | (None, tr) => (self, false, map EvRead encodings ++ tr)
  end.
Proof.
  intros Hall. unfold load_data.
  rewrite (try_encodings_none file_path encodings Hall). reflexivity.
Qed.

(** A successful read by the loop is a successful load of that table. *)
Lemma load_data_parsed (self : StokesParameters) (file_path enc : string)
      (df : DataFrame) (tr : list event) :
  attempt file_path encodings = (Some (enc, df), tr) ->
  load self file_path = (set_data self df, true, tr).
Proof.
  intros H. unfold load_data. rewrite H. reflexivity.
Qed.

(** Loading never touches the Stokes results, stores a table exactly when
    it reports success, and changes nothing when it reports failure. *)
Lemma load_data_state (self self' : StokesParameters) (file_path : string)
      (ok : bool) (tr : list event) :
  load self file_path = (self', ok, tr) ->
  stokes_results self' = stokes_results self /\
  (ok = false -> self' = self) /\
  (ok = true -> exists df, self' = set_data self df).
Proof.
  unfold load_data. intros H.
  destruct (try_encodings read_csv file_path encodings) as [[[enc df]|] tr0].
  - injection H as <- <- <-. repeat split; [discriminate | eauto].
  - destruct (detect_and_read read_csv open_rb chardet file_path) as [[df|] tr1];
      injection H as <- <- <-; repeat split; try discriminate; eauto.
Qed.

Lemma conf_ok_spec (c : Q) : conf_ok c = true <-> (7 # 10 < c)%Q.
Proof.
  unfold conf_ok. destruct (Qlt_le_dec (7 # 10) c) as [H|H]; split; intros H';
    try reflexivity; try assumption; try discriminate.
  exfalso. apply (Qlt_not_le _ _ H' H).
Qed.

(** The read that follows the detection happens only with a detected,
    non-empty encoding whose confidence exceeds 0.7. *)
Lemma detect_and_read_retry (file_path enc : string) :
  In (EvRead enc) (snd (detection_step file_path)) ->
  exists raw_data detect,
    open_rb file_path = Some raw_data /\
    chardet = Some detect /\
    encoding (detect raw_data) = Some enc /\
    enc <> EmptyString /\
    (7 # 10 < confidence (detect raw_data))%Q.
Proof.
  unfold detect_and_read.
  destruct (open_rb file_path) as [raw|] eqn:Eo.
  2:{ simpl. intros [H|[]]. discriminate. }
  destruct chardet as [detect|] eqn:Ec.
  2:{ simpl. intros [H|[]]. discriminate. }
  destruct (encoding (detect raw)) as [e|] eqn:Ee.
  2:{ simpl. intros [H|[H|[]]]; discriminate. }
  destruct (truthy e && conf_ok (confidence (detect raw))) eqn:Et.
  2:{ simpl. intros [H|[H|[]]]; discriminate. }
  apply andb_true_iff in Et. destruct Et as [Ht Hc].
  apply conf_ok_spec in Hc.
  intros Hin.
  assert (enc = e) as ->.
  { destruct (read_csv file_path e); simpl in Hin;
      destruct Hin as [H|[H|[H|[]]]]; try discriminate; congruence. }
  exists raw, detect. repeat split; try assumption.
  intros ->. discriminate.
Qed.

Lemma detect_and_read_confident (file_path enc raw_data : string)
      (detect : string -> detection) (df : DataFrame) :
  open_rb file_path = Some raw_data ->
  chardet = Some detect ->
  encoding (detect raw_data) = Some enc ->
  enc <> EmptyString ->
  (7 # 10 < confidence (detect raw_data))%Q ->
  read_csv file_path enc = ReadOk df ->
  detection_step file_path = (Some df, [EvOpen; EvDetect; EvRead enc]).
Proof.
  intros Ho Hc He Hne Hconf Hok. unfold detect_and_read.
  rewrite Ho, Hc, He. apply conf_ok_spec in Hconf. rewrite Hconf.
  destruct enc; [contradiction|]. simpl. rewrite Hok. reflexivity.
Qed.

Lemma detect_and_read_doubtful (file_path raw_data : string)
      (detect : string -> detection) :
  open_rb file_path = Some raw_data ->
  chardet = Some detect ->
  (confidence (detect raw_data) <= 7 # 10)%Q ->
  detection_step file_path = (None, [EvOpen; EvDetect]).
Proof.
  intros Ho Hc Hconf. unfold detect_and_read.
  rewrite Ho, Hc.
  destruct (encoding (detect raw_data)) as [e|]; [|reflexivity].
  assert (conf_ok (confidence (detect raw_data)) = false) as ->.
  { destruct (conf_ok (confidence (detect raw_data))) eqn:E; [|reflexivity].
    apply conf_ok_spec in E. exfalso. apply (Qlt_not_le _ _ E Hconf). }
  rewrite andb_false_r. reflexivity.
Qed.

End Loading.

(** C8. [load_data] tries utf-8, gbk, utf-16le, gb2312, latin-1, cp1252 and
    utf-8-sig in this order and returns with the table of the first one
    that reads, having made no other call.  It opens the file and runs the
    detection only after all seven failed, and it reads again after the
    detection only with a detected encoding whose confidence exceeds 0.7;
    with such an encoding that reads, the load succeeds, and with a
    confidence of 0.7 or less it fails without another read.  A file that
    fails as utf-8 and reads as gbk is loaded with gbk after two reads. *)
Theorem load_data_encoding_order
        (read_csv : string -> string -> read_result)
        (open_rb : string -> option string)
        (chardet : option (string -> detection))
        (self : StokesParameters) (file_path : string) :
  encodings =
    [ "utf-8"; "gbk"; "utf-16le"; "gb2312"; "latin-1"; "cp1252"; "utf-8-sig" ]%string /\
  (forall pre enc post df,
      encodings = pre ++ enc :: post ->
      Forall (fun e => read_fails (read_csv file_path e)) pre ->
      read_csv file_path enc = ReadOk df ->
      load_data read_csv open_rb chardet self file_path =
      (set_data self df, true, map EvRead (pre ++ [enc]))) /\
  (forall self' ok tr,
      load_data read_csv open_rb chardet self file_path = (self', ok, tr) ->
      In EvOpen tr \/ In EvDetect tr ->
      Forall (fun e => read_fails (read_csv file_path e)) encodings /\
      exists tr', tr = map EvRead encodings ++ tr' /\
                  tr' = snd (detect_and_read read_csv open_rb chardet file_path)) /\
  (forall enc,
      In (EvRead enc) (snd (detect_and_read read_csv open_rb chardet file_path)) ->
      exists raw_data detect,
        open_rb file_path = Some raw_data /\
        chardet = Some detect /\
        encoding (detect raw_data) = Some enc /\
        enc <> EmptyString /\
        (7 # 10 < confidence (detect raw_data))%Q) /\
  (forall raw_data detect enc df,
      Forall (fun e => read_fails (read_csv file_path e)) encodings ->
      open_rb file_path = Some raw_data ->
      chardet = Some detect ->
      encoding (detect raw_data) = Some enc ->
      enc <> EmptyString ->
      (7 # 10 < confidence (detect raw_data))%Q ->
      read_csv file_path enc = ReadOk df ->
      load_data read_csv open_rb chardet self file_path =
      (set_data self df, true,
       map EvRead encodings ++ [EvOpen; EvDetect; EvRead enc])) /\
  (forall raw_data detect,
      Forall (fun e => read_fails (read_csv file_path e)) encodings ->
      open_rb file_path = Some raw_data ->
      chardet = Some detect ->
      (confidence (detect raw_data) <= 7 # 10)%Q ->
      load_data read_csv open_rb chardet self file_path =
      (self, false, map EvRead encodings ++ [EvOpen; EvDetect])) /\
  (forall df,
      read_fails (read_csv file_path "utf-8"%string) ->
      read_csv file_path "gbk"%string = ReadOk df ->
      load_data read_csv open_rb chardet self file_path =
      (set_data self df, true, [EvRead "utf-8"; EvRead "gbk"]%string)).
Proof.
  split; [reflexivity|].
  split; [intros; eapply load_data_first; eassumption|].
  split.
  { intros self' ok tr Hload Hin.
    destruct (try_encodings_cases read_csv file_path encodings)
      as [(pre & enc & post & df & Henc & Hpre & Hok & _)|[Hall _]].
    - rewrite (load_data_first _ _ _ _ _ _ _ _ _ Henc Hpre Hok) in Hload.
      injection Hload as <- <- <-. exfalso.
      destruct Hin as [Hin|Hin]; apply in_map_iff in Hin;
        destruct Hin as (e & He & _); discriminate.
    - split; [exact Hall|].
      rewrite (load_data_all_fail _ _ _ _ _ Hall) in Hload.
      destruct (detect_and_read read_csv open_rb chardet file_path) as [[df|] tr'];
        injection Hload as <- <- <-; exists tr'; split; reflexivity. }
  split; [apply detect_and_read_retry|].
  split.
  { intros raw detect enc df Hall Ho Hc He Hne Hconf Hok.
    rewrite (load_data_all_fail _ _ _ _ _ Hall).
    rewrite (detect_and_read_confident _ _ _ _ _ _ _ df Ho Hc He Hne Hconf Hok).
    reflexivity. }
  split.
  { intros raw detect Hall Ho Hc Hconf.
    rewrite (load_data_all_fail _ _ _ _ _ Hall).
    rewrite (detect_and_read_doubtful _ _ _ _ _ _ Ho Hc Hconf). reflexivity. }
  intros df Hutf Hgbk.
  apply (load_data_first read_csv open_rb chardet self file_path
           [ "utf-8"%string ] [ "utf-16le"; "gb2312"; "latin-1"; "cp1252"; "utf-8-sig" ]%string
           "gbk"%string df); [reflexivity | | assumption].
  constructor; [assumption | constructor].
Qed.

Lemma load_data_encoding_order_witness :
  load_data gbk_file no_open None init "export.txt" =
    (set_data init scenario, true, [EvRead "utf-8"; EvRead "gbk"]%string) /\
  load_data big5_file some_bytes (Some detect_big5) init "export.txt" =
    (set_data init scenario, true,
     map EvRead encodings ++ [EvOpen; EvDetect; EvRead "Big5"%string]).
Proof.
  split.
  - apply (load_data_encoding_order gbk_file no_open None init "export.txt").
    + exact I.
    + reflexivity.
  - apply (load_data_encoding_order big5_file some_bytes (Some detect_big5)
             init "export.txt") with (raw_data := "raw"%string)
                                     (detect := detect_big5).
    + repeat constructor.
    + reflexivity.
    + reflexivity.
    + reflexivity.
    + discriminate.
    + reflexivity.
    + reflexivity.
Defined.

(* ===================================================================== *)
(** * The tables held by the engine *)
(* ===================================================================== *)

Lemma results_differ : stokes_frame other_file <> Some (results_of scenario).
Proof.
  intros H.
  apply (f_equal (fun o => match o with
                           | Some r => cell r "Intensity_original [%]" 0
                           | None => None
                           end)) in H.
  cbv [stokes_frame other_file scenario results_of frame1 getitem cell
       azimuth_column as_float String.eqb Ascii.eqb Bool.eqb nth_error] in H.
  injection H as H. lra.
Qed.

(** C3, as the claim states it, fails: an engine that has loaded and
    converted a first file, and then loads a second one with success, holds
    the raw table of the second file next to the Stokes results of the
    first. *)
Lemma load_keeps_stale_results :
  exists e1 e2 e3 res tr1 tr3,
    load_data two_files no_open None init "a.txt" = (e1, true, tr1) /\
    convert_to_stokes e1 = (e2, Some res) /\
    coherent e2 /\
    load_data two_files no_open None e2 "b.txt" = (e3, true, tr3) /\
    data e3 = Some other_file /\
    stokes_results e3 = Some res /\
    stokes_frame scenario = Some res /\
    ~ coherent e3.
Proof.
  exists (loaded scenario), (converted scenario),
    {| data := Some other_file; stokes_results := Some (results_of scenario) |},
    (results_of scenario), [EvRead "utf-8"%string], [EvRead "utf-8"%string].
  repeat split.
  exact results_differ.
Qed.

(** C3, amended. A load changes the raw table only: the Stokes results
    held by the engine are the same after it as before it; when the load
    fails nothing changes, when it succeeds the new raw table is stored;
    a conversion that then succeeds stores results that belong to that
    table. *)
Theorem load_data_replaces_raw_table_only
        (read_csv : string -> string -> read_result)
        (open_rb : string -> option string)
        (chardet : option (string -> detection))
        (self self' : StokesParameters) (file_path : string)
        (ok : bool) (tr : list event) :
  load_data read_csv open_rb chardet self file_path = (self', ok, tr) ->
  stokes_results self' = stokes_results self /\
  (ok = false -> self' = self) /\
  (ok = true ->
   exists df,
     data self' = Some df /\
     forall self'' res,
       convert_to_stokes self' = (self'', Some res) ->
       data self'' = Some df /\ stokes_results self'' = Some res /\
       coherent self'').
Proof.
  intros H.
  destruct (load_data_state _ _ _ _ _ _ _ _ H) as (Hkeep & Hfail & Hok).
  split; [exact Hkeep|]. split; [exact Hfail|].
  intros E. destruct (Hok E) as [df ->]. exists df. split; [reflexivity|].
  intros self'' res Hc.
  destruct (convert_to_stokes_inv _ _ _ Hc) as (df' & Hd & Hs & ->).
  simpl in Hd. injection Hd as <-.
  repeat split. unfold coherent. simpl. exact Hs.
Qed.

Lemma load_data_replaces_raw_table_only_witness :
  let e3 := {| data := Some other_file;
               stokes_results := Some (results_of scenario) |} in
  stokes_results e3 = stokes_results (converted scenario) /\
  (true = false -> e3 = converted scenario) /\
  (true = true ->
   exists df,
     data e3 = Some df /\
     forall self'' res,
       convert_to_stokes e3 = (self'', Some res) ->
       data self'' = Some df /\ stokes_results self'' = Some res /\
       coherent self'').
Proof.
  apply (load_data_replaces_raw_table_only two_files no_open None
           (converted scenario) _ "b.txt" true [EvRead "utf-8"%string]).
  reflexivity.
Defined.

(* ===================================================================== *)
(** * Missing columns *)
(* ===================================================================== *)

Lemma stokes_frame_missing (df : DataFrame) :
  missing_column df -> stokes_frame df = None.
Proof.
  intros [(name & Hin & Hnone)|[Hname Hlen]]; unfold stokes_frame.
  - simpl in Hin.
    destruct (getitem df "Intensity [%]") as [[v_int|]|] eqn:E1; try reflexivity.
    destruct (getitem df "DOP [%]") as [[v_dop|]|] eqn:E2; try reflexivity.
    destruct (azimuth_column df) as [[v_az|]|]; try reflexivity;
      destruct (getitem df "PER [dB]") as [[v_per|]|] eqn:E3; try reflexivity;
      destruct (getitem df "No") as [c_no|] eqn:E4; try reflexivity;
      exfalso;
      destruct Hin as [<-|[<-|[<-|[<-|[]]]]]; congruence.
  - unfold azimuth_column. rewrite Hname.
    rewrite (iloc_out_of_range df 4) by lia.
    destruct (getitem df "Intensity [%]") as [[v_int|]|]; try reflexivity.
    destruct (getitem df "DOP [%]") as [[v_dop|]|]; reflexivity.
Qed.

(** C4, as the claim states it, fails: a file whose table has a single
    column X, none of the required ones, is loaded with success. *)
Lemma load_accepts_missing_columns :
  missing_column no_columns /\
  load_data (reads_as no_columns) no_open None init "x.txt" =
    (set_data init no_columns, true, [EvRead "utf-8"%string]).
Proof.
  split; [|reflexivity].
  left. exists "No"%string. split; [left; reflexivity | reflexivity].
Qed.

(** C4, amended. [load_data] does not look at the columns: a file that one
    of the candidate encodings reads is loaded with success whatever its
    columns are.  A table that misses No, Intensity [%], DOP [%] or PER
    [dB], or has neither a column named by the azimuth header nor a fifth
    column, makes [convert_to_stokes] return no result and leave the engine
    as it was. *)
Theorem missing_column_fails_at_convert
        (read_csv : string -> string -> read_result)
        (open_rb : string -> option string)
        (chardet : option (string -> detection))
        (self : StokesParameters) (file_path enc : string)
        (df : DataFrame) (tr : list event) :
  try_encodings read_csv file_path encodings = (Some (enc, df), tr) ->
  missing_column df ->
  load_data read_csv open_rb chardet self file_path = (set_data self df, true, tr) /\
  convert_to_stokes (set_data self df) = (set_data self df, None).
Proof.
  intros Hread Hmiss. split.
  - apply load_data_parsed with (enc := enc). exact Hread.
  - apply convert_to_stokes_fails with (df := df); [reflexivity|].
    apply stokes_frame_missing. exact Hmiss.
Qed.

Lemma missing_column_fails_at_convert_witness :
  load_data (reads_as no_columns) no_open None init "x.txt" =
    (set_data init no_columns, true, [EvRead "utf-8"%string]) /\
  convert_to_stokes (set_data init no_columns) = (set_data init no_columns, None).
Proof.
  apply (missing_column_fails_at_convert (reads_as no_columns) no_open None
           init "x.txt" "utf-8" no_columns [EvRead "utf-8"%string]).
  - reflexivity.
  - left. exists "No"%string. split; [left; reflexivity | reflexivity].
Defined.

(* ===================================================================== *)
(** * The azimuth column by position *)
(* ===================================================================== *)

(** C9. When the table read from the file has no column with the azimuth
    header and has five columns or more, the load succeeds and stores the
    table, and the azimuth of the conversion is the fifth column: a
    conversion that succeeds copies that column to Azimuth_original and
    computes each row with the fifth cell as azimuth, and the conversion
    does succeed when the fifth column and the four named columns are
    there and numeric. *)
Theorem fifth_column_is_azimuth
        (read_csv : string -> string -> read_result)
        (open_rb : string -> option string)
        (chardet : option (string -> detection))
        (self : StokesParameters) (file_path enc : string)
        (df : DataFrame) (tr : list event) (n : nat) :
  try_encodings read_csv file_path encodings = (Some (enc, df), tr) ->
  has_rows n df ->
  getitem df "φ [°]" = None ->
  (5 <= List.length df)%nat ->
  exists fifth,
    iloc df 4 = Some fifth /\
    load_data read_csv open_rb chardet self file_path = (set_data self df, true, tr) /\
    azimuth_column df = Some fifth /\
    (forall self' res,
        convert_to_stokes (set_data self df) = (self', Some res) ->
        exists v,
          fifth = FloatCol v /\
          getitem res "Azimuth_original [°]" = Some (FloatCol v) /\
          forall i, (i < n)%nat ->
            exists I D A P,
              cell df "Intensity [%]" i = Some I /\
              cell df "DOP [%]" i = Some D /\
              nth_error v i = Some A /\
              cell df "PER [dB]" i = Some P /\
              stokes_row res i = Some (spec_forward I D A P)) /\
    (forall c_no v_int v_dop v v_per,
        getitem df "No" = Some c_no ->
        getitem df "Intensity [%]" = Some (FloatCol v_int) ->
        getitem df "DOP [%]" = Some (FloatCol v_dop) ->
        fifth = FloatCol v ->
        getitem df "PER [dB]" = Some (FloatCol v_per) ->
        exists self' res,
          convert_to_stokes (set_data self df) = (self', Some res)).
Proof.
  intros Hread Hn Hname Hlen.
  destruct (iloc_in_range df 4) as [fifth Hfifth]; [lia|].
  assert (azimuth_column df = Some fifth) as Haz
      by (unfold azimuth_column; rewrite Hname; exact Hfifth).
  exists fifth. split; [exact Hfifth|].
  split; [apply load_data_parsed with (enc := enc); exact Hread|].
  split; [exact Haz|]. split.
  - intros self' res Hc.
    destruct (convert_to_stokes_inv _ _ _ Hc) as (df' & Hd & Hs & ->).
    simpl in Hd. injection Hd as <-.
    destruct (stokes_frame_reads _ _ Hs)
      as (c_no & v_int & v_dop & v_az & v_per & Hno & Hint & Hdop & Haz' & Hper).
    rewrite Haz in Haz'. injection Haz' as ->.
    exists v_az. split; [reflexivity|]. split.
    + unfold stokes_frame in Hs. rewrite Hint, Hdop, Haz, Hper, Hno in Hs.
      simpl in Hs. injection Hs as <-. reflexivity.
    + intros i Hi.
      destruct (stokes_frame_rows _ _ _ Hn Hs) as (_ & _ & _ & Hrows).
      destruct (Hrows i Hi) as (I & D & A & P & HI & HD & HA & HP & Hr).
      exists I, D, A, P. unfold azimuth_cell in HA. rewrite Haz in HA.
      repeat split; assumption.
  - intros c_no v_int v_dop v v_per Hno Hint Hdop -> Hper.
    destruct (stokes_frame_total df _ _ _ _ _ Hno Hint Hdop Haz Hper) as [res Hs].
    exists {| data := Some df; stokes_results := Some res |}, res.
    apply convert_to_stokes_succeeds; [reflexivity | exact Hs].
Qed.

Lemma fifth_column_is_azimuth_witness :
  let df := frame1_unnamed (Fin 1) (Fin 100) (Fin 100) (Fin 45) (Fin 30) in
  exists fifth,
    iloc df 4 = Some fifth /\
    load_data (reads_as df) no_open None init "export.txt" =
      (set_data init df, true, [EvRead "utf-8"%string]) /\
    azimuth_column df = Some fifth /\
    (forall self' res,
        convert_to_stokes (set_data init df) = (self', Some res) ->
        exists v,
          fifth = FloatCol v /\
          getitem res "Azimuth_original [°]" = Some (FloatCol v) /\
          forall i, (i < 1)%nat ->
            exists I D A P,
              cell df "Intensity [%]" i = Some I /\
              cell df "DOP [%]" i = Some D /\
              nth_error v i = Some A /\
              cell df "PER [dB]" i = Some P /\
              stokes_row res i = Some (spec_forward I D A P)) /\
    (forall c_no v_int v_dop v v_per,
        getitem df "No" = Some c_no ->
        getitem df "Intensity [%]" = Some (FloatCol v_int) ->
        getitem df "DOP [%]" = Some (FloatCol v_dop) ->
        fifth = FloatCol v ->
        getitem df "PER [dB]" = Some (FloatCol v_per) ->
        exists self' res,
          convert_to_stokes (set_data init df) = (self', Some res)).
Proof.
  intros df.
  apply (fifth_column_is_azimuth (reads_as df) no_open None init "export.txt"
           "utf-8" df [EvRead "utf-8"%string] 1).
  - reflexivity.
  - apply frame1_unnamed_rows.
  - reflexivity.
  - simpl. lia.
Defined.

(* ===================================================================== *)
(** * Saving *)
(* ===================================================================== *)

(** C10. When the engine holds Stokes results from which
    [get_polarization_properties] returns nothing, [save_results] with
    include_properties set writes exactly the frame of Stokes results and
    returns True (the write itself succeeding); when the engine holds no
    Stokes results, [save_results] writes nothing and returns False. *)
Theorem save_results_without_properties
        (merge : DataFrame -> DataFrame -> option DataFrame)
        (to_csv : string -> DataFrame -> bool)
        (self : StokesParameters) (output_file : string) :
  (forall sr,
      stokes_results self = Some sr ->
      get_polarization_properties self = None ->
      to_csv output_file sr = true ->
      save_results merge to_csv self output_file true =
      (true, Some (output_file, sr))) /\
  (stokes_results self = None ->
   forall include_properties,
     save_results merge to_csv self output_file include_properties =
     (false, None)).
Proof.
  split.
  - intros sr Hs Hp Hw. unfold save_results. rewrite Hs, Hp, Hw. reflexivity.
  - intros Hs b. unfold save_results. rewrite Hs. reflexivity.
Qed.

Lemma save_results_without_properties_witness :
  save_results no_merge csv_ok
               {| data := None; stokes_results := Some broken_results |}
               "out.csv" true =
    (true, Some ("out.csv"%string, broken_results)) /\
  save_results no_merge csv_ok init "out.csv" true = (false, None).
Proof.
  split.
  - apply (save_results_without_properties no_merge csv_ok
             {| data := None; stokes_results := Some broken_results |} "out.csv");
      reflexivity.
  - apply (save_results_without_properties no_merge csv_ok init "out.csv").
    reflexivity.
Defined.

(* ===================================================================== *)
(** * Further properties of the forward transform *)
(* ===================================================================== *)

Lemma cell_in_range (df : DataFrame) (name : string) (n i : nat) (x : float64) :
  has_rows n df -> cell df name i = Some x -> (i < n)%nat.
Proof.
  intros Hn H. unfold cell in H.
  destruct (getitem df name) as [[v|]|] eqn:E; try discriminate.
  pose proof (has_rows_getitem _ _ _ _ Hn E) as L. simpl in L.
  rewrite <- L. apply nth_error_Some. congruence.
Qed.

(** The record that a successful conversion holds for a given input row. *)
Lemma converted_row (self self' : StokesParameters) (df res : DataFrame)
      (n i : nat) (I D A P : float64) :
  data self = Some df ->
  has_rows n df ->
  convert_to_stokes self = (self', Some res) ->
  cell df "Intensity [%]" i = Some I ->
  cell df "DOP [%]" i = Some D ->
  azimuth_cell df i = Some A ->
  cell df "PER [dB]" i = Some P ->
  stokes_row res i = Some (spec_forward I D A P).
Proof.
  intros Hd Hn Hc HI HD HA HP.
  pose proof (cell_in_range _ _ _ _ _ Hn HI) as Hi.
  destruct (pipeline_rows _ _ _ _ _ Hd Hn Hc) as (props & _ & _ & Hrows).
  destruct (Hrows i Hi) as (I' & D' & A' & P' & HI' & HD' & HA' & HP' & Hr & _).
  congruence.
Qed.

Lemma polarised_norm_abs (k phi2 chi2 : R) :
  let s1 := k * cos phi2 * cos chi2 in
  let s2 := k * sin phi2 * cos chi2 in
  let s3 := k * sin chi2 in
  sqrt (s1 * s1 + s2 * s2 + s3 * s3) = Rabs k.
Proof.
  intros s1 s2 s3. rewrite <- sqrt_Rsqr_abs. f_equal. unfold Rsqr.
  subst s1 s2 s3.
  pose proof (sin2_cos2 phi2) as Hp. pose proof (sin2_cos2 chi2) as Hc.
  unfold Rsqr in Hp, Hc.
  replace (k * cos phi2 * cos chi2 * (k * cos phi2 * cos chi2) +
           k * sin phi2 * cos chi2 * (k * sin phi2 * cos chi2) +
           k * sin chi2 * (k * sin chi2))
    with (k * k * ((sin phi2 * sin phi2 + cos phi2 * cos phi2) * (cos chi2 * cos chi2)
                   + sin chi2 * sin chi2)) by ring.
  rewrite Hp. replace (1 * (cos chi2 * cos chi2) + sin chi2 * sin chi2)
    with (sin chi2 * sin chi2 + cos chi2 * cos chi2) by ring.
  rewrite Hc. ring.
Qed.

Lemma recomputed_dop_row (I D A P : R) :
  0 < I -> 0 <= P ->
  rDOP_calculated (spec_forward (Fin I) (Fin D) (Fin A) (Fin P)) =
  Fin (Rabs D / 100).
Proof.
  intros HI HP. destruct (spec_chi_finite P HP) as [chi Hchi].
  rewrite (spec_forward_fin I D A P chi Hchi). cbv zeta. cbn [rDOP_calculated].
  rewrite (polarised_norm_abs (I / 100 * (D / 100)) (2 * (A * (PI / 180))) (2 * chi)).
  rewrite fdiv_fin by lra. f_equal.
  rewrite Rabs_mult. rewrite (Rabs_right (I / 100)) by lra.
  replace (Rabs (D / 100)) with (Rabs D / 100).
  - field. lra.
  - unfold Rdiv. rewrite Rabs_mult. rewrite (Rabs_right (/ 100)) by lra.
    reflexivity.
Qed.

(** X1. The self-check column is exact: on a row of finite numbers with
    positive intensity and PER >= 0 dB, DOP_calculated is |DOP [%]| / 100,
    whatever the azimuth; it is the DOP of the input when that is not
    negative. *)
Theorem dop_calculated_is_input_dop
        (self self' : StokesParameters) (df res : DataFrame) (n i : nat)
        (I D A P : R) :
  data self = Some df ->
  has_rows n df ->
  convert_to_stokes self = (self', Some res) ->
  cell df "Intensity [%]" i = Some (Fin I) ->
  cell df "DOP [%]" i = Some (Fin D) ->
  azimuth_cell df i = Some (Fin A) ->
  cell df "PER [dB]" i = Some (Fin P) ->
  0 < I -> 0 <= P ->
  cell res "DOP_calculated" i = Some (Fin (Rabs D / 100)) /\
  (0 <= D -> cell res "DOP_calculated" i = Some (Fin (D / 100))).
Proof.
  intros Hd Hn Hc HI HD HA HP Ipos Ppos.
  pose proof (converted_row _ _ _ _ _ _ _ _ _ _ Hd Hn Hc HI HD HA HP) as Hr.
  destruct (stokes_row_cells _ _ _ Hr) as (_ & _ & _ & _ & Hdc).
  rewrite (recomputed_dop_row I D A P Ipos Ppos) in Hdc.
  split; [exact Hdc|]. intros HD0. rewrite Hdc. rewrite Rabs_right by lra.
  reflexivity.
Qed.

Lemma dop_calculated_is_input_dop_witness :
  cell (results_of other_file) "DOP_calculated" 0 = Some (Fin (Rabs 80 / 100)) /\
  (0 <= 80 -> cell (results_of other_file) "DOP_calculated" 0 = Some (Fin (80 / 100))).
Proof.
  apply (dop_calculated_is_input_dop (loaded other_file) (converted other_file)
           other_file (results_of other_file) 1 0 50 80 10 20);
    try reflexivity; try lra.
  apply frame1_rows.
Defined.

Lemma circular_component_row (I D A P : R) :
  0 <= I -> 0 <= D -> 0 <= P ->
  exists s3, rS3 (spec_forward (Fin I) (Fin D) (Fin A) (Fin P)) = Fin s3 /\ 0 <= s3.
Proof.
  intros HI HD HP.
  assert (0 <= I / 100 * (D / 100)) as Hk by (apply Rmult_le_pos; lra).
  destruct HP as [HP|<-].
  - rewrite (spec_forward_fin I D A P _ (spec_chi_pos P HP)). cbv zeta.
    cbn [rS3]. eexists. split; [reflexivity|].
    apply Rmult_le_pos; [exact Hk|].
    replace (2 * (1 / 2 * atan (2 / sqrt (Rpower 10 (P / 10) - 1))))
      with (atan (2 / sqrt (Rpower 10 (P / 10) - 1))) by field.
    pose proof (Rpower_10_gt_1 P HP) as H1.
    assert (0 < sqrt (Rpower 10 (P / 10) - 1)) as Hs by (apply sqrt_lt_R0; lra).
    assert (0 < 2 / sqrt (Rpower 10 (P / 10) - 1)) as Ht
        by (apply Rdiv_lt_0_compat; lra).
    pose proof (atan_bound (2 / sqrt (Rpower 10 (P / 10) - 1))) as [_ Hub].
    pose proof (atan_increasing _ _ Ht) as Hlb. rewrite atan_0 in Hlb.
    pose proof PI_RGT_0.
    apply sin_ge_0; lra.
  - rewrite (spec_forward_fin I D A 0 _ spec_chi_zero). cbv zeta.
    cbn [rS3]. eexists. split; [reflexivity|].
    replace (2 * (1 / 2 * (PI / 2))) with (PI / 2) by field.
    rewrite sin_PI2. lra.
Qed.

(** X2. The circular component never comes out negative: on a row of
    finite numbers with intensity >= 0, DOP [%] in [0, 100] and PER >= 0 dB,
    S3 is a finite number >= 0 (the PER carries no handedness). *)
Theorem circular_component_not_negative
        (self self' : StokesParameters) (df res : DataFrame) (n i : nat)
        (I D A P : R) :
  data self = Some df ->
  has_rows n df ->
  convert_to_stokes self = (self', Some res) ->
  cell df "Intensity [%]" i = Some (Fin I) ->
  cell df "DOP [%]" i = Some (Fin D) ->
  azimuth_cell df i = Some (Fin A) ->
  cell df "PER [dB]" i = Some (Fin P) ->
  0 <= I -> 0 <= D <= 100 -> 0 <= P ->
  exists s3, cell res "S3" i = Some (Fin s3) /\ 0 <= s3.
Proof.
  intros Hd Hn Hc HI HD HA HP Ipos Drange Ppos.
  pose proof (converted_row _ _ _ _ _ _ _ _ _ _ Hd Hn Hc HI HD HA HP) as Hr.
  destruct (stokes_row_cells _ _ _ Hr) as (_ & _ & _ & H3 & _).
  destruct (circular_component_row I D A P Ipos (proj1 Drange) Ppos)
    as (s3 & E & Hs).
  exists s3. rewrite H3, E. split; [reflexivity | exact Hs].
Qed.

Lemma circular_component_not_negative_witness :
  exists s3, cell (results_of scenario) "S3" 0 = Some (Fin s3) /\ 0 <= s3.
Proof.
  apply (circular_component_not_negative (loaded scenario) (converted scenario)
           scenario (results_of scenario) 1 0 100 100 45 30);
    try reflexivity; try lra.
  apply frame1_rows.
Defined.

(** X3. At a PER of exactly 0 dB the row is fully circular: S1 = S2 = 0 and
    S3 = Intensity/100 * DOP/100, whatever the azimuth. *)
Theorem zero_per_is_circular
        (self self' : StokesParameters) (df res : DataFrame) (n i : nat)
        (I D A : R) :
  data self = Some df ->
  has_rows n df ->
  convert_to_stokes self = (self', Some res) ->
  cell df "Intensity [%]" i = Some (Fin I) ->
  cell df "DOP [%]" i = Some (Fin D) ->
  azimuth_cell df i = Some (Fin A) ->
  cell df "PER [dB]" i = Some (Fin 0) ->
  cell res "S1" i = Some (Fin 0) /\
  cell res "S2" i = Some (Fin 0) /\
  cell res "S3" i = Some (Fin (I / 100 * (D / 100))).
Proof.
  intros Hd Hn Hc HI HD HA HP.
  pose proof (converted_row _ _ _ _ _ _ _ _ _ _ Hd Hn Hc HI HD HA HP) as Hr.
  destruct (stokes_row_cells _ _ _ Hr) as (_ & H1 & H2 & H3 & _).
  rewrite (spec_forward_fin I D A 0 _ spec_chi_zero) in H1, H2, H3.
  cbv zeta in H1, H2, H3. cbn [rS1 rS2 rS3] in H1, H2, H3.
  replace (2 * (1 / 2 * (PI / 2))) with (PI / 2) in H1, H2, H3 by field.
  rewrite cos_PI2 in H1, H2. rewrite sin_PI2 in H3.
  rewrite H1, H2, H3. repeat split; do 2 f_equal; ring.
Qed.

Lemma zero_per_is_circular_witness :
  let df := frame1 (Fin 1) (Fin 100) (Fin 80) (Fin 30) (Fin 0) in
  cell (results_of df) "S1" 0 = Some (Fin 0) /\
  cell (results_of df) "S2" 0 = Some (Fin 0) /\
  cell (results_of df) "S3" 0 = Some (Fin (100 / 100 * (80 / 100))).
Proof.
  intros df.
  apply (zero_per_is_circular (loaded df) (converted df) df (results_of df)
                              1 0 100 80 30); try reflexivity.
  apply frame1_rows.
Defined.

Lemma half_turn_row (I D P : float64) (A : R) :
  let r := spec_forward I D (Fin A) P in
  let r' := spec_forward I D (Fin (A + 180)) P in
  rS0 r' = rS0 r /\ rS1 r' = rS1 r /\ rS2 r' = rS2 r /\ rS3 r' = rS3 r /\
  rDOP_calculated r' = rDOP_calculated r.
Proof.
  assert (cos (2 * ((A + 180) * (PI / 180))) = cos (2 * (A * (PI / 180)))) as Hc.
  { replace (2 * ((A + 180) * (PI / 180))) with (2 * (A * (PI / 180)) + 2 * PI)
      by (field; apply PI_neq0).
    rewrite cos_plus, cos_2PI, sin_2PI. ring. }
  assert (sin (2 * ((A + 180) * (PI / 180))) = sin (2 * (A * (PI / 180)))) as Hs.
  { replace (2 * ((A + 180) * (PI / 180))) with (2 * (A * (PI / 180)) + 2 * PI)
      by (field; apply PI_neq0).
    rewrite sin_plus, cos_2PI, sin_2PI. ring. }
  unfold spec_forward, deg2rad. cbn [rS0 rS1 rS2 rS3 rDOP_calculated].
  rewrite !fmul_fin. cbn [fcos fsin]. rewrite Hc, Hs.
  repeat split; reflexivity.
Qed.

(** X4. The Stokes record depends on the azimuth modulo 180 degrees only:
    two rows with the same intensity, DOP and PER whose azimuths differ by
    180 degrees get the same S0, S1, S2, S3 and DOP_calculated. *)
Theorem azimuth_half_turn_same_record
        (self self' : StokesParameters) (df res : DataFrame) (n i j : nat)
        (I D P : float64) (A : R) :
  data self = Some df ->
  has_rows n df ->
  convert_to_stokes self = (self', Some res) ->
  cell df "Intensity [%]" i = Some I -> cell df "Intensity [%]" j = Some I ->
  cell df "DOP [%]" i = Some D -> cell df "DOP [%]" j = Some D ->
  cell df "PER [dB]" i = Some P -> cell df "PER [dB]" j = Some P ->
  azimuth_cell df i = Some (Fin A) ->
  azimuth_cell df j = Some (Fin (A + 180)) ->
  cell res "S0" j = cell res "S0" i /\
  cell res "S1" j = cell res "S1" i /\
  cell res "S2" j = cell res "S2" i /\
  cell res "S3" j = cell res "S3" i /\
  cell res "DOP_calculated" j = cell res "DOP_calculated" i.
Proof.
  intros Hd Hn Hc HIi HIj HDi HDj HPi HPj HAi HAj.
  pose proof (converted_row _ _ _ _ _ _ _ _ _ _ Hd Hn Hc HIi HDi HAi HPi) as Hri.
  pose proof (converted_row _ _ _ _ _ _ _ _ _ _ Hd Hn Hc HIj HDj HAj HPj) as Hrj.
  destruct (stokes_row_cells _ _ _ Hri) as (i0 & i1 & i2 & i3 & i4).
  destruct (stokes_row_cells _ _ _ Hrj) as (j0 & j1 & j2 & j3 & j4).
  destruct (half_turn_row I D P A) as (E0 & E1 & E2 & E3 & E4).
  cbv zeta in E0, E1, E2, E3, E4.
  rewrite i0, i1, i2, i3, i4, j0, j1, j2, j3, j4, E0, E1, E2, E3, E4.
  repeat split; reflexivity.
Qed.

Lemma azimuth_half_turn_same_record_witness :
  cell (results_of two_azimuths) "S0" 1 = cell (results_of two_azimuths) "S0" 0 /\
  cell (results_of two_azimuths) "S1" 1 = cell (results_of two_azimuths) "S1" 0 /\
  cell (results_of two_azimuths) "S2" 1 = cell (results_of two_azimuths) "S2" 0 /\
  cell (results_of two_azimuths) "S3" 1 = cell (results_of two_azimuths) "S3" 0 /\
  cell (results_of two_azimuths) "DOP_calculated" 1 =
  cell (results_of two_azimuths) "DOP_calculated" 0.
Proof.
  apply (azimuth_half_turn_same_record (loaded two_azimuths) (converted two_azimuths)
           two_azimuths (results_of two_azimuths) 2 0 1
           (Fin 100) (Fin 80) (Fin 20) 10); try reflexivity.
  unfold has_rows. repeat constructor.
Defined.

(* ===================================================================== *)
(** * Further properties of the inverse transform *)
(* ===================================================================== *)

Lemma property_row_all_cells (props : DataFrame) (i : nat) (q : property_record) :
  property_row props i = Some q ->
  cell props "DOP [%]" i = Some (pDOP q) /\
  cell props "Azimuth_calculated [°]" i = Some (pAzimuth_calculated q) /\
  cell props "Ellipticity_angle [°]" i = Some (pEllipticity_angle q) /\
  cell props "Ellipticity_ratio" i = Some (pEllipticity_ratio q) /\
  cell props "Linear_DOP [%]" i = Some (pLinear_DOP q) /\
  cell props "Circular_DOP [%]" i = Some (pCircular_DOP q).
Proof.
  unfold property_row. intros H.
  destruct (cell props "DOP [%]" i); try discriminate.
  destruct (cell props "Azimuth_calculated [°]" i); try discriminate.
  destruct (cell props "Ellipticity_angle [°]" i); try discriminate.
  destruct (cell props "Ellipticity_ratio" i); try discriminate.
  destruct (cell props "Linear_DOP [%]" i); try discriminate.
  destruct (cell props "Circular_DOP [%]" i); try discriminate.
  injection H as <-. simpl. repeat split; reflexivity.
Qed.

(** The property record derived for a given row of Stokes results. *)
Lemma derived_row (self : StokesParameters) (sr props : DataFrame) (n i : nat)
      (S0 S1 S2 S3 : float64) :
  stokes_results self = Some sr ->
  has_rows n sr ->
  get_polarization_properties self = Some props ->
  cell sr "S0" i = Some S0 -> cell sr "S1" i = Some S1 ->
  cell sr "S2" i = Some S2 -> cell sr "S3" i = Some S3 ->
  property_row props i = Some (spec_inverse S0 S1 S2 S3).
Proof.
  intros Hs Hn Hp H0 H1 H2 H3.
  pose proof (cell_in_range _ _ _ _ _ Hn H0) as Hi.
  unfold get_polarization_properties in Hp. rewrite Hs in Hp.
  destruct (properties_frame_rows _ _ _ Hn Hp) as (_ & _ & _ & Hrows).
  destruct (Hrows i Hi) as (S0' & S1' & S2' & S3' & H0' & H1' & H2' & H3' & Hq).
  congruence.
Qed.

Lemma Ratan2_range (y x : R) : - PI < Ratan2 y x <= PI.
Proof.
  pose proof PI_RGT_0 as Hpi. pose proof (atan_bound (y / x)) as [Hlo Hhi].
  unfold Ratan2.
  destruct (Rsgn_cases x) as [[Hx ->]|[[Hx ->]|[Hx ->]]].
  - destruct (Rsgn_cases y) as [[Hy ->]|[[Hy ->]|[Hy ->]]].
    + assert (0 < y / x) as Hq.
      { replace (y / x) with ((- y) / (- x)) by (field; lra).
        apply Rdiv_lt_0_compat; lra. }
      pose proof (atan_increasing _ _ Hq) as H0. rewrite atan_0 in H0. lra.
    + subst y. replace (0 / x) with 0 by (field; lra). rewrite atan_0. lra.
    + assert (y / x < 0) as Hq.
      { replace (y / x) with (- (y / (- x))) by (field; lra).
        assert (0 < y / - x) by (apply Rdiv_lt_0_compat; lra). lra. }
      pose proof (atan_increasing _ _ Hq) as H0. rewrite atan_0 in H0. lra.
  - destruct (Rsgn_cases y) as [[Hy ->]|[[Hy ->]|[Hy ->]]]; lra.
  - lra.
Qed.

(** X5. The azimuth computed back from any finite S1 and S2 is a finite
    number in [-90, 90] degrees. *)
Theorem azimuth_calculated_range
        (self : StokesParameters) (sr props : DataFrame) (n i : nat)
        (S0 S3 : float64) (s1 s2 : R) :
  stokes_results self = Some sr ->
  has_rows n sr ->
  get_polarization_properties self = Some props ->
  cell sr "S0" i = Some S0 -> cell sr "S1" i = Some (Fin s1) ->
  cell sr "S2" i = Some (Fin s2) -> cell sr "S3" i = Some S3 ->
  exists a,
    cell props "Azimuth_calculated [°]" i = Some (Fin a) /\ -90 <= a <= 90.
Proof.
  intros Hs Hn Hp H0 H1 H2 H3.
  pose proof (derived_row _ _ _ _ _ _ _ _ _ Hs Hn Hp H0 H1 H2 H3) as Hq.
  destruct (property_row_all_cells _ _ _ Hq) as (_ & Haz & _).
  unfold spec_inverse in Haz. cbn [pAzimuth_calculated arctan2] in Haz.
  unfold rad2deg in Haz. rewrite !fmul_fin in Haz.
  eexists. split; [exact Haz|].
  pose proof (Ratan2_range s2 s1) as [Hlo Hhi]. pose proof PI_RGT_0 as Hpi.
  assert (0 < 180 / PI) as Hf by (apply Rdiv_lt_0_compat; lra).
  assert (PI * (180 / PI) = 180) as E by (field; lra).
  split; nra.
Qed.

Lemma azimuth_calculated_range_witness :
  exists a,
    cell sample_properties "Azimuth_calculated [°]" 0 = Some (Fin a) /\
    -90 <= a <= 90.
Proof.
  apply (azimuth_calculated_range sampled sample_results sample_properties 1 0
           (Fin 1) (Fin (1 / 2)) 0 (1 / 2)); try reflexivity.
  unfold has_rows. repeat constructor.
Defined.

Lemma arcsin_fin (r : R) : -1 <= r <= 1 -> arcsin (Fin r) = Fin (asin r).
Proof.
  intros [Hlo Hhi]. unfold arcsin.
  destruct (Rlt_dec r (-1)) as [H|_]; [lra|].
  destruct (Rlt_dec 1 r) as [H|_]; [lra|]. reflexivity.
Qed.

Lemma abs_le_norm (s1 s2 s3 : R) :
  Rabs s3 <= sqrt (s1 * s1 + s2 * s2 + s3 * s3).
Proof.
  rewrite <- sqrt_Rsqr_abs. apply sqrt_le_1_alt. unfold Rsqr. nra.
Qed.

(** The inverse transform on finite Stokes parameters with S0 <> 0. *)
Lemma spec_inverse_fin (s0 s1 s2 s3 : R) :
  s0 <> 0 ->
  let N := sqrt (s1 * s1 + s2 * s2 + s3 * s3) in
  let rho := s3 / (s0 * (N / s0) + / 10000000000) in
  -1 < rho < 1 /\
  spec_inverse (Fin s0) (Fin s1) (Fin s2) (Fin s3) =
  mkProperty (Fin (N / s0 * 100))
             (Fin (1 / 2 * (Ratan2 s2 s1 * (180 / PI))))
             (Fin (1 / 2 * (asin rho * (180 / PI))))
             (Fin (tan (1 / 2 * (asin rho * (180 / PI)) * (PI / 180))))
             (Fin (sqrt (s1 * s1 + s2 * s2) / s0 * 100))
             (Fin (Rabs s3 / s0 * 100)).
Proof.
  intros Hs0 N rho.
  assert (0 <= N) as HN by apply sqrt_pos.
  pose proof (abs_le_norm s1 s2 s3) as Habs. fold N in Habs.
  assert (s0 * (N / s0) = N) as EN by (field; assumption).
  assert (0 < N + / 10000000000) as Hden by lra.
  assert (-1 < rho < 1) as Hrho.
  { unfold rho. rewrite EN.
    assert (Rabs s3 < N + / 10000000000) as Hlt by lra.
    apply Rabs_def2 in Hlt. destruct Hlt as [H1 H2].
    split.
    - apply Rmult_lt_reg_r with (N + / 10000000000); [exact Hden|].
      replace (s3 / (N + / 10000000000) * (N + / 10000000000)) with s3
        by (field; lra). lra.
    - apply Rmult_lt_reg_r with (N + / 10000000000); [exact Hden|].
      replace (s3 / (N + / 10000000000) * (N + / 10000000000)) with s3
        by (field; lra). lra. }
  split; [exact Hrho|].
  unfold spec_inverse, eps, rad2deg, deg2rad.
  rewrite !fsquare_fin, !fadd_fin.
  rewrite !fsqrt_fin by nra. fold N.
  rewrite !fdiv_fin by assumption.
  rewrite !fmul_fin, !fadd_fin.
  rewrite fdiv_fin by (rewrite EN; lra). fold rho.
  rewrite arcsin_fin by lra.
  cbn [arctan2 fabs ftan]. rewrite !fmul_fin. cbn [ftan].
  rewrite !fdiv_fin by assumption. rewrite !fmul_fin. reflexivity.
Qed.

(** X6. In real arithmetic on finite numbers (the rounding of float64 is
    not modelled, so neither is the absorption of 1e-10 by a large
    denominator), on Stokes parameters with S0 <> 0 the 1e-10 added to the
    denominator keeps the argument of the arcsine strictly inside (-1, 1):
    the ellipticity angle is a finite number strictly between -45 and 45
    degrees, and the ellipticity ratio a finite number strictly between -1
    and 1. *)
Theorem ellipticity_is_finite_and_bounded
        (self : StokesParameters) (sr props : DataFrame) (n i : nat)
        (s0 s1 s2 s3 : R) :
  stokes_results self = Some sr ->
  has_rows n sr ->
  get_polarization_properties self = Some props ->
  cell sr "S0" i = Some (Fin s0) -> cell sr "S1" i = Some (Fin s1) ->
  cell sr "S2" i = Some (Fin s2) -> cell sr "S3" i = Some (Fin s3) ->
  s0 <> 0 ->
  exists e t,
    cell props "Ellipticity_angle [°]" i = Some (Fin e) /\ -45 < e < 45 /\
    cell props "Ellipticity_ratio" i = Some (Fin t) /\ -1 < t < 1.
Proof.
  intros Hs Hn Hp H0 H1 H2 H3 Hs0.
  pose proof (derived_row _ _ _ _ _ _ _ _ _ Hs Hn Hp H0 H1 H2 H3) as Hq.
  destruct (property_row_all_cells _ _ _ Hq) as (_ & _ & He & Ht & _).
  destruct (spec_inverse_fin s0 s1 s2 s3 Hs0) as (Hrho & E).
  cbv zeta in Hrho, E. rewrite E in He, Ht.
  cbn [pEllipticity_angle pEllipticity_ratio] in He, Ht.
  set (rho := s3 / (s0 * (sqrt (s1 * s1 + s2 * s2 + s3 * s3) / s0)
                    + / 10000000000)) in *.
  pose proof (asin_bound_lt rho Hrho) as [Hlo Hhi].
  pose proof PI_RGT_0 as Hpi.
  assert (0 < 180 / PI) as Hf by (apply Rdiv_lt_0_compat; lra).
  assert (PI / 2 * (180 / PI) = 90) as E90 by (field; lra).
  do 2 eexists. split; [exact He|]. split; [split; nra|].
  split; [exact Ht|].
  replace (1 / 2 * (asin rho * (180 / PI)) * (PI / 180)) with (asin rho / 2)
    by (field; lra).
  split.
  - replace (-1) with (tan (- (PI / 4))) by (rewrite tan_neg, tan_PI4; ring).
    apply tan_increasing; lra.
  - rewrite <- tan_PI4. apply tan_increasing; lra.
Qed.

Lemma ellipticity_is_finite_and_bounded_witness :
  exists e t,
    cell sample_properties "Ellipticity_angle [°]" 0 = Some (Fin e) /\
    -45 < e < 45 /\
    cell sample_properties "Ellipticity_ratio" 0 = Some (Fin t) /\ -1 < t < 1.
Proof.
  apply (ellipticity_is_finite_and_bounded sampled sample_results
           sample_properties 1 0 1 0 (1 / 2) (1 / 2)); try reflexivity.
  - unfold has_rows. repeat constructor.
  - lra.
Defined.

(** X7. On finite Stokes parameters with S0 <> 0 the linear and the
    circular DOP add up in squares to the DOP:
    Linear_DOP^2 + Circular_DOP^2 = DOP^2 (all three in percent). *)
Theorem linear_and_circular_dop
        (self : StokesParameters) (sr props : DataFrame) (n i : nat)
        (s0 s1 s2 s3 : R) :
  stokes_results self = Some sr ->
  has_rows n sr ->
  get_polarization_properties self = Some props ->
  cell sr "S0" i = Some (Fin s0) -> cell sr "S1" i = Some (Fin s1) ->
  cell sr "S2" i = Some (Fin s2) -> cell sr "S3" i = Some (Fin s3) ->
  s0 <> 0 ->
  exists d l c,
    cell props "DOP [%]" i = Some (Fin d) /\
    cell props "Linear_DOP [%]" i = Some (Fin l) /\
    cell props "Circular_DOP [%]" i = Some (Fin c) /\
    l * l + c * c = d * d.
Proof.
  intros Hs Hn Hp H0 H1 H2 H3 Hs0.
  pose proof (derived_row _ _ _ _ _ _ _ _ _ Hs Hn Hp H0 H1 H2 H3) as Hq.
  destruct (property_row_all_cells _ _ _ Hq) as (Hd & _ & _ & _ & Hl & Hc).
  destruct (spec_inverse_fin s0 s1 s2 s3 Hs0) as (_ & E).
  cbv zeta in E. rewrite E in Hd, Hl, Hc.
  cbn [pDOP pLinear_DOP pCircular_DOP] in Hd, Hl, Hc.
  do 3 eexists. split; [exact Hd|]. split; [exact Hl|]. split; [exact Hc|].
  set (N := sqrt (s1 * s1 + s2 * s2 + s3 * s3)).
  set (L := sqrt (s1 * s1 + s2 * s2)).
  assert (N * N = s1 * s1 + s2 * s2 + s3 * s3) as EN by (apply sqrt_sqrt; nra).
  assert (L * L = s1 * s1 + s2 * s2) as EL by (apply sqrt_sqrt; nra).
  assert (Rabs s3 * Rabs s3 = s3 * s3) as EA.
  { rewrite <- Rabs_mult. apply Rabs_right. nra. }
  replace (L / s0 * 100 * (L / s0 * 100) + Rabs s3 / s0 * 100 * (Rabs s3 / s0 * 100))
    with ((L * L + Rabs s3 * Rabs s3) * (100 / s0 * (100 / s0)))
    by (field; assumption).
  replace (N / s0 * 100 * (N / s0 * 100)) with (N * N * (100 / s0 * (100 / s0)))
    by (field; assumption).
  rewrite EN, EL, EA. reflexivity.
Qed.

Lemma linear_and_circular_dop_witness :
  exists d l c,
    cell sample_properties "DOP [%]" 0 = Some (Fin d) /\
    cell sample_properties "Linear_DOP [%]" 0 = Some (Fin l) /\
    cell sample_properties "Circular_DOP [%]" 0 = Some (Fin c) /\
    l * l + c * c = d * d.
Proof.
  apply (linear_and_circular_dop sampled sample_results sample_properties
           1 0 1 0 (1 / 2) (1 / 2)); try reflexivity.
  - unfold has_rows. repeat constructor.
  - lra.
Defined.

Lemma spec_inverse_dark (s1 s2 s3 : R) :
  let q := spec_inverse (Fin 0) (Fin s1) (Fin s2) (Fin s3) in
  isfinite (pDOP q) = false /\
  isfinite (pLinear_DOP q) = false /\
  isfinite (pCircular_DOP q) = false /\
  pEllipticity_angle q = NaN /\
  pEllipticity_ratio q = NaN.
Proof.
  assert (forall x, isfinite (fmul (fdiv x (Fin 0)) (Fin 100)) = false) as Hnf.
  { intros x. pose proof (fdiv_by_zero x) as H.
    destruct (fdiv x (Fin 0)) as [r| | |]; try discriminate; simpl;
      rewrite ?(Rsgn_pos 100) by lra; reflexivity. }
  assert (forall x, fmul (Fin 0) (fdiv x (Fin 0)) = NaN) as Hz.
  { intros x. pose proof (fdiv_by_zero x) as H.
    destruct (fdiv x (Fin 0)) as [r| | |]; try discriminate; simpl;
      rewrite ?(Rsgn_zero 0) by reflexivity; reflexivity. }
  unfold spec_inverse.
  cbn [pDOP pLinear_DOP pCircular_DOP pEllipticity_angle pEllipticity_ratio].
  rewrite Hz. repeat split; try apply Hnf; reflexivity.
Qed.

(** X8. The 1e-10 does not cover S0 = 0: on a row of finite Stokes
    parameters with S0 = 0, DOP [%], Linear_DOP [%] and Circular_DOP [%]
    are not finite and the ellipticity angle and ratio are NaN. *)
Theorem zero_intensity_properties
        (self : StokesParameters) (sr props : DataFrame) (n i : nat)
        (s1 s2 s3 : R) :
  stokes_results self = Some sr ->
  has_rows n sr ->
  get_polarization_properties self = Some props ->
  cell sr "S0" i = Some (Fin 0) -> cell sr "S1" i = Some (Fin s1) ->
  cell sr "S2" i = Some (Fin s2) -> cell sr "S3" i = Some (Fin s3) ->
  exists d l c,
    cell props "DOP [%]" i = Some d /\ isfinite d = false /\
    cell props "Linear_DOP [%]" i = Some l /\ isfinite l = false /\
    cell props "Circular_DOP [%]" i = Some c /\ isfinite c = false /\
    cell props "Ellipticity_angle [°]" i = Some NaN /\
    cell props "Ellipticity_ratio" i = Some NaN.
Proof.
  intros Hs Hn Hp H0 H1 H2 H3.
  pose proof (derived_row _ _ _ _ _ _ _ _ _ Hs Hn Hp H0 H1 H2 H3) as Hq.
  destruct (property_row_all_cells _ _ _ Hq) as (Hd & _ & He & Ht & Hl & Hc).
  destruct (spec_inverse_dark s1 s2 s3) as (Fd & Fl & Fc & Ee & Et).
  cbv zeta in Fd, Fl, Fc, Ee, Et. rewrite Ee in He. rewrite Et in Ht.
  do 3 eexists.
  split; [exact Hd|]. split; [exact Fd|].
  split; [exact Hl|]. split; [exact Fl|].
  split; [exact Hc|]. split; [exact Fc|].
  split; assumption.
Qed.

Lemma zero_intensity_properties_witness :
  exists d l c,
    cell dark_properties "DOP [%]" 0 = Some d /\ isfinite d = false /\
    cell dark_properties "Linear_DOP [%]" 0 = Some l /\ isfinite l = false /\
    cell dark_properties "Circular_DOP [%]" 0 = Some c /\ isfinite c = false /\
    cell dark_properties "Ellipticity_angle [°]" 0 = Some NaN /\
    cell dark_properties "Ellipticity_ratio" 0 = Some NaN.
Proof.
  apply (zero_intensity_properties
           {| data := None; stokes_results := Some dark_results |}
           dark_results dark_properties 1 0 0 0 0); try reflexivity.
  unfold has_rows. repeat constructor.
Defined.

Lemma asin_lt (x y : R) : -1 <= x -> x < y -> y <= 1 -> asin x < asin y.
Proof.
  intros Hx Hxy Hy.
  pose proof (asin_bound x) as [Hx1 Hx2]. pose proof (asin_bound y) as [Hy1 Hy2].
  apply sin_increasing_0; try assumption.
  rewrite !sin_asin by lra. exact Hxy.
Qed.

(** Forward then inverse, on the ellipticity: the angle comes back
    positive and strictly below the angle of the forward transform. *)
Lemma roundtrip_ellipticity_row (I D A P : R) :
  0 < I -> 0 < D -> 0 < P ->
  let chi := 1 / 2 * atan (2 / sqrt (Rpower 10 (P / 10) - 1)) in
  let r := spec_forward (Fin I) (Fin D) (Fin A) (Fin P) in
  exists e,
    pEllipticity_angle (spec_inverse (rS0 r) (rS1 r) (rS2 r) (rS3 r)) = Fin e /\
    0 < e < chi * (180 / PI).
Proof.
  intros HI HD HP chi r. subst r.
  rewrite (spec_forward_fin I D A P _ (spec_chi_pos P HP)). cbv zeta.
  cbn [rS0 rS1 rS2 rS3].
  fold chi.
  set (k := I / 100 * (D / 100)).
  assert (0 < k) as Hk by (unfold k; apply Rmult_lt_0_compat; lra).
  assert (I / 100 <> 0) as Hs0 by lra.
  destruct (spec_inverse_fin (I / 100) (k * cos (2 * (A * (PI / 180))) * cos (2 * chi))
              (k * sin (2 * (A * (PI / 180))) * cos (2 * chi))
              (k * sin (2 * chi)) Hs0) as (Hrho & E).
  cbv zeta in Hrho, E. rewrite E. cbn [pEllipticity_angle].
  rewrite (polarised_norm k (2 * (A * (PI / 180))) (2 * chi)) in * by lra.
  replace (I / 100 * (k / (I / 100))) with k in * by (field; lra).
  set (rho := k * sin (2 * chi) / (k + / 10000000000)) in *.
  eexists. split; [reflexivity|].
  pose proof PI_RGT_0 as Hpi.
  (* the forward angle: 0 < 2 chi < PI / 2 *)
  pose proof (Rpower_10_gt_1 P HP) as H1.
  assert (0 < sqrt (Rpower 10 (P / 10) - 1)) as Hs by (apply sqrt_lt_R0; lra).
  assert (0 < 2 / sqrt (Rpower 10 (P / 10) - 1)) as Ht
      by (apply Rdiv_lt_0_compat; lra).
  pose proof (atan_bound (2 / sqrt (Rpower 10 (P / 10) - 1))) as [_ Hub].
  pose proof (atan_increasing _ _ Ht) as Hlb. rewrite atan_0 in Hlb.
  assert (2 * chi = atan (2 / sqrt (Rpower 10 (P / 10) - 1))) as E2
      by (unfold chi; field).
  assert (0 < sin (2 * chi)) as Hsin by (apply sin_gt_0; lra).
  pose proof (SIN_bound (2 * chi)) as [_ Hsin1].
  assert (0 < rho) as Hrho0.
  { unfold rho. apply Rdiv_lt_0_compat; [apply Rmult_lt_0_compat; lra | lra]. }
  assert (rho < sin (2 * chi)) as Hrho1.
  { unfold rho. apply Rmult_lt_reg_r with (k + / 10000000000); [lra|].
    replace (k * sin (2 * chi) / (k + / 10000000000) * (k + / 10000000000))
      with (k * sin (2 * chi)) by (field; lra).
    nra. }
  assert (0 < asin rho) as Ha0.
  { rewrite <- asin_0. apply asin_lt; lra. }
  assert (asin rho < 2 * chi) as Ha1.
  { pose proof (asin_sin (2 * chi)) as Eas.
    rewrite <- Eas by lra. apply asin_lt; lra. }
  assert (0 < 180 / PI) as Hf by (apply Rdiv_lt_0_compat; lra).
  split; nra.
Qed.

(** X9. Forward then inverse, on the ellipticity: on an input row of
    finite numbers with positive intensity, DOP and PER, the ellipticity
    angle of the properties is positive and strictly smaller than the
    ellipticity angle chi of the forward transform (in degrees): the
    1e-10 of the denominator makes the round trip fall short of chi. *)
Theorem roundtrip_ellipticity_below_chi
        (self self' : StokesParameters) (df res : DataFrame) (n i : nat)
        (I D A P : R) :
  data self = Some df ->
  has_rows n df ->
  convert_to_stokes self = (self', Some res) ->
  cell df "Intensity [%]" i = Some (Fin I) ->
  cell df "DOP [%]" i = Some (Fin D) ->
  azimuth_cell df i = Some (Fin A) ->
  cell df "PER [dB]" i = Some (Fin P) ->
  0 < I -> 0 < D -> 0 < P ->
  exists props e,
    get_polarization_properties self' = Some props /\
    cell props "Ellipticity_angle [°]" i = Some (Fin e) /\
    0 < e < 1 / 2 * atan (2 / sqrt (Rpower 10 (P / 10) - 1)) * (180 / PI).
Proof.
  intros Hd Hn Hc HI HD HA HP Ipos Dpos Ppos.
  pose proof (cell_in_range _ _ _ _ _ Hn HI) as Hi.
  destruct (pipeline_rows _ _ _ _ _ Hd Hn Hc) as (props & Hp & _ & Hrows).
  destruct (Hrows i Hi) as (I' & D' & A' & P' & HI' & HD' & HA' & HP' & _ & Hq).
  assert (I' = Fin I) by congruence. assert (D' = Fin D) by congruence.
  assert (A' = Fin A) by congruence. assert (P' = Fin P) by congruence.
  subst. destruct (property_row_all_cells _ _ _ Hq) as (_ & _ & He & _).
  cbv zeta in He.
  destruct (roundtrip_ellipticity_row I D A P Ipos Dpos Ppos) as (e & Ee & Hb).
  cbv zeta in Ee, Hb. rewrite Ee in He.
  exists props, e. repeat split; try assumption; apply Hb.
Qed.

Lemma roundtrip_ellipticity_below_chi_witness :
  exists props e,
    get_polarization_properties (converted other_file) = Some props /\
    cell props "Ellipticity_angle [°]" 0 = Some (Fin e) /\
    0 < e < 1 / 2 * atan (2 / sqrt (Rpower 10 (20 / 10) - 1)) * (180 / PI).
Proof.
  apply (roundtrip_ellipticity_below_chi (loaded other_file) (converted other_file)
           other_file (results_of other_file) 1 0 50 80 10 20);
    try reflexivity; try lra.
  apply frame1_rows.
Defined.

(* ===================================================================== *)
(** * Further properties of loading and saving *)
(* ===================================================================== *)

Lemma detect_and_read_some
      (read_csv : string -> string -> read_result)
      (open_rb : string -> option string)
      (chardet : option (string -> detection))
      (file_path : string) (df : DataFrame) (tr : list event) :
  detect_and_read read_csv open_rb chardet file_path = (Some df, tr) ->
  exists enc,
    tr = [EvOpen; EvDetect; EvRead enc] /\ read_csv file_path enc = ReadOk df.
Proof.
  unfold detect_and_read.
  destruct (open_rb file_path) as [raw|]; [|discriminate].
  destruct chardet as [detect|]; [|discriminate].
  destruct (encoding (detect raw)) as [e|]; [|discriminate].
  destruct (truthy e && conf_ok (confidence (detect raw))); [|discriminate].
  destruct (read_csv file_path e) as [df'| |] eqn:E; try discriminate.
  intros H. injection H as <- <-. exists e. split; [reflexivity | exact E].
Qed.

Lemma detect_and_read_reads
      (read_csv : string -> string -> read_result)
      (open_rb : string -> option string)
      (chardet : option (string -> detection))
      (file_path : string) (r : option DataFrame) (tr : list event) (e : string) :
  detect_and_read read_csv open_rb chardet file_path = (r, tr) ->
  In (EvRead e) tr ->
  r = None -> read_fails (read_csv file_path e).
Proof.
  unfold detect_and_read.
  destruct (open_rb file_path) as [raw|].
  2:{ intros H. injection H as <- <-. intros [H|[]]. discriminate. }
  destruct chardet as [detect|].
  2:{ intros H. injection H as <- <-. intros [H|[]]. discriminate. }
  destruct (encoding (detect raw)) as [e'|].
  2:{ intros H. injection H as <- <-. intros [H|[H|[]]]; discriminate. }
  destruct (truthy e' && conf_ok (confidence (detect raw))).
  2:{ intros H. injection H as <- <-. intros [H|[H|[]]]; discriminate. }
  destruct (read_csv file_path e') as [df'| |] eqn:E;
    intros H; injection H as <- <-; intros Hin Hr; try discriminate;
    destruct Hin as [H|[H|[H|[]]]]; try discriminate;
    injection H as <-; rewrite E; exact I.
Qed.

(** X10. What a load stores is what a read returned: a successful load
    ends with a read that succeeded, the table stored is the table of that
    read, and every earlier read had failed; a failed load means that all
    seven candidate encodings, and the detected one if it was tried, failed,
    and the engine is unchanged. *)
Theorem load_data_sound
        (read_csv : string -> string -> read_result)
        (open_rb : string -> option string)
        (chardet : option (string -> detection))
        (self self' : StokesParameters) (file_path : string)
        (ok : bool) (tr : list event) :
  load_data read_csv open_rb chardet self file_path = (self', ok, tr) ->
  (ok = true ->
   exists enc df tr0,
     tr = tr0 ++ [EvRead enc] /\
     read_csv file_path enc = ReadOk df /\
     data self' = Some df /\
     forall e, In (EvRead e) tr0 -> read_fails (read_csv file_path e)) /\
  (ok = false ->
   self' = self /\
   Forall (fun e => read_fails (read_csv file_path e)) encodings /\
   forall e, In (EvRead e) tr -> read_fails (read_csv file_path e)).
Proof.
  intros Hload.
  destruct (try_encodings_cases read_csv file_path encodings)
    as [(pre & enc & post & df & Henc & Hpre & Hok & _)|[Hall _]].
  - rewrite (load_data_first _ _ _ _ _ _ _ _ _ Henc Hpre Hok) in Hload.
    injection Hload as <- <- <-. split; [|discriminate].
    intros _. exists enc, df, (map EvRead pre).
    split; [apply map_app|]. split; [exact Hok|]. split; [reflexivity|].
    intros e Hin. apply in_map_iff in Hin. destruct Hin as (e' & E & Hin).
    injection E as ->. rewrite Forall_forall in Hpre. apply Hpre. exact Hin.
  - rewrite (load_data_all_fail _ _ _ _ _ Hall) in Hload.
    assert (forall e, In (EvRead e) (map EvRead encodings) ->
                      read_fails (read_csv file_path e)) as Hcand.
    { intros e Hin. apply in_map_iff in Hin. destruct Hin as (e' & E & Hin).
      injection E as ->. rewrite Forall_forall in Hall. apply Hall. exact Hin. }
    destruct (detect_and_read read_csv open_rb chardet file_path)
      as [[df|] tr'] eqn:Ed; injection Hload as <- <- <-.
    + split; [|discriminate]. intros _.
      destruct (detect_and_read_some _ _ _ _ _ _ Ed) as (enc & -> & Hok).
      exists enc, df, (map EvRead encodings ++ [EvOpen; EvDetect]).
      split; [rewrite <- app_assoc; reflexivity|].
      split; [exact Hok|]. split; [reflexivity|].
      intros e Hin.
      apply (in_app_or (map EvRead encodings) [EvOpen; EvDetect]) in Hin.
      destruct Hin as [Hin|Hin].
      * apply Hcand. exact Hin.
      * destruct Hin as [H|[H|[]]]; discriminate.
    + split; [discriminate|]. intros _.
      split; [reflexivity|]. split; [exact Hall|].
      intros e Hin.
      apply (in_app_or (map EvRead encodings) tr') in Hin.
      destruct Hin as [Hin|Hin].
      * apply Hcand. exact Hin.
      * apply (detect_and_read_reads _ _ _ _ _ _ _ Ed Hin eq_refl).
Qed.

Lemma load_data_sound_witness :
  (true = true ->
   exists enc df tr0,
     [EvRead "utf-8"; EvRead "gbk"]%string = tr0 ++ [EvRead enc] /\
     gbk_file "export.txt" enc = ReadOk df /\
     data (set_data init scenario) = Some df /\
     forall e, In (EvRead e) tr0 -> read_fails (gbk_file "export.txt" e)) /\
  (true = false ->
   set_data init scenario = init /\
   Forall (fun e => read_fails (gbk_file "export.txt" e)) encodings /\
   forall e, In (EvRead e) [EvRead "utf-8"; EvRead "gbk"]%string ->
             read_fails (gbk_file "export.txt" e)).
Proof.
  apply (load_data_sound gbk_file no_open None init (set_data init scenario)
                         "export.txt" true).
  reflexivity.
Defined.

(** X11. The detection cannot help with an encoding that is already a
    candidate: when all seven candidates fail and the detected encoding is
    one of them, the load fails and the engine is unchanged, whatever the
    confidence. *)
Theorem detected_candidate_cannot_help
        (read_csv : string -> string -> read_result)
        (open_rb : string -> option string)
        (detect : string -> detection)
        (self : StokesParameters) (file_path raw_data enc : string) :
  Forall (fun e => read_fails (read_csv file_path e)) encodings ->
  open_rb file_path = Some raw_data ->
  encoding (detect raw_data) = Some enc ->
  In enc encodings ->
  exists tr,
    load_data read_csv open_rb (Some detect) self file_path = (self, false, tr).
Proof.
  intros Hall Ho He Hin.
  rewrite (load_data_all_fail _ _ _ _ _ Hall).
  unfold detect_and_read. rewrite Ho, He.
  assert (read_fails (read_csv file_path enc)) as Hf
      by (rewrite Forall_forall in Hall; apply Hall; exact Hin).
  destruct (truthy enc && conf_ok (confidence (detect raw_data))).
  - destruct (read_csv file_path enc); [contradiction| |]; eauto.
  - eauto.
Qed.

Lemma detected_candidate_cannot_help_witness :
  exists tr,
    load_data (fun _ _ => OtherError) some_bytes
              (Some (fun _ => {| encoding := Some "gbk"%string;
                                 confidence := 99 # 100 |}))
              init "export.txt" = (init, false, tr).
Proof.
  apply (detected_candidate_cannot_help (fun _ _ => OtherError) some_bytes
           (fun _ => {| encoding := Some "gbk"%string; confidence := 99 # 100 |})
           init "export.txt" "raw" "gbk").
  - repeat constructor.
  - reflexivity.
  - reflexivity.
  - simpl. tauto.
Defined.

(** X12. After a conversion that succeeded the properties can always be
    derived, so saving with include_properties set never falls back to the
    Stokes frame alone: it hands the Stokes frame and its properties to the
    merge and writes the merged frame; it returns False when the merge or
    the write raises. *)
Theorem save_after_convert_merges
        (merge : DataFrame -> DataFrame -> option DataFrame)
        (to_csv : string -> DataFrame -> bool)
        (self self' : StokesParameters) (res : DataFrame) (output_file : string) :
  convert_to_stokes self = (self', Some res) ->
  exists props,
    get_polarization_properties self' = Some props /\
    save_results merge to_csv self' output_file true =
    match merge res props with
    | Some merged =>
        if to_csv output_file merged
        then (true, Some (output_file, merged))
        else (false, None)
    | None => (false, None)
    end.
Proof.
  intros Hc.
  destruct (convert_to_stokes_inv _ _ _ Hc) as (df & Hd & Hs & ->).
  destruct (properties_of_stokes_frame _ _ Hs) as [props Hp].
  exists props. split; [exact Hp|].
  unfold save_results. cbn [stokes_results get_polarization_properties].
  rewrite Hp. reflexivity.
Qed.

Lemma save_after_convert_merges_witness :
  exists props,
    get_polarization_properties (converted scenario) = Some props /\
    save_results no_merge csv_ok (converted scenario) "out.csv" true =
    match no_merge (results_of scenario) props with
    | Some merged =>
        if csv_ok "out.csv" merged
        then (true, Some ("out.csv"%string, merged))
        else (false, None)
    | None => (false, None)
    end.
Proof.
  apply (save_after_convert_merges no_merge csv_ok (loaded scenario)
                                   (converted scenario) (results_of scenario)
                                   "out.csv").
  reflexivity.
Defined.

(* ===================================================================== *)
(** * The worker thread and the main window *)
(* ===================================================================== *)

Lemma len_stokes_frame (df res : DataFrame) (n : nat) :
  has_rows n df -> stokes_frame df = Some res -> len res = n.
Proof.
  intros Hn Hs.
  destruct (stokes_frame_rows _ _ _ Hn Hs) as (Hnr & Hnames & _).
  destruct res as [|[k c] rest]; [discriminate|].
  unfold has_rows in Hnr. inversion Hnr as [|? ? Hc _]. exact Hc.
Qed.



Lemma contains_head (c : ascii) (needle s : string) :
  contains (String c needle) s = true -> In c (list_ascii_of_string s).
Proof.
  induction s as [|a s IH]; simpl.
  - discriminate.
  - destruct (ascii_dec c a) as [->|Hne].
    + intros _. left. reflexivity.
    + intros H. right. apply IH. exact H.
Qed.

(** X14. [_is_encoding_error] answers True for a file that cannot be
    opened and for a file whose first byte is 0xFF, and False for a file in
    which every one of the first 100 bytes is below 0xFE (any ASCII or
    UTF-8 text, for instance), whatever follows them. *)
Theorem is_encoding_error_bytes
        (open_rb : string -> option string) (file_path : string) :
  (open_rb file_path = None -> _is_encoding_error open_rb file_path = true) /\
  (forall rest,
      open_rb file_path = Some (String "255"%char rest) ->
      _is_encoding_error open_rb file_path = true) /\
  (forall content,
      open_rb file_path = Some content ->
      (forall c, In c (list_ascii_of_string (substring 0 100 content)) ->
                 (nat_of_ascii c < 254)%nat) ->
      _is_encoding_error open_rb file_path = false).
Proof.
  unfold _is_encoding_error. split; [|split].
  - intros ->. reflexivity.
  - intros rest ->.
    destruct (contains bom_le (substring 0 100 (String "255"%char rest))
              || contains bom_be (substring 0 100 (String "255"%char rest)));
      [reflexivity|].
    change (substring 0 100 (String "255"%char rest))
      with (String "255"%char (substring 0 99 rest)).
    change (substring 0 1 (String "255"%char (substring 0 99 rest)))
      with (String "255"%char (substring 0 0 (substring 0 99 rest))).
    destruct (substring 0 99 rest); reflexivity.
  - intros content -> Hlow.
    assert (forall needle c, contains (String c needle) (substring 0 100 content) = true ->
                             (nat_of_ascii c < 254)%nat) as Hc.
    { intros needle c H. apply Hlow. apply (contains_head c needle). exact H. }
    destruct (contains bom_le (substring 0 100 content)) eqn:E1.
    { apply Hc in E1. vm_compute in E1. lia. }
    destruct (contains bom_be (substring 0 100 content)) eqn:E2.
    { apply Hc in E2. vm_compute in E2. lia. }
    destruct (contains byte_ff (substring 0 1 (substring 0 100 content))) eqn:E3;
      [|reflexivity].
    exfalso. apply contains_head in E3.
    assert (In "255"%char (list_ascii_of_string (substring 0 100 content))) as Hin.
    { destruct (substring 0 100 content) as [|a s']; simpl in E3; [contradiction|].
      destruct E3 as [->|E3]; [left; reflexivity|].
      destruct s'; simpl in E3; contradiction. }
    apply Hlow in Hin. vm_compute in Hin. lia.
Qed.

Lemma is_encoding_error_bytes_witness :
  _is_encoding_error some_bytes "export.txt" = false.
Proof.
  apply (is_encoding_error_bytes some_bytes "export.txt") with (content := "raw"%string).
  - reflexivity.
  - intros c Hin. simpl in Hin.
    destruct Hin as [<-|[<-|[<-|[]]]]; vm_compute; lia.
Defined.

Lemma update_plot_no_help (c : StokesParameters) (p : animation_settings)
      (mode : string) (s : option animation_settings) (m : string) :
  ~ In (EncodingHelp m) (update_plot c p mode s).
Proof.
  unfold update_plot. destruct (stokes_results c); simpl;
    intros H; repeat (destruct H as [H|H]; try discriminate); exact H.
Qed.

Lemma on_data_processed_help (c : StokesParameters) (p : animation_settings)
      (mode : string) (success : bool) (message : string) :
  (exists m, In (EncodingHelp m) (on_data_processed c p mode success message)) <->
  success = false /\ contains "文件编码问题" message = true.
Proof.
  unfold on_data_processed. destruct success.
  - split.
    + intros (m & [H|[H|H]]); try discriminate.
      exfalso. exact (update_plot_no_help _ _ _ _ _ H).
    + intros [H _]. discriminate.
  - destruct (contains "文件编码问题" message); split.
    + intros _. split; reflexivity.
    + intros _. exists message. simpl. tauto.
    + intros (m & [H|[H|[H|[]]]]); discriminate.
    + intros [_ H]. discriminate.
Qed.

Lemma messages_classified :
  contains "文件编码问题" msg_encoding = true /\
  contains "文件编码问题" msg_load = false /\
  contains "文件编码问题" msg_convert = false.
Proof. repeat split; vm_compute; reflexivity. Qed.

Lemma help_among_actions (c : StokesParameters) (p : animation_settings)
      (mode : string) (pre : list ui_action) (signals : list signal) :
  (forall m, ~ In (EncodingHelp m) pre) ->
  ((exists m, In (EncodingHelp m)
                 (pre ++ flat_map (deliver c p mode) signals)) <->
   exists message,
     In (Finished false message) signals /\
     contains "文件编码问题" message = true).
Proof.
  intros Hpre. split.
  - intros (m & Hin). apply in_app_or in Hin. destruct Hin as [Hin|Hin].
    + exfalso. exact (Hpre m Hin).
    + apply in_flat_map in Hin. destruct Hin as (sg & Hsg & Hin).
      destruct sg as [v|ok msg]; cbn [deliver] in Hin.
      * destruct Hin as [H|[]]. discriminate.
      * assert (ok = false /\ contains "文件编码问题" msg = true) as [-> Hc]
            by (apply (on_data_processed_help c p mode); eauto).
        exists msg. split; assumption.
  - intros (msg & Hsg & Hc).
    assert (exists m, In (EncodingHelp m) (on_data_processed c p mode false msg))
      as (m & Hm) by (apply on_data_processed_help; auto).
    exists m. apply in_or_app. right. apply in_flat_map.
    exists (Finished false msg). split; assumption.
Qed.

(** X15. Processing a file opens the encoding help exactly when the load
    failed and [_is_encoding_error] answered True for the file; in every
    other case (success, a load that failed otherwise, a conversion that
    failed) no encoding help is shown. *)
Theorem encoding_help_shown_iff
        (read_csv : string -> string -> read_result)
        (open_rb : string -> option string)
        (chardet : option (string -> detection))
        (basename : string -> string)
        (stokes_converter converter : StokesParameters)
        (panel_settings : animation_settings) (current_mode file_path : string)
        (actions : list ui_action) :
  process_data_file read_csv open_rb chardet basename stokes_converter
                    panel_settings current_mode file_path = (converter, actions) ->
  ((exists m, In (EncodingHelp m) actions) <->
   snd (fst (load_data read_csv open_rb chardet stokes_converter file_path)) = false /\
   _is_encoding_error open_rb file_path = true).
Proof.
  destruct messages_classified as (Menc & Mload & Mconv).
  unfold process_data_file. intros H.
  destruct (run read_csv open_rb chardet stokes_converter file_path)
    as [c sigs] eqn:Er.
  injection H as <- <-.
  etransitivity.
  { apply (help_among_actions c panel_settings current_mode
             [ StatusMessage ("正在处理文件: " ++ basename file_path)%string;
               ProgressBarVisible true; ProgressBarValue 0 ] sigs).
    intros m Hin. simpl in Hin.
    repeat (destruct Hin as [Hin|Hin]; try discriminate). exact Hin. }
  unfold run in Er.
  destruct (load_data read_csv open_rb chardet stokes_converter file_path)
    as [[c1 ok] tr]. cbn [fst snd].
  destruct ok; cbn [negb] in Er.
  - destruct (convert_to_stokes c1) as [c2 [res|]]; injection Er as <- <-;
      (split; [|intros [E _]; discriminate]);
      intros (msg & Hin & Hc); simpl in Hin;
      repeat (destruct Hin as [Hin|Hin]; try discriminate); try contradiction.
    injection Hin as <-. rewrite Mconv in Hc. discriminate.
  - destruct (_is_encoding_error open_rb file_path); injection Er as <- <-.
    + split; [intros _; split; reflexivity|].
      intros _. exists msg_encoding. split; [simpl; tauto | exact Menc].
    + split; [|intros [_ E]; discriminate].
      intros (msg & Hin & Hc). simpl in Hin.
      repeat (destruct Hin as [Hin|Hin]; try discriminate); try contradiction.
      injection Hin as <-. rewrite Mload in Hc. discriminate.
Qed.

Lemma encoding_help_shown_iff_witness :
  (exists m,
      In (EncodingHelp m)
         (snd (process_data_file (fun _ _ => OtherError) no_open None
                                 (fun p => p) init
                                 {| speed := 5; frames := 10; show_trail := false |}
                                 "数据模式" "missing.txt"))) <->
  snd (fst (load_data (fun _ _ => OtherError) no_open None init "missing.txt"))
    = false /\
  _is_encoding_error no_open "missing.txt" = true.
Proof.
  apply (encoding_help_shown_iff (fun _ _ => OtherError) no_open None
           (fun p => p) init
           (fst (process_data_file (fun _ _ => OtherError) no_open None
                                   (fun p => p) init
                                   {| speed := 5; frames := 10; show_trail := false |}
                                   "数据模式" "missing.txt"))
           {| speed := 5; frames := 10; show_trail := false |}
           "数据模式" "missing.txt").
  reflexivity.
Defined.

(** X16. A file that loads but does not convert leaves the results of the
    file processed before on screen: the converter then holds the new raw
    table next to the old Stokes results, the window shows the warning and
    plots nothing, and any later change of mode plots the old results. *)
Theorem failed_conversion_shows_previous_results
        (read_csv : string -> string -> read_result)
        (open_rb : string -> option string)
        (chardet : option (string -> detection))
        (basename : string -> string)
        (stokes_converter converter : StokesParameters)
        (panel_settings : animation_settings) (current_mode file_path enc : string)
        (df previous : DataFrame) (tr : list event) (actions : list ui_action) :
  try_encodings read_csv file_path encodings = (Some (enc, df), tr) ->
  stokes_frame df = None ->
  stokes_results stokes_converter = Some previous ->
  process_data_file read_csv open_rb chardet basename stokes_converter
                    panel_settings current_mode file_path = (converter, actions) ->
  data converter = Some df /\
  stokes_results converter = Some previous /\
  In (WarningBox "处理失败" msg_convert) actions /\
  (forall mode shown settings, ~ In (UpdatePlot mode shown settings) actions) /\
  forall mode,
    update_plot converter panel_settings mode None =
    [ UpdatePlot mode previous panel_settings;
      StatusMessage ("当前模式: " ++ mode)%string ].
Proof.
  destruct messages_classified as (_ & _ & Mconv).
  intros Hread Hnone Hprev H.
  unfold process_data_file, run in H.
  rewrite (load_data_parsed _ _ _ _ _ _ _ _ Hread) in H. cbn [negb] in H.
  rewrite (convert_to_stokes_fails (set_data stokes_converter df) df eq_refl Hnone) in H.
  injection H as <- <-.
  split; [reflexivity|]. split; [exact Hprev|].
  split.
  - do 7 right. left. reflexivity.
  - split.
    + intros mode shown settings Hin.
      repeat (destruct Hin as [Hin|Hin]; try discriminate). exact Hin.
    + intros mode. unfold update_plot. cbn [stokes_results set_data].
      rewrite Hprev. reflexivity.
Qed.

Lemma failed_conversion_shows_previous_results_witness :
  let panel := {| speed := 5; frames := 10; show_trail := false |} in
  let r := process_data_file (reads_as no_columns) no_open None (fun p => p)
                             (converted scenario) panel "数据模式" "x.txt" in
  data (fst r) = Some no_columns /\
  stokes_results (fst r) = Some (results_of scenario) /\
  In (WarningBox "处理失败" msg_convert) (snd r) /\
  (forall mode shown settings, ~ In (UpdatePlot mode shown settings) (snd r)) /\
  forall mode,
    update_plot (fst r) panel mode None =
    [ UpdatePlot mode (results_of scenario) panel;
      StatusMessage ("当前模式: " ++ mode)%string ].
Proof.
  intros panel r.
  apply (failed_conversion_shows_previous_results (reads_as no_columns) no_open
           None (fun p => p) (converted scenario) (fst r) panel "数据模式" "x.txt"
           "utf-8" no_columns (results_of scenario) [EvRead "utf-8"%string] (snd r)).
  - reflexivity.
  - reflexivity.
  - reflexivity.
  - reflexivity.
Defined.

(* ===================================================================== *)
(** * The list of imported files *)
(* ===================================================================== *)

Lemma is_in_spec (x : string) (l : list string) : is_in x l = true <-> In x l.
Proof.
  unfold is_in. rewrite existsb_exists. split.
  - intros (y & Hy & E). apply String.eqb_eq in E. subst. exact Hy.
  - intros H. exists x. split; [exact H | apply String.eqb_refl].
Qed.

Lemma is_in_false (x : string) (l : list string) : is_in x l = false <-> ~ In x l.
Proof.
  rewrite <- is_in_spec. destruct (is_in x l); split; intros H;
    try discriminate; try reflexivity; try (intros E; discriminate).
  exfalso. apply H. reflexivity.
Qed.

(** The loop of [import_files] appends, in order, the paths that were not
    yet listed, each once. *)
Lemma add_new_spec (file_paths imported new_files : list string) :
  exists added,
    add_new file_paths imported new_files = (imported ++ added, new_files ++ added) /\
    (forall f, In f added <-> In f file_paths /\ ~ In f imported) /\
    (NoDup imported -> NoDup (imported ++ added)).
Proof.
  revert imported new_files.
  induction file_paths as [|p rest IH]; intros imported new_files.
  - exists []. rewrite !app_nil_r. split; [reflexivity|]. split.
    + intros f. simpl. tauto.
    + auto.
  - simpl. destruct (is_in p imported) eqn:E.
    + apply is_in_spec in E.
      destruct (IH imported new_files) as (added & Ha & Hin & Hnd).
      exists added. split; [exact Ha|]. split; [|exact Hnd].
      intros f. rewrite Hin. simpl. split.
      * intros [H1 H2]. auto.
      * intros [[->|H1] H2]; [contradiction | auto].
    + apply is_in_false in E.
      destruct (IH (imported ++ [p]) (new_files ++ [p])) as (added & Ha & Hin & Hnd).
      exists (p :: added). rewrite Ha. rewrite <- !app_assoc. simpl.
      split; [reflexivity|]. split.
      * intros f. simpl. rewrite Hin. rewrite in_app_iff. simpl. split.
        -- intros [<-|[H1 H2]]; [auto|]. split; [auto|]. tauto.
        -- intros [[<-|H1] H2]; [auto|].
           destruct (string_dec p f) as [->|Hne]; [auto|]. right. tauto.
      * intros Hn. replace (imported ++ p :: added) with ((imported ++ [p]) ++ added)
          by (rewrite <- app_assoc; reflexivity).
        apply Hnd. apply NoDup_app; [exact Hn | repeat constructor; simpl; tauto |].
        intros x Hx [<-|[]]. contradiction.
Qed.

(** X17. [import_files] keeps the list free of duplicates: it appends to
    the list exactly the selected paths that were not listed, each once
    even when selected twice, leaves the old entries in place, and emits
    [files_imported] with the appended paths exactly when there are some. *)
Theorem import_files_no_duplicates
        (imported_files file_paths imported' : list string)
        (actions : list list_action) :
  NoDup imported_files ->
  import_files imported_files file_paths = (imported', actions) ->
  exists added,
    imported' = imported_files ++ added /\
    NoDup imported' /\
    (forall f, In f added <-> In f file_paths /\ ~ In f imported_files) /\
    (added <> [] -> In (FilesImported added) actions) /\
    (added = [] -> forall l, ~ In (FilesImported l) actions).
Proof.
  intros Hnd H. unfold import_files in H.
  destruct file_paths as [|p rest].
  - injection H as <- <-. exists []. rewrite app_nil_r.
    repeat split; try assumption; simpl; try tauto.
  - destruct (add_new_spec (p :: rest) imported_files []) as (added & Ha & Hin & Hn).
    rewrite Ha in H. simpl app in H.
    exists added. destruct added as [|a added'].
    + injection H as <- <-. split; [reflexivity|]. split; [auto|].
      split; [exact Hin|]. split; [congruence|].
      intros _ l [E|[]]. discriminate.
    + injection H as <- <-. split; [reflexivity|]. split; [auto|].
      split; [exact Hin|]. split; [|discriminate].
      intros _. simpl. tauto.
Qed.

Lemma import_files_no_duplicates_witness :
  exists added,
    [ "a.txt"; "b.txt" ]%string = [ "a.txt" ]%string ++ added /\
    NoDup [ "a.txt"; "b.txt" ]%string /\
    (forall f, In f added <->
               In f [ "b.txt"; "a.txt"; "b.txt" ]%string /\
               ~ In f [ "a.txt" ]%string) /\
    (added <> [] ->
     In (FilesImported added)
        (snd (import_files [ "a.txt" ]%string [ "b.txt"; "a.txt"; "b.txt" ]%string))) /\
    (added = [] ->
     forall l,
       ~ In (FilesImported l)
            (snd (import_files [ "a.txt" ]%string
                               [ "b.txt"; "a.txt"; "b.txt" ]%string))).
Proof.
  apply (import_files_no_duplicates [ "a.txt" ]%string
           [ "b.txt"; "a.txt"; "b.txt" ]%string).
  - repeat constructor. simpl. tauto.
  - reflexivity.
Defined.

Lemma add_new_listed (file_paths imported new_files : list string) :
  (forall f, In f file_paths -> In f imported) ->
  add_new file_paths imported new_files = (imported, new_files).
Proof.
  induction file_paths as [|p rest IH]; intros H; simpl; [reflexivity|].
  assert (is_in p imported = true) as -> by (apply is_in_spec; apply H; left; reflexivity).
  apply IH. intros f Hf. apply H. right. exact Hf.
Qed.

(** X18. Importing the same selection again changes nothing: the list
    stays as the first import left it, no [files_imported] signal is
    emitted, and the user is told that the files are already listed. *)
Theorem import_files_again
        (imported_files file_paths : list string) :
  file_paths <> [] ->
  let once := fst (import_files imported_files file_paths) in
  import_files once file_paths =
  (once, [InformationBox "提示" "所选文件已经在列表中"]).
Proof.
  intros Hne once. subst once.
  destruct file_paths as [|p rest]; [contradiction|].
  destruct (add_new_spec (p :: rest) imported_files []) as (added & Ha & Hin & _).
  assert (fst (import_files imported_files (p :: rest)) = imported_files ++ added)
    as ->.
  { unfold import_files. rewrite Ha. simpl app. destruct added; reflexivity. }
  unfold import_files.
  rewrite add_new_listed; [reflexivity|].
  intros f Hf. apply in_or_app.
  destruct (in_dec string_dec f imported_files) as [Hi|Hi]; [left; exact Hi|].
  right. apply Hin. split; assumption.
Qed.

Lemma import_files_again_witness :
  let once := fst (import_files [ "a.txt" ]%string [ "b.txt"; "a.txt" ]%string) in
  import_files once [ "b.txt"; "a.txt" ]%string =
  (once, [InformationBox "提示" "所选文件已经在列表中"]).
Proof.
  apply (import_files_again [ "a.txt" ]%string [ "b.txt"; "a.txt" ]%string).
  discriminate.
Defined.

Lemma count_remove_first (x g : string) (l : list string) :
  In x l ->
  count_occ string_dec (remove_first x l) g =
  if string_dec x g then pred (count_occ string_dec l g)
  else count_occ string_dec l g.
Proof.
  induction l as [|y rest IH]; intros Hin; [contradiction|].
  simpl. destruct (String.eqb y x) eqn:E.
  - apply String.eqb_eq in E. subst y.
    destruct (string_dec x g) as [->|Hne].
    + destruct (string_dec g g); [reflexivity | contradiction].
    + destruct (string_dec x g); [contradiction | reflexivity].
  - apply String.eqb_neq in E.
    destruct Hin as [->|Hin]; [contradiction|].
    simpl. rewrite (IH Hin).
    destruct (string_dec y g) as [->|Hyg]; destruct (string_dec x g) as [->|Hxg];
      try reflexivity; contradiction.
Qed.

(** X19. [remove_file] takes out one occurrence of the path and nothing
    else: the path is counted once less in the list, every other path as
    often as before; on a list without duplicates the path is gone.  A
    path that is not listed leaves the list as it is and the display is not
    refreshed. *)
Theorem remove_file_once
        (imported_files : list string) (file_path : string) :
  (In file_path imported_files ->
   snd (remove_file imported_files file_path) = [UpdateFileList] /\
   (forall g,
       count_occ string_dec (fst (remove_file imported_files file_path)) g =
       if string_dec file_path g
       then pred (count_occ string_dec imported_files g)
       else count_occ string_dec imported_files g) /\
   (NoDup imported_files ->
    ~ In file_path (fst (remove_file imported_files file_path)))) /\
  (~ In file_path imported_files ->
   remove_file imported_files file_path = (imported_files, [])).
Proof.
  unfold remove_file. split.
  - intros Hin. assert (is_in file_path imported_files = true) as ->
        by (apply is_in_spec; exact Hin).
    cbn [fst snd]. split; [reflexivity|]. split.
    + intros g. apply count_remove_first. exact Hin.
    + intros Hnd Hin'.
      apply (count_occ_In string_dec) in Hin'.
      rewrite (count_remove_first _ _ _ Hin) in Hin'.
      destruct (string_dec file_path file_path); [|contradiction].
      rewrite (NoDup_count_occ string_dec) in Hnd.
      specialize (Hnd file_path). lia.
  - intros Hnot. assert (is_in file_path imported_files = false) as ->
        by (apply is_in_false; exact Hnot).
    reflexivity.
Qed.

Lemma remove_file_once_witness :
  ~ In "a.txt"%string
       (fst (remove_file [ "a.txt"; "b.txt" ]%string "a.txt")).
Proof.
  apply (remove_file_once [ "a.txt"; "b.txt" ]%string "a.txt").
  - simpl. tauto.
  - repeat constructor; simpl; intuition discriminate.
Defined.

Section DropFacts.

Variable extension : string -> string.
Variable path_exists : string -> bool.
Variable basename : string -> string.

Local Abbreviation ok := (accepted extension path_exists).
Local Abbreviation drop := (dropEvent extension path_exists basename).

Lemma sort_urls_valid (urls : list url) (valid invalid : list string) :
  fst (sort_urls extension path_exists basename urls valid invalid) =
  valid ++ map toLocalFile (filter ok urls).
Proof.
  revert valid invalid. induction urls as [|u rest IH]; intros valid invalid.
  - simpl. rewrite app_nil_r. reflexivity.
  - simpl. unfold accepted.
    destruct (isLocalFile u); simpl; [|apply IH].
    destruct (supported extension (toLocalFile u)); simpl; [|apply IH].
    destruct (path_exists (toLocalFile u)); simpl; [|apply IH].
    rewrite IH. rewrite <- app_assoc. reflexivity.
Qed.

Lemma add_unlisted_spec (valid copy live new_files : list string) :
  add_unlisted valid copy live new_files =
  (live ++ filter (fun f => negb (is_in f copy)) valid,
   new_files ++ filter (fun f => negb (is_in f copy)) valid).
Proof.
  revert live new_files. induction valid as [|p rest IH]; intros live new_files.
  - simpl. rewrite !app_nil_r. reflexivity.
  - simpl. destruct (is_in p copy); simpl.
    + apply IH.
    + rewrite IH. rewrite <- !app_assoc. reflexivity.
Qed.

Lemma drop_list (imported_files : list string) (urls : list url) :
  fst (drop imported_files true urls) =
  imported_files ++
  filter (fun f => negb (is_in f imported_files))
         (map toLocalFile (filter ok urls)).
Proof.
  unfold dropEvent.
  pose proof (sort_urls_valid urls [] []) as Hv. simpl app in Hv.
  destruct (sort_urls extension path_exists basename urls [] [])
    as [valid invalid]. cbn [fst] in Hv. rewrite <- Hv.
  destruct valid as [|v valid'].
  - destruct invalid; simpl; rewrite app_nil_r; reflexivity.
  - rewrite add_unlisted_spec.
    change ([] ++ filter (fun f => negb (is_in f imported_files)) (v :: valid'))
      with (filter (fun f => negb (is_in f imported_files)) (v :: valid')).
    generalize (filter (fun f => negb (is_in f imported_files)) (v :: valid')).
    intros [|a l]; reflexivity.
Qed.

(** X20. A drop adds, in order, the dropped paths that are local, of a
    supported extension, existing and not listed before the drop; the
    paths are compared with the list as it was before the drop, so a path
    dropped twice in one drop is listed twice, while a drop of distinct
    paths keeps a duplicate-free list duplicate-free.  Without URLs the
    drop is ignored and the list unchanged. *)
Theorem drop_adds_unlisted_files (imported_files : list string) (urls : list url) :
  fst (drop imported_files true urls) =
    imported_files ++
    filter (fun f => negb (is_in f imported_files))
           (map toLocalFile (filter ok urls)) /\
  (NoDup imported_files ->
   NoDup (map toLocalFile (filter ok urls)) ->
   NoDup (fst (drop imported_files true urls))) /\
  (forall u,
      ok u = true -> ~ In (toLocalFile u) imported_files ->
      fst (drop imported_files true [u; u]) =
      imported_files ++ [toLocalFile u; toLocalFile u]) /\
  drop imported_files false urls = (imported_files, [Ignore]).
Proof.
  split; [apply drop_list|]. split; [|split; [|reflexivity]].
  - intros Hn Hv. rewrite drop_list. apply NoDup_app.
    + exact Hn.
    + apply NoDup_filter. exact Hv.
    + intros f Hf Hin. apply filter_In in Hin. destruct Hin as [_ Hin].
      apply negb_true_iff in Hin. apply is_in_false in Hin. contradiction.
  - intros u Hu Hnot. rewrite drop_list. simpl. rewrite Hu. simpl.
    apply is_in_false in Hnot. rewrite Hnot. reflexivity.
Qed.

End DropFacts.

Lemma drop_adds_unlisted_files_witness :
  let u := {| isLocalFile := true; toLocalFile := "a.txt"%string |} in
  fst (dropEvent (fun _ => ".txt"%string) (fun _ => true) (fun p => p)
                 [ "b.txt" ]%string true [u; u]) =
  [ "b.txt" ]%string ++ [toLocalFile u; toLocalFile u].
Proof.
  intros u.
  apply (drop_adds_unlisted_files (fun _ => ".txt"%string) (fun _ => true)
                                  (fun p => p) [ "b.txt" ]%string [u; u]).
  - reflexivity.
  - simpl. intuition discriminate.
Defined.

(* ===================================================================== *)
(** * The polar data of the animation *)
(* ===================================================================== *)

Lemma cell_column (df : DataFrame) (name : string) (i : nat) (x : float64) :
  cell df name i = Some x ->
  exists v, getitem df name = Some (FloatCol v) /\ nth_error v i = Some x.
Proof.
  unfold cell. destruct (getitem df name) as [[v|]|]; try discriminate.
  intros H. exists v. split; [reflexivity | exact H].
Qed.

Lemma linear_part (k phi2 : R) :
  0 <= k ->
  sqrt (k * cos phi2 * (k * cos phi2) + k * sin phi2 * (k * sin phi2)) = k.
Proof.
  intros Hk. pose proof (sin2_cos2 phi2) as H. unfold Rsqr in H.
  replace (k * cos phi2 * (k * cos phi2) + k * sin phi2 * (k * sin phi2))
    with (k * k * (sin phi2 * sin phi2 + cos phi2 * cos phi2)) by ring.
  rewrite H, Rmult_1_r. apply sqrt_square. exact Hk.
Qed.

(** X21. In animation mode the point of a row sits at the polar angle
    2*azimuth (in radians) and at the radius Intensity/100 * DOP/100 *
    cos(2 chi): for a frame of results of a successful conversion with at
    least this row, [plot_animation_mode] stores one frame per row, and
    for an input row of finite numbers with positive intensity, DOP and
    PER and an azimuth in (-90, 90] the stored angle and radius are
    these. *)
Theorem animation_point_of_row
        (self self' : StokesParameters) (df res : DataFrame) (n i : nat)
        (I D A P : R) :
  data self = Some df ->
  has_rows n df ->
  convert_to_stokes self = (self', Some res) ->
  cell df "Intensity [%]" i = Some (Fin I) ->
  cell df "DOP [%]" i = Some (Fin D) ->
  azimuth_cell df i = Some (Fin A) ->
  cell df "PER [dB]" i = Some (Fin P) ->
  0 < I -> 0 < D -> 0 < P -> -90 < A <= 90 ->
  exists theta r,
    plot_animation_mode (stokes_results self') = Polar theta r n /\
    nth_error theta i = Some (Fin (2 * (A * (PI / 180)))) /\
    nth_error r i =
      Some (Fin (I / 100 * (D / 100) *
                 cos (2 * (1 / 2 * atan (2 / sqrt (Rpower 10 (P / 10) - 1)))))).
Proof.
  intros Hd Hn Hc HI HD HA HP Ipos Dpos Ppos [Alo Ahi].
  pose proof (cell_in_range _ _ _ _ _ Hn HI) as Hi.
  pose proof (converted_row _ _ _ _ _ _ _ _ _ _ Hd Hn Hc HI HD HA HP) as Hr.
  destruct (stokes_row_cells _ _ _ Hr) as (_ & C1 & C2 & _).
  destruct (convert_to_stokes_inv _ _ _ Hc) as (df' & Hd' & Hs & ->).
  rewrite Hd in Hd'. injection Hd' as <-.
  pose proof (len_stokes_frame _ _ _ Hn Hs) as Hlen.
  destruct (cell_column _ _ _ _ C1) as (v1 & G1 & N1).
  destruct (cell_column _ _ _ _ C2) as (v2 & G2 & N2).
  cbn [stokes_results]. unfold plot_animation_mode.
  assert (frame_empty res = false) as ->.
  { unfold frame_empty. unfold len in Hlen. destruct res as [|[k c] rest].
    - simpl in Hlen. lia.
    - rewrite Hlen. apply Nat.eqb_neq. lia. }
  rewrite G1, G2. cbn [as_float]. rewrite Hlen.
  do 2 eexists. split; [reflexivity|].
  rewrite nth_error_zipWith, N1, N2.
  unfold aadd, asquare. rewrite nth_error_map, nth_error_zipWith, !nth_error_map.
  rewrite N1, N2. cbn [option_map].
  rewrite (spec_forward_fin I D A P _ (spec_chi_pos P Ppos)). cbv zeta.
  cbn [rS1 rS2].
  pose proof (cos_2chi_pos P Ppos) as Hcos.
  set (chi2 := 2 * (1 / 2 * atan (2 / sqrt (Rpower 10 (P / 10) - 1)))) in *.
  set (phi2 := 2 * (A * (PI / 180))).
  set (k := I / 100 * (D / 100)).
  assert (0 < k) as Hk by (unfold k; apply Rmult_lt_0_compat; lra).
  assert (0 < k * cos chi2) as Hkc by (apply Rmult_lt_0_compat; assumption).
  replace (k * sin phi2 * cos chi2) with (k * cos chi2 * sin phi2) by ring.
  replace (k * cos phi2 * cos chi2) with (k * cos chi2 * cos phi2) by ring.
  pose proof PI_RGT_0 as Hpi.
  split.
  - cbn [arctan2]. rewrite Ratan2_polar; [reflexivity | exact Hkc |].
    unfold phi2.
    assert (0 < PI / 180) as Hf by (apply Rdiv_lt_0_compat; lra).
    assert (180 * (PI / 180) = PI) as E by (field; lra).
    split; nra.
  - rewrite !fsquare_fin, fadd_fin. rewrite fsqrt_fin by nra.
    rewrite linear_part by lra. reflexivity.
Qed.

Lemma animation_point_of_row_witness :
  exists theta r,
    plot_animation_mode (stokes_results (converted other_file)) = Polar theta r 1 /\
    nth_error theta 0 = Some (Fin (2 * (10 * (PI / 180)))) /\
    nth_error r 0 =
      Some (Fin (50 / 100 * (80 / 100) *
                 cos (2 * (1 / 2 * atan (2 / sqrt (Rpower 10 (20 / 10) - 1)))))).
Proof.
  apply (animation_point_of_row (loaded other_file) (converted other_file)
           other_file (results_of other_file) 1 0 50 80 10 20);
    try reflexivity; try lra.
  apply frame1_rows.
Defined.

(* ===================================================================== *)
(** * Converting a file to UTF-8 *)
(* ===================================================================== *)

Lemma append_not_self (s t : string) : t <> EmptyString -> (s ++ t)%string <> s.
Proof.
  intros Ht. induction s as [|c s IH]; simpl.
  - exact Ht.
  - intros E. injection E as E. exact (IH E).
Qed.

Lemma put_same (fs : files) (path : string) (content : option string) :
  put fs path content path = content.
Proof. unfold put. rewrite String.eqb_refl. reflexivity. Qed.

Lemma put_other (fs : files) (path q : string) (content : option string) :
  q <> path -> put fs path content q = fs q.
Proof.
  intros H. unfold put. apply String.eqb_neq in H. rewrite H. reflexivity.
Qed.

Section ConversionFacts.

Variable decode : string -> string -> option string.
Variable encode_utf8 : string -> string.
Variable answer_yes : string -> bool.
Variable copy2 : string -> string -> copy_result.
Variable write_text : string -> string -> write_result.

Local Abbreviation loop := (convert_loop decode encode_utf8 answer_yes copy2 write_text).
Local Abbreviation convert :=
  (try_convert_file_encoding decode encode_utf8 answer_yes copy2 write_text).

Lemma convert_loop_backup (encs : list string) (fs fs' : files) (path : string)
      (actions : list convert_action) :
  loop encs fs path = (fs', actions) ->
  (forall q, q <> path -> q <> (path ++ ".bak")%string -> fs' q = fs q) /\
  (fs' path <> fs path -> fs' (path ++ ".bak")%string = fs path).
Proof.
  assert ((path ++ ".bak")%string <> path) as Hbak
      by (apply append_not_self; discriminate).
  assert (path <> (path ++ ".bak")%string) as Hbak' by congruence.
  revert fs' actions. induction encs as [|enc rest IH]; intros fs' actions H;
    simpl in H.
  - injection H as <- <-. split; [reflexivity | congruence].
  - destruct (fs path) as [raw|] eqn:Ef.
    2:{ injection H as <- <-. split; [reflexivity | congruence]. }
    destruct (decode enc raw) as [content|].
    2:{ apply IH in H. exact H. }
    destruct (answer_yes enc).
    2:{ injection H as <- <-. split; [reflexivity | congruence]. }
    destruct (copy2 path (path ++ ".bak")%string) as [|after].
    + destruct (write_text path content) as [| |left_over]; injection H as <- <-.
      * split.
        -- intros q H1 H2. rewrite !put_other by assumption. reflexivity.
        -- intros _. rewrite put_other by assumption. apply put_same.
      * split.
        -- intros q H1 H2. rewrite put_other by assumption. reflexivity.
        -- intros _. apply put_same.
      * split.
        -- intros q H1 H2. rewrite !put_other by assumption. reflexivity.
        -- intros _. rewrite put_other by assumption. apply put_same.
    + injection H as <- <-. split.
      * intros q H1 H2. rewrite put_other by assumption. reflexivity.
      * intros Hch. exfalso. apply Hch. rewrite put_other by assumption.
        exact Ef.
Qed.

(** X22. Converting a file to UTF-8 never loses the original: whatever
    the encodings read, the user answers and the copy and the write do,
    only the file itself and its .bak neighbour can change, and whenever
    the file itself has changed the .bak file holds the bytes the file had
    before. *)
Theorem conversion_keeps_a_backup
        (path : string) (fs fs' : files) (actions : list convert_action) :
  convert (Some path) fs = (fs', actions) ->
  (forall q, q <> path -> q <> (path ++ ".bak")%string -> fs' q = fs q) /\
  (fs' path <> fs path -> fs' (path ++ ".bak")%string = fs path).
Proof.
  unfold try_convert_file_encoding. destruct path as [|c path'].
  - intros H. injection H as <- <-. split; [reflexivity | congruence].
  - apply convert_loop_backup.
Qed.

Lemma convert_loop_first (pre post : list string) (enc raw content : string)
      (fs : files) (path : string) :
  fs path = Some raw ->
  (forall e, In e pre -> decode e raw = None) ->
  decode enc raw = Some content ->
  loop (pre ++ enc :: post) fs path = loop [enc] fs path.
Proof.
  intros Hf Hpre Hd. induction pre as [|e pre IH].
  - simpl. rewrite Hf, Hd. reflexivity.
  - transitivity (loop (pre ++ enc :: post) fs path).
    + simpl. rewrite Hf. rewrite (Hpre e) by (left; reflexivity). reflexivity.
    + apply IH. intros e' He'. apply Hpre. right. exact He'.
Qed.

(** X23. The user is asked once, about the first of gbk, gb2312, latin-1
    and cp1252 that reads the file.  On No nothing is written and no other
    encoding is offered.  On Yes, when the copy and the write go through,
    the file holds the text re-encoded as UTF-8, the .bak file holds the
    original bytes, and the file is processed again. *)
Theorem conversion_asks_first_readable_encoding
        (pre post : list string) (enc raw content path : string) (fs : files) :
  path <> EmptyString ->
  encodings_to_try = pre ++ enc :: post ->
  fs path = Some raw ->
  (forall e, In e pre -> decode e raw = None) ->
  decode enc raw = Some content ->
  (answer_yes enc = false -> convert (Some path) fs = (fs, [Question enc])) /\
  (answer_yes enc = true ->
   copy2 path (path ++ ".bak")%string = CopyDone ->
   write_text path content = WriteDone ->
   exists fs',
     convert (Some path) fs =
       (fs', [ Question enc; ConversionDone (path ++ ".bak")%string;
               Reprocess path ]) /\
     fs' path = Some (encode_utf8 content) /\
     fs' (path ++ ".bak")%string = Some raw).
Proof.
  intros Hne Henc Hf Hpre Hd.
  assert (convert (Some path) fs = loop [enc] fs path) as E.
  { unfold try_convert_file_encoding. destruct path; [contradiction|].
    rewrite Henc. apply (convert_loop_first pre post enc raw content); assumption. }
  rewrite E. simpl. rewrite Hf, Hd. split.
  - intros ->. reflexivity.
  - intros -> -> ->. eexists. split; [reflexivity|].
    assert ((path ++ ".bak")%string <> path) as Hbak
        by (apply append_not_self; discriminate).
    split; [apply put_same|].
    rewrite put_other by exact Hbak. apply put_same.
Qed.

End ConversionFacts.

Lemma conversion_keeps_a_backup_witness :
  let r := try_convert_file_encoding latin_only same_bytes always_yes copy_works
                                     write_breaks (Some "f.txt"%string) one_file in
  (forall q, q <> "f.txt"%string -> q <> ("f.txt" ++ ".bak")%string ->
             fst r q = one_file q) /\
  (fst r "f.txt"%string <> one_file "f.txt"%string ->
   fst r ("f.txt" ++ ".bak")%string = one_file "f.txt"%string).
Proof.
  intros r.
  apply (conversion_keeps_a_backup latin_only same_bytes always_yes copy_works
           write_breaks "f.txt" one_file (fst r) (snd r)).
  reflexivity.
Defined.

Lemma conversion_asks_first_readable_encoding_witness :
  (always_yes "latin-1"%string = false ->
   try_convert_file_encoding latin_only same_bytes always_yes copy_works
                             write_works (Some "f.txt"%string) one_file =
   (one_file, [Question "latin-1"%string])) /\
  (always_yes "latin-1"%string = true ->
   copy_works "f.txt"%string ("f.txt" ++ ".bak")%string = CopyDone ->
   write_works "f.txt"%string "bytes"%string = WriteDone ->
   exists fs',
     try_convert_file_encoding latin_only same_bytes always_yes copy_works
                               write_works (Some "f.txt"%string) one_file =
       (fs', [ Question "latin-1"%string;
               ConversionDone ("f.txt" ++ ".bak")%string;
               Reprocess "f.txt"%string ]) /\
     fs' "f.txt"%string = Some (same_bytes "bytes"%string) /\
     fs' ("f.txt" ++ ".bak")%string = Some "bytes"%string).
Proof.
  apply (conversion_asks_first_readable_encoding latin_only same_bytes always_yes
           copy_works write_works [ "gbk"; "gb2312" ]%string [ "cp1252" ]%string
           "latin-1" "bytes" "bytes" "f.txt" one_file).
  - discriminate.
  - reflexivity.
  - reflexivity.
  - intros e [<-|[<-|[]]]; reflexivity.
  - reflexivity.
Defined.

(* ===================================================================== *)
(** * The summary *)
(* ===================================================================== *)

Lemma describe_nonempty (a : ndarray) :
  a <> [] -> exists d, describe a = Some d.
Proof.
  intros H. destruct a as [|x rest]; [contradiction|].
  unfold describe. simpl. eauto.
Qed.

Lemma all_nth_repeat {A : Type} (x : A) (l : list A) (n : nat) :
  List.length l = n ->
  (forall i, (i < n)%nat -> nth_error l i = Some x) ->
  l = repeat x n.
Proof.
  revert n. induction l as [|y l IH]; intros n Hlen Hnth; simpl in Hlen; subst n.
  - reflexivity.
  - simpl. f_equal.
    + specialize (Hnth 0%nat (Nat.lt_0_succ _)). simpl in Hnth. congruence.
    + apply IH; [reflexivity|]. intros i Hi.
      apply (Hnth (S i)). lia.
Qed.

Lemma fold_fadd_zeros (n : nat) :
  fold_left fadd (repeat (Fin 0) n) (Fin 0) = Fin 0.
Proof.
  induction n as [|n IH]; simpl; [reflexivity|].
  rewrite Rplus_0_l. exact IH.
Qed.

Lemma fold_fmax_zeros (n : nat) :
  fold_left fmax (repeat (Fin 0) n) (Fin 0) = Fin 0.
Proof.
  induction n as [|n IH]; simpl; [reflexivity|].
  destruct (Rle_dec 0 0); exact IH.
Qed.

Lemma np_mean_zeros (n : nat) : (0 < n)%nat -> np_mean (repeat (Fin 0) n) = Fin 0.
Proof.
  intros Hn. unfold np_mean. rewrite fold_fadd_zeros, repeat_length.
  assert (0 < INR n) as Hpos by (apply lt_0_INR; exact Hn).
  rewrite fdiv_fin by lra. f_equal. field. lra.
Qed.

Lemma np_max_zeros (n : nat) :
  (0 < n)%nat -> np_max (repeat (Fin 0) n) = Some (Fin 0).
Proof.
  intros Hn. destruct n as [|n]; [lia|]. simpl. rewrite fold_fmax_zeros.
  reflexivity.
Qed.

Lemma asub_same_length (a b : ndarray) :
  List.length a = List.length b -> asub a b = Some (zipWith fsub a b).
Proof. intros H. unfold asub. rewrite H, Nat.eqb_refl. reflexivity. Qed.

Lemma asub_mismatch (a b : ndarray) :
  List.length a <> List.length b ->
  List.length a <> 1%nat -> List.length b <> 1%nat ->
  asub a b = None.
Proof.
  intros Hne Ha Hb. unfold asub.
  apply Nat.eqb_neq in Hne. rewrite Hne.
  destruct a as [|x [|x' a']]; destruct b as [|y [|y' b']];
    simpl in *; try reflexivity; try contradiction.
Qed.

Lemma nonempty_of_length (a : ndarray) (n : nat) :
  List.length a = n -> (0 < n)%nat -> a <> [].
Proof. intros H Hn ->. simpl in H. lia. Qed.

(** X24. On valid data the summary cannot report a deviation of the DOP:
    after a successful conversion of a table with at least one row, all
    rows being finite with positive intensity, DOP >= 0 and PER >= 0 dB,
    [print_summary] prints its numbers, the number of points is the number
    of rows, and both the mean and the maximal difference between the
    original and the recomputed DOP are exactly 0. *)
Theorem summary_reports_no_deviation
        (self self' : StokesParameters) (df res : DataFrame) (n : nat) :
  data self = Some df ->
  has_rows n df ->
  (0 < n)%nat ->
  convert_to_stokes self = (self', Some res) ->
  (forall i, (i < n)%nat ->
     exists I D A P,
       cell df "Intensity [%]" i = Some (Fin I) /\
       cell df "DOP [%]" i = Some (Fin D) /\
       azimuth_cell df i = Some (Fin A) /\
       cell df "PER [dB]" i = Some (Fin P) /\
       0 < I /\ 0 <= D /\ 0 <= P) ->
  exists s,
    print_summary self' = Summary s /\
    points s = n /\
    dop_mean_difference s = Fin 0 /\
    dop_max_difference s = Fin 0.
Proof.
  intros Hd Hn Hpos Hc Hrows.
  destruct (convert_to_stokes_inv _ _ _ Hc) as (df' & Hd' & Hs & ->).
  rewrite Hd in Hd'. injection Hd' as <-.
  pose proof (len_stokes_frame _ _ _ Hn Hs) as Hlen.
  destruct (stokes_frame_rows _ _ _ Hn Hs) as (Hnr & _ & _ & Hres).
  destruct (stokes_frame_reads _ _ Hs)
    as (c_no & v_int & v_dop & v_az & v_per & Hno & Hint & Hdop & Haz & Hper).
  pose proof (has_rows_getitem _ _ _ _ Hn Hdop) as Ldop. simpl in Ldop.
  (* the columns of the results *)
  assert (forall name, In name [ "S0"; "S1"; "S2"; "S3"; "DOP_calculated" ]%string ->
                       exists v, getitem res name = Some (FloatCol v) /\
                                 List.length v = n) as Hcols.
  { intros name Hin.
    destruct (Hres 0%nat Hpos) as (I & D & A & P & _ & _ & _ & _ & Hr).
    destruct (stokes_row_cells _ _ _ Hr) as (C0 & C1 & C2 & C3 & C4).
    simpl in Hin.
    destruct Hin as [<-|[<-|[<-|[<-|[<-|[]]]]]];
      match goal with
      | H : cell res ?nm 0 = Some _ |- exists v, getitem res ?nm = _ /\ _ =>
          destruct (cell_column _ _ _ _ H) as (v & G & _); exists v;
          split; [exact G | apply (has_rows_getitem _ _ _ _ Hnr G)]
      end. }
  destruct (Hcols "S0"%string) as (v0 & G0 & L0); [simpl; tauto|].
  destruct (Hcols "S1"%string) as (v1 & G1 & L1); [simpl; tauto|].
  destruct (Hcols "S2"%string) as (v2 & G2 & L2); [simpl; tauto|].
  destruct (Hcols "S3"%string) as (v3 & G3 & L3); [simpl; tauto|].
  destruct (Hcols "DOP_calculated"%string) as (vc & Gc & Lc); [simpl; tauto|].
  destruct (describe_nonempty v0 (nonempty_of_length _ _ L0 Hpos)) as [d0 E0].
  destruct (describe_nonempty v1 (nonempty_of_length _ _ L1 Hpos)) as [d1 E1].
  destruct (describe_nonempty v2 (nonempty_of_length _ _ L2 Hpos)) as [d2 E2].
  destruct (describe_nonempty v3 (nonempty_of_length _ _ L3 Hpos)) as [d3 E3].
  (* the differences are all zero *)
  assert (map fabs (zipWith fsub (adivs v_dop (Fin 100)) vc) = repeat (Fin 0) n)
    as Hzero.
  { apply all_nth_repeat.
    - rewrite length_map. apply length_zipWith; [|exact Lc].
      unfold adivs. rewrite length_map. exact Ldop.
    - intros i Hi.
      destruct (Hrows i Hi) as (I & D & A & P & HI & HD & HA & HP & Ipos & Dpos & Ppos).
      destruct (Hres i Hi) as (I' & D' & A' & P' & HI' & HD' & HA' & HP' & Hr).
      assert (I' = Fin I) by congruence. assert (D' = Fin D) by congruence.
      assert (A' = Fin A) by congruence. assert (P' = Fin P) by congruence.
      subst.
      destruct (stokes_row_cells _ _ _ Hr) as (_ & _ & _ & _ & C4).
      rewrite (recomputed_dop_row I D A P Ipos Ppos) in C4.
      unfold cell in C4. rewrite Gc in C4.
      unfold cell in HD. rewrite Hdop in HD.
      rewrite nth_error_map, nth_error_zipWith. unfold adivs.
      rewrite nth_error_map, HD, C4. cbn [option_map].
      rewrite fdiv_fin by lra. rewrite (Rabs_right D) by lra.
      unfold fsub. cbn [fneg]. rewrite fadd_fin. cbn [fabs].
      do 2 f_equal. replace (D / 100 + - (D / 100)) with 0 by ring.
      apply Rabs_R0. }
  unfold print_summary. cbn [stokes_results]. unfold summary_numbers.
  cbn [data]. rewrite G0, G1, G2, G3, Gc, Hdop. cbn [as_float].
  rewrite E0, E1, E2, E3.
  rewrite asub_same_length.
  2:{ unfold adivs. rewrite length_map. congruence. }
  rewrite Hzero. rewrite (np_max_zeros n Hpos).
  eexists. split; [reflexivity|]. cbn [points dop_mean_difference dop_max_difference].
  split; [exact Hlen|]. split; [apply np_mean_zeros; exact Hpos | reflexivity].
Qed.

Lemma summary_reports_no_deviation_witness :
  exists s,
    print_summary (converted three_rows) = Summary s /\
    points s = 3%nat /\
    dop_mean_difference s = Fin 0 /\
    dop_max_difference s = Fin 0.
Proof.
  apply (summary_reports_no_deviation (loaded three_rows) (converted three_rows)
           three_rows (results_of three_rows) 3).
  - reflexivity.
  - unfold has_rows, three_rows. repeat constructor.
  - lia.
  - reflexivity.
  - intros i Hi.
    destruct i as [|[|[|i]]]; [| | |lia].
    + exists 100, 100, 45, 30. repeat split; try reflexivity; lra.
    + exists 90, 90, 0, 20. repeat split; try reflexivity; lra.
    + exists 80, 50, 45, 30. repeat split; try reflexivity; lra.
Defined.

(** X25. The summary needs data and results of the same length: when the
    engine holds a raw table of m rows next to Stokes results of n rows
    (as after loading another file without converting it), with n <> m and
    neither equal to 1, [print_summary] raises instead of printing. *)
Theorem summary_raises_on_stale_results
        (self : StokesParameters) (df sr : DataFrame) (n m : nat) :
  data self = Some df ->
  stokes_results self = Some sr ->
  has_rows m df ->
  has_rows n sr ->
  n <> m -> n <> 1%nat -> m <> 1%nat ->
  print_summary self = SummaryRaises.
Proof.
  intros Hd Hs Hm Hn Hne Hn1 Hm1.
  unfold print_summary. rewrite Hs. unfold summary_numbers. rewrite Hd.
  destruct (getitem sr "S0") as [[v0|]|]; cbn [as_float]; try reflexivity.
  destruct (describe v0); try reflexivity.
  destruct (getitem sr "S1") as [[v1|]|]; cbn [as_float]; try reflexivity.
  destruct (describe v1); try reflexivity.
  destruct (getitem sr "S2") as [[v2|]|]; cbn [as_float]; try reflexivity.
  destruct (describe v2); try reflexivity.
  destruct (getitem sr "S3") as [[v3|]|]; cbn [as_float]; try reflexivity.
  destruct (describe v3); try reflexivity.
  destruct (getitem df "DOP [%]") as [[v_dop|]|] eqn:Gd; cbn [as_float];
    try reflexivity.
  destruct (getitem sr "DOP_calculated") as [[vc|]|] eqn:Gc; cbn [as_float];
    try reflexivity.
  pose proof (has_rows_getitem _ _ _ _ Hm Gd) as Ld.
  pose proof (has_rows_getitem _ _ _ _ Hn Gc) as Lc.
  simpl in Ld, Lc.
  rewrite asub_mismatch; [reflexivity | | |];
    unfold adivs; rewrite ?length_map; congruence.
Qed.

Lemma summary_raises_on_stale_results_witness :
  print_summary {| data := Some three_rows;
                   stokes_results := Some (results_of two_azimuths) |}
  = SummaryRaises.
Proof.
  apply (summary_raises_on_stale_results
           {| data := Some three_rows;
              stokes_results := Some (results_of two_azimuths) |}
           three_rows (results_of two_azimuths) 2 3); try reflexivity; try lia.
  - unfold has_rows, three_rows. repeat constructor.
  - unfold has_rows. repeat constructor.
Defined.
